(** * TWebWindowsManager: a shallow embedding of
      gui/webdisplay/src/TWebWindowsManager.cxx

    The manager owns a lazily created THttpServer, hands out window ids,
    builds window URLs, issues per-window session keys in [Show], launches
    display clients, kills them in [HaltClient] and offers the polling
    primitive [WaitFor].

    Conventions of the embedding.
    - C++ [int]/[unsigned] values are [Z].  An [int] read from the
      configuration is taken into the 32-bit range ([wrap_int]), and the
      one subtraction of the file that can leave that range,
      [http_max - http_min] of lines 124-125 and 134, is written with the
      two's-complement wrap-around that the usual compilers give it (the
      C++ standard leaves signed overflow undefined); [std::stoi] has its
      range check.  The other arithmetic of the file (loop counters
      counting down from 100 and 1000) cannot leave the range.
    - A [double] that a collaborator hands over is the rational it
      denotes; the one computation on doubles that rounds, the port of
      line 134, is done in IEEE binary64 (module [Dbl]).
    - [std::string] and [TString] are [string]; the library operations used
      by the file ([find], [substr], [ReplaceAll], [Tokenize], ...) are
      written out below with the semantics of their C++ originals.
    - The objects the file talks to (gEnv, gRandom, gSystem, gROOT,
      THttpServer::CreateEngine, posix_spawn) are oracles collected in the
      record [Env]; what the file does to them is logged in [State].
    - A call can end normally, by a C++ exception, by undefined behaviour
      (null dereference) or by running out of the fuel that the model gives
      to a loop: type [Outcome].  [WaitFor] need not terminate; the bind
      loop of [CreateHttpServer] always does
      ([ServerFacts.CreateHttpServer_returns]). *)

From Stdlib Require Import ZArith QArith Qround Lia Bool SpecFloat.
From Stdlib Require Import Ascii DecimalString DecimalZ DecimalPos DecimalN.
From stdpp Require Import base option list gmap strings fin_maps.

Local Open Scope Z_scope.

(* ===================================================================== *)
(** * 1. Outcomes of a call                                               *)
(* ===================================================================== *)

(** C++ exceptions that leave [std::stoi]. *)
Inductive Exception : Type :=
| invalid_argument
| out_of_range.

Inductive Outcome (A : Type) : Type :=
| Normal (a : A)          (* the call returned [a] *)
| Raised (e : Exception)  (* an exception propagates to the caller *)
| Undef                   (* undefined behaviour: null pointer dereference *)
| NoFuel.                 (* the model's fuel ran out; the code is still running *)

Arguments Normal {A} a.
Arguments Raised {A} e.
Arguments Undef {A}.
Arguments NoFuel {A}.

Definition obind {A B} (c : Outcome A) (k : A -> Outcome B) : Outcome B :=
  match c with
  | Normal a => k a
  | Raised e => Raised e
  | Undef => Undef
  | NoFuel => NoFuel
  end.

Notation "'run' p := c 'in' k" := (obind c (fun p => k))
  (at level 10, p pattern, c at level 200, k at level 200, only parsing).

Definition is_Normal {A} (c : Outcome A) : bool :=
  match c with Normal _ => true | _ => false end.

(* ===================================================================== *)
(** * 2. Strings: std::string, TString, std::to_string, std::stoi         *)
(* ===================================================================== *)

Module Str.

(** [s.find(pat)]: position of the first occurrence, [None] for [npos]. *)
Definition find (s pat : string) : option nat := String.index 0 pat s.

(** [s.find(pat) != std::string::npos], also [strstr(s, pat) != 0]. *)
Definition contains (s pat : string) : bool :=
  match find s pat with Some _ => true | None => false end.

(** [s.find(pat) != 0]. *)
Definition find_ne_0 (s pat : string) : bool :=
  match find s pat with Some O => false | _ => true end.

(** [s.substr(pos)] for [pos <= s.size()] (the only use in the file comes
    after a test that [s] starts with four characters). *)
Fixpoint substr (s : string) (pos : nat) {struct pos} : string :=
  match pos, s with
  | O, _ => s
  | S p, EmptyString => EmptyString
  | S p, String _ s' => substr s' p
  end.

Definition empty (s : string) : bool := String.eqb s "".

(** [TString::ReplaceAll(pat, repl)]: left to right, every occurrence that
    does not overlap an earlier one; the replacement text is not scanned
    again.  An empty pattern changes nothing.  [skip] counts the characters
    of a matched occurrence that are still to be dropped. *)
Fixpoint ReplaceAll_go (pat repl : string) (skip : nat) (s : string) : string :=
  match s with
  | EmptyString => EmptyString
  | String c s' =>
      match skip with
      | S k => ReplaceAll_go pat repl k s'
      | O =>
          if String.prefix pat s
          then repl +:+ ReplaceAll_go pat repl (String.length pat - 1) s'
          else String c (ReplaceAll_go pat repl 0 s')
      end
  end.

Definition ReplaceAll (s pat repl : string) : string :=
  if empty pat then s else ReplaceAll_go pat repl 0 s.

(** [TString::Tokenize(" ")]: the maximal runs of characters other than the
    delimiter; empty tokens are not produced. *)
Fixpoint Tokenize_go (delim : ascii) (cur : string) (s : string) : list string :=
  match s with
  | EmptyString => if empty cur then [] else [cur]
  | String c s' =>
      if Ascii.eqb c delim
      then (if empty cur then Tokenize_go delim "" s'
            else cur :: Tokenize_go delim "" s')
      else Tokenize_go delim (cur +:+ String c "") s'
  end.

Definition Tokenize (s : string) (delim : ascii) : list string :=
  Tokenize_go delim "" s.

(** [TObjArray::GetLast()]: index of the last element, -1 when empty. *)
Definition GetLast {A} (l : list A) : Z := Z.of_nat (List.length l) - 1.

(** [std::to_string] of an [int] or [unsigned]: decimal, a leading minus
    sign for negative values, no padding. *)
Definition to_string (z : Z) : string :=
  NilZero.string_of_int (Z.to_int z).

Definition is_digit (c : ascii) : bool :=
  let n := N_of_ascii c in ((48 <=? n) && (n <=? 57))%N.

(** [isspace] in the C locale. *)
Definition isspace (c : ascii) : bool :=
  let n := N_of_ascii c in ((n =? 32) || ((9 <=? n) && (n <=? 13)))%N.

Definition digit_val (c : ascii) : Z := Z.of_N (N_of_ascii c) - 48.

Fixpoint skip_space (s : string) : string :=
  match s with
  | String c s' => if isspace c then skip_space s' else s
  | EmptyString => s
  end.

(** The digits at the front of [s], most significant first; [None] when
    [s] does not start with a digit. *)
Fixpoint read_digits (acc : option Z) (s : string) : option Z :=
  match s with
  | String c s' =>
      if is_digit c
      then read_digits (Some (10 * default 0 acc + digit_val c)) s'
      else acc
  | EmptyString => acc
  end.

Definition INT_MAX : Z := 2147483647.
Definition INT_MIN : Z := -2147483648.

(** [std::stoi(s)] (base 10): skips leading white space, takes an optional
    sign and the longest run of digits, ignores what follows;
    [std::invalid_argument] when there is no digit, [std::out_of_range]
    when the value does not fit an [int]. *)
Definition stoi (s : string) : Outcome Z :=
  let s1 := skip_space s in
  let '(neg, s2) :=
    match s1 with
    | String "-" r => (true, r)
    | String "+" r => (false, r)
    | _ => (false, s1)
    end in
  match read_digits None s2 with
  | None => Raised invalid_argument
  | Some v =>
      let n := if neg then - v else v in
      if (INT_MIN <=? n) && (n <=? INT_MAX) then Normal n
      else Raised out_of_range
  end.

End Str.

(* ===================================================================== *)
(** * 3. The world around the manager                                     *)
(* ===================================================================== *)

(** The values of type [double] that the collaborators hand over (random
    numbers, times) are given as the rationals they denote; comparing them
    and scaling them by a power of two is exact.  [(int)x] truncates
    towards 0. *)
Definition Q_to_int (q : Q) : Z := Z.quot (Qnum q) (Zpos (Qden q)).

(** The arithmetic on [double] that rounds (line 134), in IEEE binary64
    with rounding to nearest even, as the standard library specifies it. *)
Module Dbl.

Definition prec : Z := 53.
Definition emax : Z := 1024.

(** An [int] converted to [double]; exact. *)
Definition of_int (z : Z) : spec_float := binary_normalize prec emax z 0 false.

(** The [double] that a rational stands for: the one nearest to it (the
    rational itself when it is a [double]). *)
Definition of_Q (q : Q) : spec_float :=
  SFdiv prec emax (of_int (Qnum q)) (of_int (Zpos (Qden q))).

Definition mul : spec_float -> spec_float -> spec_float := SFmul prec emax.
Definition add : spec_float -> spec_float -> spec_float := SFadd prec emax.

(** [(int)x] for a finite [x]: truncation towards 0.  The conversion of
    an infinity or of a NaN, which C++ leaves undefined, is not met for a
    random number in (0,1); it is given the value 0. *)
Definition to_int (x : spec_float) : Z :=
  match x with
  | S754_finite s m e =>
      let v := match e with
               | Zneg p => Z.shiftr (Zpos m) (Zpos p)
               | _ => Z.shiftl (Zpos m) e
               end in
      if s then - v else v
  | _ => 0
  end.

End Dbl.

(** [a < b] on doubles. *)
Definition Qltb (a b : Q) : bool := negb (Qle_bool b a).

(** What the manager does to its collaborators, oldest event last. *)
Inductive Event : Type :=
| EvError (msg : string)                       (* R__ERROR_HERE *)
| EvSetSeed (seed : Z)                         (* gRandom->SetSeed *)
| EvRndm                                       (* one number drawn from gRandom *)
| EvCreateEngine (engine : string) (ok : bool) (* THttpServer::CreateEngine *)
| EvRegister (path handler : string)           (* THttpServer::Register *)
| EvUnregister (handler : string)              (* THttpServer::Unregister *)
| EvLoad (lib : string)                        (* gSystem->Load *)
| EvCef (url : string) (batch : bool) (rootsys cef_path : string) (w h : Z)
| EvQt5 (url : string) (batch : bool) (w h : Z)
| EvSpawn (argv : list string) (status pid : Z) (* posix_spawn *)
| EvExec (cmd : string)                        (* gSystem->Exec *)
| EvKill (pid sig : Z)                         (* kill *)
| EvProcessEvents                              (* gSystem->ProcessEvents *)
| EvSleep (ms : Z).                            (* gSystem->Sleep *)

Definition SIGKILL : Z := 9.

(** Compile-time switches of the translation unit, and the default
    argument of [CreateHttpServer], which is declared in the header. *)
Record Build : Type := {
  R__HAS_CEFWEB : bool;
  R__HAS_QT5WEB : bool;
  R__MACOSX : bool;
  R__LINUX : bool;
  MSC_VER : bool;
  CreateHttpServer_default : bool
}.

(** The collaborators as oracles.  An answer may depend on everything that
    happened before, so the stateful ones take the trace. *)
Record Env : Type := {
  gEnv_int : gmap string Z;                   (* gEnv->GetValue(name, int) *)
  gEnv_str : gmap string string;              (* gEnv->GetValue(name, const char* ) *)
  gEnv_double : gmap string Q;                (* gEnv->GetValue(name, double) *)
  Rndm : list Event -> Q;                     (* gRandom->Rndm() *)
  CreateEngine : list Event -> string -> bool;
  Getenv : string -> option string;           (* gSystem->Getenv *)
  AccessPathName : string -> bool;            (* false when the path is accessible *)
  DynFindSymbol : list Event -> string -> bool;
  InheritsFrom : string -> bool;              (* gSystem->InheritsFrom *)
  posix_spawn : list Event -> list string -> Z * Z;  (* (status, pid) *)
  GetWebDisplay : string;                     (* gROOT->GetWebDisplay() *)
  IsWebDisplayBatch : bool;                   (* gROOT->IsWebDisplayBatch() *)
  handler_name : Z -> string;                 (* name given by CreateWSHandler *)
  RealTime : list Event -> Q                  (* TStopwatch::RealTime() *)
}.

(** A value as a 32-bit [int]: two's-complement wrap-around. *)
Definition wrap_int (z : Z) : Z :=
  (z - Str.INT_MIN) mod 4294967296 + Str.INT_MIN.

(** [gEnv->GetValue(name, dflt)] with an [int] default returns an [int]. *)
Definition GetValue_int (env : Env) (name : string) (dflt : Z) : Z :=
  wrap_int (default dflt (gEnv_int env !! name)).
Definition GetValue_str (env : Env) (name : string) (dflt : string) : string :=
  default dflt (gEnv_str env !! name).
Definition GetValue_double (env : Env) (name : string) (dflt : Q) : Q :=
  default dflt (gEnv_double env !! name).

(** The THttpServer object: the engines it runs and the handlers
    registered with it. *)
Record THttpServer : Type := {
  srv_name : string;
  srv_engines : list string;
  srv_handlers : list string
}.

(** The manager's members ([fServer], [fAddr], [fIdCnt]) and the trace of
    the process.

    Modelled from the spec: the type of [fIdCnt] is declared in the header,
    which is not under src/; the spec (3) has the window id as an integer
    taken from a monotonically increasing counter, so the counter is an
    integer without wrap-around. *)
Record State : Type := {
  fServer : option THttpServer;
  fAddr : string;
  fIdCnt : Z;
  trace : list Event
}.

Definition log (e : Event) (st : State) : State :=
  {| fServer := fServer st; fAddr := fAddr st; fIdCnt := fIdCnt st;
     trace := e :: trace st |}.

Definition R__ERROR_HERE (msg : string) (st : State) : State := log (EvError msg) st.

Definition set_fServer (srv : THttpServer) (st : State) : State :=
  {| fServer := Some srv; fAddr := fAddr st; fIdCnt := fIdCnt st;
     trace := trace st |}.

Definition set_fAddr (a : string) (st : State) : State :=
  {| fServer := fServer st; fAddr := a; fIdCnt := fIdCnt st;
     trace := trace st |}.

Definition set_fIdCnt (n : Z) (st : State) : State :=
  {| fServer := fServer st; fAddr := fAddr st; fIdCnt := n;
     trace := trace st |}.

(** Number of [CreateEngine] calls (bind attempts) in a trace. *)
Fixpoint bind_attempts (tr : list Event) : nat :=
  match tr with
  | [] => O
  | EvCreateEngine _ _ :: tr' => S (bind_attempts tr')
  | _ :: tr' => bind_attempts tr'
  end.

(** The initial manager: [TWebWindowsManager() = default]. *)
Definition initial : State :=
  {| fServer := None; fAddr := ""; fIdCnt := 0; trace := [] |}.

(** A TWebWindow, as far as the manager looks into it. *)
Record TWebWindow : Type := {
  fId : Z;
  fBatchMode : bool;
  fWidth : Z;
  fHeight : Z;
  fWSHandler : option string;     (* the handler, by its name *)
  fKeys : gmap string string      (* key -> tag of the launched client *)
}.

(** Modelled from the spec: TWebWindow::HasKey, declared in the window's
    header, which is not under src/; the spec (3, 4.3) has the issued keys
    as a mapping from key to launch tag and [HasKey] as the membership
    test. *)
Definition HasKey (win : TWebWindow) (key : string) : bool :=
  bool_decide (is_Some (fKeys win !! key)).

(** Modelled from the spec: TWebWindow::AddKey, declared in the window's
    header, which is not under src/; it records [key -> tag]. *)
Definition AddKey (key tag : string) (win : TWebWindow) : TWebWindow :=
  {| fId := fId win; fBatchMode := fBatchMode win; fWidth := fWidth win;
     fHeight := fHeight win; fWSHandler := fWSHandler win;
     fKeys := <[key := tag]> (fKeys win) |}.

(** A default-constructed window. *)
Definition new_window : TWebWindow :=
  {| fId := 0; fBatchMode := false; fWidth := 0; fHeight := 0;
     fWSHandler := None; fKeys := ∅ |}.

(* ===================================================================== *)
(** * 4. CreateHttpServer (lines 95-166)                                  *)
(* ===================================================================== *)

(** The configuration read at lines 103-113. *)
Record HttpConfig : Type := {
  http_min : Z;
  http_max : Z;
  http_wstmout : Z;
  assign_loopback : bool;
  http_bind : string;
  use_secure : bool;
  ssl_cert : string
}.

Definition read_config (env : Env) : HttpConfig :=
  {| http_min := GetValue_int env "WebGui.HttpPortMin" 8800;
     http_max := GetValue_int env "WebGui.HttpPortMax" 9800;
     http_wstmout := GetValue_int env "WebGui.HttpWStmout" 10000;
     assign_loopback := Str.contains (GetValue_str env "WebGui.HttpLoopback" "no") "yes";
     http_bind := GetValue_str env "WebGui.HttpBind" "";
     use_secure := Str.contains (GetValue_str env "WebGui.UseHttps" "no") "yes";
     ssl_cert := GetValue_str env "WebGui.ServerCert" "rootserver.pem" |}.

(** Lines 137-153: the engine specification and the URL prefix. *)
Definition engine_and_url (c : HttpConfig) (http_port : Z) : string * string :=
  let url := if use_secure c then "https://" else "http://" in
  let engine := (if use_secure c then "https" else "http") +:+ ":" +:+
                Str.to_string http_port +:+ "?websocket_timeout=" +:+
                Str.to_string (http_wstmout c) in
  let '(engine, url) :=
    if assign_loopback c then (engine +:+ "&loopback", url +:+ "localhost")
    else if (0 <? Z.of_nat (String.length (http_bind c)))
    then (engine +:+ "&bind=" +:+ http_bind c, url +:+ http_bind c)
    else (engine, url +:+ "localhost") in
  let engine := if use_secure c then engine +:+ "&ssl_cert=" +:+ ssl_cert c
                else engine in
  (engine, url).

(** [fServer->CreateEngine(engine)]: the oracle answers; a created engine
    is kept by the server. *)
Definition do_CreateEngine (env : Env) (engine : string) (srv : THttpServer)
    (st : State) : bool * State :=
  let ok := CreateEngine env (trace st) engine in
  let srv' := if ok
              then {| srv_name := srv_name srv;
                      srv_engines := engine :: srv_engines srv;
                      srv_handlers := srv_handlers srv |}
              else srv in
  (ok, log (EvCreateEngine engine ok) (set_fServer srv' st)).

(** [http_max - http_min] as the [int] subtraction of lines 124-125 and
    134. *)
Definition range_width (c : HttpConfig) : Z := wrap_int (http_max c - http_min c).

(** Line 134, [(int)(http_min + (http_max - http_min) * gRandom->Rndm(1))]:
    the [int] difference and [http_min] are converted to [double], the
    product and the sum are rounded, the result is truncated.  For a
    random number close enough to 1 the sum rounds up to [http_max]. *)
Definition draw_port (env : Env) (c : HttpConfig) (st : State) : Z * State :=
  let r := Rndm env (trace st) in
  (Dbl.to_int (Dbl.add (Dbl.of_int (http_min c))
                       (Dbl.mul (Dbl.of_int (range_width c)) (Dbl.of_Q r))),
   log EvRndm st).

(** The loop of lines 127-163; [ntry] and [http_port] are the C variables
    at the loop test. *)
Fixpoint CreateHttpServer_loop (fuel : nat) (env : Env) (c : HttpConfig)
    (ntry http_port : Z) (st : State) : Outcome (bool * State) :=
  match fuel with
  | O => NoFuel
  | S fuel' =>
      if ntry >=? 0 then                       (* while (ntry-- >= 0) *)
        let ntry := ntry - 1 in
        if (http_port =? 0) &&
           ((http_min c <=? 0) || (http_max c <=? http_min c))
        then Normal (false,
               R__ERROR_HERE "Wrong HTTP range configuration, check WebGui.HttpPortMin/Max variables" st)
        else
          let '(http_port, st) :=
            if http_port =? 0 then draw_port env c st else (http_port, st) in
          let '(engine, url) := engine_and_url c http_port in
          match fServer st with
          | None => Undef
          | Some srv =>
              let '(ok, st) := do_CreateEngine env engine srv st in
              if ok
              then Normal (true, set_fAddr (url +:+ ":" +:+ Str.to_string http_port) st)
              else CreateHttpServer_loop fuel' env c ntry 0 st
          end
      else Normal (false, st)                  (* line 165 *)
  end.

(** [ntry] is at most 100 at the loop, which therefore makes at most 102
    tests. *)
Definition CreateHttpServer_fuel : nat := 102.

(** Lines 97-98: [if (!fServer) fServer = std::make_unique<THttpServer>(...)]. *)
Definition ensure_fServer (st : State) : State :=
  match fServer st with
  | None => set_fServer {| srv_name := "basic_sniffer";
                           srv_engines := []; srv_handlers := [] |} st
  | Some _ => st
  end.

Definition CreateHttpServer (env : Env) (with_http : bool) (st : State)
    : Outcome (bool * State) :=
  let st := ensure_fServer st in
  if negb with_http || negb (Str.empty (fAddr st)) then Normal (true, st)
  else
    let http_port := GetValue_int env "WebGui.HttpPort" 0 in
    let c := read_config env in
    let ntry := 100 in
    if http_port <? 0
    then Normal (false,
           R__ERROR_HERE "Not allowed to create real HTTP server, check WebGui.HttpPort variable" st)
    else
      let st := if http_port =? 0 then log (EvSetSeed 0) st else st in
      let ntry := if range_width c <? ntry
                  then range_width c else ntry in
      CreateHttpServer_loop CreateHttpServer_fuel env c ntry http_port st.

(* ===================================================================== *)
(** * 5. CreateWindow, Unregister, GetUrl (lines 172-249)                 *)
(* ===================================================================== *)

Definition srv_Register (h : string) (srv : THttpServer) : THttpServer :=
  {| srv_name := srv_name srv; srv_engines := srv_engines srv;
     srv_handlers := h :: srv_handlers srv |}.

Definition srv_Unregister (h : string) (srv : THttpServer) : THttpServer :=
  {| srv_name := srv_name srv; srv_engines := srv_engines srv;
     srv_handlers := List.filter (fun x => negb (String.eqb x h)) (srv_handlers srv) |}.

(** [nullptr] is [None].  [std::make_shared] does not return null, so the
    test of line 181 never fires. *)
Definition CreateWindow (env : Env) (bld : Build) (batch_mode : bool)
    (st : State) : Outcome (option TWebWindow * State) :=
  run (ok, st) := CreateHttpServer env (CreateHttpServer_default bld) st in
  if negb ok
  then Normal (None, R__ERROR_HERE "Cannot create http server when creating window" st)
  else
    let id := fIdCnt st + 1 in                 (* ++fIdCnt *)
    let st := set_fIdCnt id st in
    let name := handler_name env id in         (* win->CreateWSHandler() *)
    let win := {| fId := id;
                  fBatchMode := batch_mode || IsWebDisplayBatch env;
                  fWidth := 0; fHeight := 0;
                  fWSHandler := Some name; fKeys := ∅ |} in
    match fServer st with
    | None => Undef
    | Some srv =>
        Normal (Some win,
                log (EvRegister "/web7gui" name) (set_fServer (srv_Register name srv) st))
    end.

Definition Unregister (win : TWebWindow) (st : State) : Outcome State :=
  match fWSHandler win with
  | None => Normal st
  | Some h =>
      match fServer st with
      | None => Undef
      | Some srv => Normal (log (EvUnregister h) (set_fServer (srv_Unregister h srv) st))
      end
  end.

Definition GetUrl (env : Env) (win : TWebWindow) (remote : bool) (st : State)
    : Outcome (string * State) :=
  match fServer st with
  | None =>
      Normal ("", R__ERROR_HERE "Server instance not exists when requesting window URL" st)
  | Some _ =>
      match fWSHandler win with
      | None => Undef                          (* ->GetName() on a null handler *)
      | Some name =>
          let addr := "/web7gui/" +:+ name in
          let addr := if fBatchMode win then addr +:+ "/?batch_mode"
                      else addr +:+ "/" in
          if remote then
            run (ok, st) := CreateHttpServer env true st in
            if negb ok
            then Normal ("", R__ERROR_HERE "Fail to start real HTTP server when requesting URL" st)
            else Normal (fAddr st +:+ addr, st)
          else Normal (addr, st)
      end
  end.

(* ===================================================================== *)
(** * 6. HaltClient (lines 498-509)                                       *)
(* ===================================================================== *)

Definition HaltClient (bld : Build) (procid : string) (st : State) : Outcome State :=
  if Str.find_ne_0 procid "pid:" then Normal st
  else
    run pid := Str.stoi (Str.substr procid 4) in
    if negb (MSC_VER bld)
    then (if pid >? 0 then Normal (log (EvKill pid SIGKILL) st) else Normal st)
    else Normal (R__ERROR_HERE ("kill process on Windows not yet implemented " +:+
                                Str.to_string pid) st).

(* ===================================================================== *)
(** * 7. WaitFor (lines 520-543)                                          *)
(* ===================================================================== *)

(** The check function may look at the world, so it takes the trace. *)
Definition WebWindowWaitFunc_t : Type := list Event -> Q -> Z.

(** The loop of lines 529-538; [spent] is the C variable at the loop test. *)
Fixpoint WaitFor_loop (fuel : nat) (env : Env) (check : WebWindowWaitFunc_t)
    (timelimit spent : Q) (st : State) : Outcome (Z * State) :=
  match fuel with
  | O => NoFuel
  | S fuel' =>
      let res := check (trace st) spent in
      if res =? 0 then
        let st := log (EvSleep 10) (log EvProcessEvents st) in
        let spent := RealTime env (trace st) in
        if Qltb 0 timelimit && Qltb timelimit spent
        then Normal (0, st)
        else WaitFor_loop fuel' env check timelimit spent st
      else Normal (res, st)
  end.

(** Line 527: [if (timelimit < 0) timelimit = gEnv->GetValue(...)]. *)
Definition effective_limit (env : Env) (timelimit : Q) : Q :=
  if Qltb timelimit 0 then GetValue_double env "WebGui.WaitForTmout" 100
  else timelimit.

Definition WaitFor (fuel : nat) (env : Env) (check : WebWindowWaitFunc_t)
    (timelimit : Q) (st : State) : Outcome (Z * State) :=
  WaitFor_loop fuel env check (effective_limit env timelimit) 0 st.

(* ===================================================================== *)
(** * 8. Show (lines 270-492)                                             *)
(* ===================================================================== *)

(** Modelled from the spec: TRandom::Integer, which is not under src/; the
    spec (3) has the key drawn from [0, imax); the draw is the next
    uniform number of the generator, in (0,1), scaled by [imax] and
    truncated. *)
Definition gRandom_Integer (env : Env) (imax : Z) (st : State) : Z * State :=
  (Q_to_int (inject_Z imax * Rndm env (trace st))%Q, log EvRndm st).

(** Lines 280-282: [do { key = ... } while ((--ntry > 0) && win.HasKey(key))].
    The argument is the value of [ntry] before the body, the result carries
    its value after the loop. *)
Fixpoint Show_keyloop (env : Env) (win : TWebWindow) (ntry : nat) (st : State)
    : string * Z * State :=
  let '(r, st) := gRandom_Integer env 1048576 st in
  let key := Str.to_string r in
  match ntry with
  | O => (key, -1, st)
  | S n =>                                     (* --ntry *)
      if (0 <? Z.of_nat n) && HasKey win key
      then Show_keyloop env win n st
      else (key, Z.of_nat n, st)
  end.

(** Lines 288-293: the local URL with the key. *)
Definition Show_addr (env : Env) (win : TWebWindow) (key : string) (st : State)
    : Outcome (string * State) :=
  run (addr, st) := GetUrl env win false st in
  let addr := if Str.contains addr "?" then addr +:+ "&key=" else addr +:+ "?key=" in
  Normal (addr +:+ key, st).

(** How [where] was read, lines 299-305. *)
Record Where : Type := {
  is_native : bool;
  is_qt5 : bool;
  is_cef : bool;
  is_chrome : bool;
  is_firefox : bool
}.

Definition classify (bld : Build) (where_ : string) : Where :=
  let native := Str.empty where_ || String.eqb where_ "native" in
  {| is_native := native;
     is_qt5 := String.eqb where_ "qt5";
     is_cef := if R__HAS_CEFWEB bld && native then true else String.eqb where_ "cef";
     is_chrome := String.eqb where_ "chrome" || String.eqb where_ "chromium";
     is_firefox := String.eqb where_ "firefox" |}.

(** A block of [Show] either returns from [Show] or falls through. *)
Inductive Step : Type :=
| Return (r : bool) (win : TWebWindow) (st : State)
| Continue (st : State).

(** Lines 307-321. *)
Definition Show_batch_check (env : Env) (k : Where) (win : TWebWindow) (st : State) : Step :=
  if fBatchMode win then
    if negb (is_cef k) && negb (is_chrome k) && negb (is_firefox k)
    then Return false win
           (R__ERROR_HERE "To use batch mode 'cef' or 'chromium' or 'firefox' should be configured as output" st)
    else if is_cef k then
      match Getenv env "DISPLAY" with
      | Some displ =>
          if Str.empty displ
          then Return false win
                 (R__ERROR_HERE "To use CEF in batch mode DISPLAY variable should be set. See gui/cefdisplay/Readme.md for more info" st)
          else Continue st
      | None =>
          Return false win
            (R__ERROR_HERE "To use CEF in batch mode DISPLAY variable should be set. See gui/cefdisplay/Readme.md for more info" st)
      end
    else Continue st
  else Continue st.

(** [DynFindSymbol], and once more after loading the library when the
    symbol was not there (lines 329-335 and 352-357). *)
Definition find_or_load (env : Env) (symbol lib : string) (st : State) : bool * State :=
  if DynFindSymbol env (trace st) symbol then (true, st)
  else
    let st := log (EvLoad lib) st in
    (DynFindSymbol env (trace st) symbol, st).

(** Lines 323-347. *)
Definition Show_cef (env : Env) (bld : Build) (k : Where) (win : TWebWindow)
    (key addr : string) (st : State) : Step :=
  if R__HAS_CEFWEB bld then
    match Getenv env "CEF_PATH", Getenv env "ROOTSYS" with
    | Some cef_path, Some rootsys =>
        if negb (AccessPathName env cef_path) && (is_native k || is_cef k) then
          let '(symbol_cef, st) :=
            find_or_load env "webgui_start_browser_in_cef3" "libROOTCefDisplay" st in
          if symbol_cef
          then Return true (AddKey key "cef" win)
                 (log (EvCef addr (fBatchMode win) rootsys cef_path
                         (fWidth win) (fHeight win)) st)
          else Continue st
        else Continue st
    | _, _ => Continue st
    end
  else Continue st.

(** Lines 349-367. *)
Definition Show_qt5 (env : Env) (bld : Build) (k : Where) (win : TWebWindow)
    (key addr : string) (st : State) : Step :=
  if R__HAS_QT5WEB bld && (is_native k || is_qt5 k) then
    let '(symbol_qt5, st) :=
      find_or_load env "webgui_start_browser_in_qt5" "libROOTQt5WebDisplay" st in
    if symbol_qt5
    then Return true (AddKey key "qt5" win)
           (log (EvQt5 addr (fBatchMode win) (fWidth win) (fHeight win)) st)
    else Continue st
  else Continue st.

(** Lines 380-435: the program, the programs to probe and the command
    template. *)
Definition Show_template (env : Env) (bld : Build) (k : Where) (win : TWebWindow)
    (where_ : string) : string * list string * string :=
  if is_chrome k then
    (GetValue_str env "WebGui.Chrome" "",
     (if R__MACOSX bld
      then ["/Applications/Googl Chrome.app/Contents/MacOS/Google Chrome"] else []) ++
     (if R__LINUX bld
      then ["/usr/bin/chromium"; "/usr/bin/chromium-browser"; "/usr/bin/chrome-browser"]
      else []),
     if fBatchMode win
     then GetValue_str env "WebGui.ChromeBatch"
            "fork:--headless --disable-gpu --disable-webgl --remote-debugging-socket-fd=0 $url"
     else GetValue_str env "WebGui.ChromeInteractive"
            "$prog --window-size=$width,$height --app='$url' &")
  else if is_firefox k then
    (GetValue_str env "WebGui.Firefox" "",
     (if R__MACOSX bld then ["/Applications/Firefox.app/Contents/MacOS/firefox"] else []) ++
     (if R__LINUX bld then ["/usr/bin/firefox"] else []),
     if fBatchMode win
     then GetValue_str env "WebGui.FirefoxBatch"
            "fork:-headless -no-remote -window-size=$width,$height $url"
     else GetValue_str env "WebGui.FirefoxInteractive" "$prog '$url' &")
  else if negb (is_native k) && negb (is_cef k) && negb (is_qt5 k) &&
          negb (String.eqb where_ "browser") then
    (where_, [], if Str.contains where_ "$" then where_ else "$prog $url &")
  else if InheritsFrom env "TMacOSXSystem" then (where_, [], "open '$url'")
  else if InheritsFrom env "TWinNTSystem" then (where_, [], "start $url")
  else (where_, [], "xdg-open '$url' &").

(** Lines 437-444: the first accessible program of the list, else [where]. *)
Definition Show_prog (env : Env) (prog : string) (testprogs : list string)
    (where_ : string) : string :=
  if Z.of_nat (String.length prog) =? 0 then
    let prog := match List.find (fun p => negb (AccessPathName env p)) testprogs with
                | Some p => p
                | None => prog
                end in
    if Z.of_nat (String.length prog) =? 0 then where_ else prog
  else prog.

(** Lines 450-477: the [fork:] branch; [exec] still has its marker. *)
Definition Show_fork (env : Env) (bld : Build) (win : TWebWindow)
    (key prog exec : string) (st : State) : bool * TWebWindow * State :=
  let exec := Str.substr exec 5 in             (* exec.Remove(0, 5) *)
  if negb (MSC_VER bld) then
    let args := Str.Tokenize exec " " in
    if Str.GetLast args <=? 0 then (false, win, st)
    else
      let argv := prog :: args in
      let '(status, pid) := posix_spawn env (trace st) argv in
      let st := log (EvSpawn argv status pid) st in
      if negb (status =? 0)
      then (false, win, R__ERROR_HERE ("Fail to launch " +:+ prog) st)
      else (true, AddKey key ("pid:" +:+ Str.to_string pid) win, st)
  else (false, win, R__ERROR_HERE "fork() not yet supported on Windows" st).

(** Lines 369-492: everything after the embedded displays. *)
Definition Show_browser (env : Env) (bld : Build) (k : Where) (win : TWebWindow)
    (where_ key addr : string) (st : State) : Outcome (bool * TWebWindow * State) :=
  run (ok, st) := CreateHttpServer env true st in
  if negb ok
  then Normal (false, win, R__ERROR_HERE "Fail to start real HTTP server" st)
  else
    let addr := fAddr st +:+ addr in
    let swidth := Str.to_string (if fWidth win =? 0 then 800 else fWidth win) in
    let sheight := Str.to_string (if fHeight win =? 0 then 600 else fHeight win) in
    let '(prog, testprogs, exec) := Show_template env bld k win where_ in
    let prog := Show_prog env prog testprogs where_ in
    let exec := Str.ReplaceAll exec "$url" addr in
    let exec := Str.ReplaceAll exec "$width" swidth in
    let exec := Str.ReplaceAll exec "$height" sheight in
    if negb (Str.find_ne_0 exec "fork:")        (* exec.Index("fork:") == 0 *)
    then Normal (Show_fork env bld win key prog exec st)
    else
      let prog := if R__MACOSX bld then Str.ReplaceAll prog " " "\ " else prog in
      let exec := Str.ReplaceAll exec "$prog" prog in
      let win := AddKey key where_ win in
      Normal (true, win, log (EvExec exec) st).

Definition Show (env : Env) (bld : Build) (win : TWebWindow) (_where : string)
    (st : State) : Outcome (bool * TWebWindow * State) :=
  match fServer st with
  | None => Normal (false, win, R__ERROR_HERE "Server instance not exists to show window" st)
  | Some _ =>
      let '(key, ntry, st) := Show_keyloop env win 1000 st in
      if ntry =? 0
      then Normal (false, win, R__ERROR_HERE "Fail to create unique key for the window" st)
      else
        run (addr, st) := Show_addr env win key st in
        let where_ := if Str.empty _where then GetWebDisplay env else _where in
        let k := classify bld where_ in
        match Show_batch_check env k win st with
        | Return r win st => Normal (r, win, st)
        | Continue st =>
            match Show_cef env bld k win key addr st with
            | Return r win st => Normal (r, win, st)
            | Continue st =>
                match Show_qt5 env bld k win key addr st with
                | Return r win st => Normal (r, win, st)
                | Continue st => Show_browser env bld k win where_ key addr st
                end
            end
        end
  end.

(* ===================================================================== *)
(** * 9. Vocabulary of the statements                                     *)
(* ===================================================================== *)

Module Vocab.
Import Str.

(** The value of a digit sequence read from the left with accumulator
    [acc]. *)
Fixpoint uint_val (acc : Z) (d : Decimal.uint) : Z :=
  match d with
  | Decimal.Nil => acc
  | Decimal.D0 d => uint_val (10 * acc + 0) d
  | Decimal.D1 d => uint_val (10 * acc + 1) d
  | Decimal.D2 d => uint_val (10 * acc + 2) d
  | Decimal.D3 d => uint_val (10 * acc + 3) d
  | Decimal.D4 d => uint_val (10 * acc + 4) d
  | Decimal.D5 d => uint_val (10 * acc + 5) d
  | Decimal.D6 d => uint_val (10 * acc + 6) d
  | Decimal.D7 d => uint_val (10 * acc + 7) d
  | Decimal.D8 d => uint_val (10 * acc + 8) d
  | Decimal.D9 d => uint_val (10 * acc + 9) d
  end.

Definition head_not_digit (s : string) : Prop :=
  match s with
  | EmptyString => True
  | String c _ => is_digit c = false
  end.

(** No integer at the front of [s]: after white space and an optional
    sign there is no digit. *)
Definition no_leading_number (s : string) : Prop :=
  match skip_space s with
  | EmptyString => True
  | String c r =>
      if Ascii.eqb c "-" || Ascii.eqb c "+" then head_not_digit r
      else is_digit c = false
  end.

(** Every character is a decimal digit and there is at least one. *)
Fixpoint all_digits (s : string) : bool :=
  match s with
  | EmptyString => true
  | String c s' => is_digit c && all_digits s'
  end.

Definition decimal_string (s : string) : Prop :=
  s <> "" /\ all_digits s = true.

(** The outcome of a block of [Show] that has drawn [key]: the window id
    counter is untouched, a failing return leaves the window alone, a
    successful one records exactly [key]. *)
Definition records (key : string) (win : TWebWindow) (st : State)
    (r : bool) (win' : TWebWindow) (st' : State) : Prop :=
  fIdCnt st' = fIdCnt st /\
  (r = false -> win' = win) /\
  (r = true -> exists tag, win' = AddKey key tag win).

End Vocab.

(** A Linux build without the embedded displays, and collaborators that
    always answer the same: the concrete inputs of the examples. *)
Definition linux_build : Build :=
  {| R__HAS_CEFWEB := false; R__HAS_QT5WEB := false; R__MACOSX := false;
     R__LINUX := true; MSC_VER := false; CreateHttpServer_default := false |}.

Definition const_env (ints : gmap string Z) (rnd : list Event -> Q)
    (bind_ok : list Event -> string -> bool) : Env :=
  {| gEnv_int := ints; gEnv_str := ∅; gEnv_double := ∅;
     Rndm := rnd;
     CreateEngine := bind_ok;
     Getenv := fun _ => None;
     AccessPathName := fun _ => true;
     DynFindSymbol := fun _ _ => false;
     InheritsFrom := fun _ => false;
     posix_spawn := fun _ _ => (0, 4242);
     GetWebDisplay := "";
     IsWebDisplayBatch := false;
     handler_name := fun id => "win" +:+ Str.to_string id;
     RealTime := fun tr => (inject_Z (Z.of_nat (List.length tr)) / 100)%Q |}.

(** Every bind fails (all ports taken), default configuration. *)
Definition env_all_busy : Env :=
  const_env ∅ (fun _ => 1 # 2)%Q (fun _ _ => false).

(** Every bind fails, a range with a single port. *)
Definition env_one_port_busy : Env :=
  const_env (<["WebGui.HttpPortMin" := 8800]> (<["WebGui.HttpPortMax" := 8801]> ∅))
            (fun _ => 1 # 2)%Q (fun _ _ => false).

(** Every bind succeeds, default configuration. *)
Definition env_free : Env :=
  const_env ∅ (fun _ => 1 # 2)%Q (fun _ _ => true).

(** A fixed port together with a range whose lower end is 0. *)
Definition env_fixed_port_bad_range : Env :=
  const_env (<["WebGui.HttpPort" := 8080]> (<["WebGui.HttpPortMin" := 0]> ∅))
            (fun _ => 1 # 2)%Q (fun _ _ => true).

(** Negative fixed port. *)
Definition env_negative_port : Env :=
  const_env (<["WebGui.HttpPort" := -1]> ∅) (fun _ => 1 # 2)%Q (fun _ _ => true).

(** No fixed port and an empty range. *)
Definition env_empty_range : Env :=
  const_env (<["WebGui.HttpPortMin" := 9000]> (<["WebGui.HttpPortMax" := 9000]> ∅))
            (fun _ => 1 # 2)%Q (fun _ _ => true).

(** The state a call leaves behind ([st] itself when it does not return). *)
Definition state_after {A} (c : Outcome (A * State)) (st : State) : State :=
  match c with Normal (_, st') => st' | _ => st end.

(** The manager after a first successful [CreateHttpServer(true)]. *)
Definition bound_state : State :=
  state_after (CreateHttpServer env_free true initial) initial.

(** A manager whose server object exists and is not bound. *)
Definition server_state : State := ensure_fServer initial.

(** Window 1 as [CreateWindow] makes it, with one key on record. *)
Definition win_one_key : TWebWindow :=
  AddKey "524288" "cef"
    {| fId := 1; fBatchMode := false; fWidth := 0; fHeight := 0;
       fWSHandler := Some "win1"; fKeys := ∅ |}.

Fixpoint count_Rndm (tr : list Event) : nat :=
  match tr with
  | [] => O
  | EvRndm :: tr' => S (count_Rndm tr')
  | _ :: tr' => count_Rndm tr'
  end.

(** A generator whose first 999 numbers are 1/2 and whose 1000th is 1/4:
    999 times the key 524288, then the key 262144. *)
Definition env_999_collisions : Env :=
  const_env ∅ (fun tr => if Nat.eqb (count_Rndm tr) 999 then 1 # 4 else 1 # 2)%Q
            (fun _ _ => true).

(** The state after [n] draws of a key, and the [n]-th key drawn
    (counting from 0). *)
Fixpoint draws (env : Env) (n : nat) (st : State) : State :=
  match n with
  | O => st
  | S m => snd (gRandom_Integer env 1048576 (draws env m st))
  end.

Definition nth_key (env : Env) (n : nat) (st : State) : string :=
  Str.to_string (fst (gRandom_Integer env 1048576 (draws env n st))).

(** Window "w12" of the URL examples. *)
Definition win_w12 (batch : bool) : TWebWindow :=
  {| fId := 12; fBatchMode := batch; fWidth := 0; fHeight := 0;
     fWSHandler := Some "w12"; fKeys := ∅ |}.

(** The calls a client can make on the manager, and a run of them.  A run
    gives the ids of the windows it created, in the order of creation. *)
Inductive Op : Type :=
| OpCreateWindow (batch_mode : bool)
| OpUnregister (win : TWebWindow)
| OpCreateHttpServer (with_http : bool)
| OpGetUrl (win : TWebWindow) (remote : bool)
| OpShow (win : TWebWindow) (where_ : string).

Definition step_op (env : Env) (bld : Build) (op : Op) (st : State)
    : Outcome (list Z * State) :=
  match op with
  | OpCreateWindow b =>
      run (w, st) := CreateWindow env bld b st in
      Normal (match w with Some win => [fId win] | None => [] end, st)
  | OpUnregister win =>
      run st := Unregister win st in Normal ([], st)
  | OpCreateHttpServer b =>
      run (_, st) := CreateHttpServer env b st in Normal ([], st)
  | OpGetUrl win remote =>
      run (_, st) := GetUrl env win remote st in Normal ([], st)
  | OpShow win where_ =>
      run (_, st) := Show env bld win where_ st in Normal ([], st)
  end.

Fixpoint run_ops (env : Env) (bld : Build) (ops : list Op) (st : State)
    : Outcome (list Z * State) :=
  match ops with
  | [] => Normal ([], st)
  | op :: rest =>
      run (new, st) := step_op env bld op st in
      run (ids, st) := run_ops env bld rest st in
      Normal (new ++ ids, st)
  end.

(** [ids] is strictly increasing and starts above [lo]. *)
Fixpoint increasing_from (lo : Z) (ids : list Z) : Prop :=
  match ids with
  | [] => True
  | i :: rest => lo < i /\ increasing_from i rest
  end.

(** The window that [CreateWindow] returns in [st], when it returns one. *)
Definition created (env : Env) (bld : Build) (b : bool) (st : State) : TWebWindow :=
  match CreateWindow env bld b st with
  | Normal (Some win, _) => win
  | _ => new_window
  end.

(** Three windows, the second destroyed, then a fourth. *)
Definition four_windows : list Op :=
  [OpCreateWindow false; OpCreateWindow true; OpCreateWindow false;
   OpUnregister (created env_free linux_build true
                   (state_after (CreateWindow env_free linux_build false initial) initial));
   OpCreateWindow false].

(** The loop of [WaitFor] seen from outside: the state and the value of
    [spent] after [n] rounds of ProcessEvents and Sleep. *)
Definition wait_round (env : Env) (x : Q * State) : Q * State :=
  let st := log (EvSleep 10) (log EvProcessEvents (snd x)) in
  (RealTime env (trace st), st).

Fixpoint wait_rounds (env : Env) (n : nat) (x : Q * State) : Q * State :=
  match n with
  | O => x
  | S m => wait_round env (wait_rounds env m x)
  end.

(** The result of the [n]-th call of the check function (from 0). *)
Definition check_at (env : Env) (check : WebWindowWaitFunc_t) (n : nat) (st : State) : Z :=
  let x := wait_rounds env n (0%Q, st) in
  check (trace (snd x)) (fst x).

(** The time-out test after the [n]-th call of the check function. *)
Definition expired_after (env : Env) (timelimit : Q) (n : nat) (st : State) : bool :=
  Qltb 0 timelimit && Qltb timelimit (fst (wait_rounds env (S n) (0%Q, st))).

(** A check function that says 7 at its third call. *)
Definition seven_at_third : WebWindowWaitFunc_t :=
  fun tr _ => if Nat.eqb (List.length tr) 4 then 7 else 0.

Definition never_ready : WebWindowWaitFunc_t := fun _ _ => 0.

(* ===================================================================== *)
(** * 9b. Further vocabulary                                              *)
(* ===================================================================== *)

(** Number of [CreateEngine] calls that succeeded in a trace. *)
Fixpoint successful_binds (tr : list Event) : nat :=
  match tr with
  | [] => O
  | EvCreateEngine _ true :: tr' => S (successful_binds tr')
  | _ :: tr' => successful_binds tr'
  end.

(** A step from [st] to [st'] that has nothing to do with binding: the
    server object is not taken away, the cached address is the same and no
    [CreateEngine] call was made. *)
Definition quiet (st st' : State) : Prop :=
  (is_Some (fServer st) -> is_Some (fServer st')) /\ fAddr st' = fAddr st /\
  bind_attempts (trace st') = bind_attempts (trace st) /\
  successful_binds (trace st') = successful_binds (trace st).

(** What a call of the manager can do to the state: quiet steps and calls
    of [CreateHttpServer], in any number. *)
Inductive reach (env : Env) : State -> State -> Prop :=
| reach_quiet st st' : quiet st st' -> reach env st st'
| reach_server b st r st' :
    CreateHttpServer env b st = Normal (r, st') -> reach env st st'
| reach_trans st1 st2 st3 :
    reach env st1 st2 -> reach env st2 st3 -> reach env st1 st3.

(** The cached address tells whether a bind has succeeded, and no more
    than one ever has. *)
Definition bound_inv (st : State) : Prop :=
  if Str.empty (fAddr st) then successful_binds (trace st) = O
  else successful_binds (trace st) = 1%nat.

(** Line 295-297: the [where] that [Show] works with. *)
Definition effective_where (env : Env) (_where : string) : string :=
  if Str.empty _where then GetWebDisplay env else _where.

(** The events by which [Show] starts a display client; a [posix_spawn]
    that returned an error has started none. *)
Definition is_launch (e : Event) : bool :=
  match e with
  | EvCef _ _ _ _ _ _ | EvQt5 _ _ _ _ | EvExec _ => true
  | EvSpawn _ status _ => status =? 0
  | _ => false
  end.

Fixpoint launches (tr : list Event) : nat :=
  match tr with
  | [] => O
  | e :: tr' => if is_launch e then S (launches tr') else launches tr'
  end.

Fixpoint kills (tr : list Event) : list (Z * Z) :=
  match tr with
  | [] => []
  | EvKill pid sig :: tr' => (pid, sig) :: kills tr'
  | _ :: tr' => kills tr'
  end.

(** A fixed port 8080 whose bind is refused, lower end of the range 0. *)
Definition env_fixed_port_refused : Env :=
  const_env (<["WebGui.HttpPort" := 8080]> (<["WebGui.HttpPortMin" := 0]> ∅))
            (fun _ => 1 # 2)%Q (fun _ _ => false).

(** A fixed port 8080 and a range given the wrong way round. *)
Definition env_fixed_port_inverted : Env :=
  const_env (<["WebGui.HttpPort" := 8080]>
               (<["WebGui.HttpPortMin" := 9000]> (<["WebGui.HttpPortMax" := 8000]> ∅)))
            (fun _ => 1 # 2)%Q (fun _ _ => true).

(** A fixed port 8080, default range, binds succeed. *)
Definition env_fixed_port : Env :=
  const_env (<["WebGui.HttpPort" := 8080]> ∅) (fun _ => 1 # 2)%Q (fun _ _ => true).

(** A build whose header makes [CreateHttpServer()] ask for the network. *)
Definition linux_build_http : Build :=
  {| R__HAS_CEFWEB := false; R__HAS_QT5WEB := false; R__MACOSX := false;
     R__LINUX := true; MSC_VER := false; CreateHttpServer_default := true |}.

(** The same as [linux_build] compiled with the Microsoft compiler. *)
Definition msvc_build : Build :=
  {| R__HAS_CEFWEB := false; R__HAS_QT5WEB := false; R__MACOSX := false;
     R__LINUX := false; MSC_VER := true; CreateHttpServer_default := false |}.

(** A run that binds once: a window, its remote URL, a browser, and one
    more request for the network server. *)
Definition ops_bind_once : list Op :=
  [OpCreateWindow false; OpGetUrl (win_w12 false) true;
   OpShow (win_w12 false) "firefox"; OpCreateHttpServer true].

Definition state_bind_once : State :=
  state_after (run_ops env_free linux_build ops_bind_once initial) initial.

(** A run on the bound manager while every further bind would be refused. *)
Definition ops_after_bind : list Op :=
  [OpCreateHttpServer true; OpShow (win_w12 false) "firefox";
   OpGetUrl (win_w12 false) true].

Definition state_after_bind : State :=
  state_after (run_ops env_all_busy linux_build ops_after_bind bound_state) bound_state.

(** The four ways in which a successful [Show] starts the client, each
    with the tag it records and the last entry of the trace.  The kind of
    launch fixes the tag; the tag does not fix the kind, since a command
    that goes to the shell records the place asked for, whatever it reads
    (also "cef", "qt5" or a text that begins with "pid:"). *)
Inductive Launch (bld : Build) (k : Where) (w : string) (tag : string)
    (st' : State) : Prop :=
| launch_cef url batch rootsys cef_path wd h :
    tag = "cef" -> R__HAS_CEFWEB bld = true ->
    head (trace st') = Some (EvCef url batch rootsys cef_path wd h) ->
    Launch bld k w tag st'
| launch_qt5 url batch wd h :
    tag = "qt5" -> R__HAS_QT5WEB bld = true ->
    head (trace st') = Some (EvQt5 url batch wd h) ->
    Launch bld k w tag st'
| launch_spawn argv pid :
    tag = "pid:" +:+ Str.to_string pid -> MSC_VER bld = false ->
    head (trace st') = Some (EvSpawn argv 0 pid) ->
    Str.empty (fAddr st') = false ->
    Launch bld k w tag st'
| launch_exec cmd :
    tag = w ->
    head (trace st') = Some (EvExec cmd) ->
    Str.empty (fAddr st') = false ->
    Launch bld k w tag st'.

(** What a return of [Show] has to say. *)
Definition outcome (bld : Build) (k : Where) (w key : string) (win : TWebWindow)
    (st : State) (r : bool) (win' : TWebWindow) (st' : State) : Prop :=
  launches (trace st') = (launches (trace st) + if r then 1 else 0)%nat /\
  (r = true -> exists tag, win' = AddKey key tag win /\ Launch bld k w tag st').

(** A batch window shown in chrome, with a spawn that fails. *)
Definition env_spawn_fails : Env :=
  {| gEnv_int := ∅; gEnv_str := ∅; gEnv_double := ∅;
     Rndm := fun _ => (1 # 2)%Q;
     CreateEngine := fun _ _ => true;
     Getenv := fun _ => None;
     AccessPathName := fun _ => true;
     DynFindSymbol := fun _ _ => false;
     InheritsFrom := fun _ => false;
     posix_spawn := fun _ _ => (2, 0);
     GetWebDisplay := "";
     IsWebDisplayBatch := false;
     handler_name := fun id => "win" +:+ Str.to_string id;
     RealTime := fun _ => 0%Q |}.

(** The state after [Show] of the batch window "w12" in chrome. *)
Definition shown_chrome : Outcome (bool * TWebWindow * State) :=
  Show env_free linux_build (win_w12 true) "chrome" server_state.

Definition state_shown_chrome : State :=
  match shown_chrome with Normal (_, _, st') => st' | _ => server_state end.

Definition win_shown_chrome : TWebWindow :=
  match shown_chrome with Normal (_, w, _) => w | _ => win_w12 true end.

(** The window and the state that [CreateWindow] gives on the initial
    manager. *)
Definition first_window : TWebWindow := created env_free linux_build true initial.

Definition state_first_window : State :=
  state_after (CreateWindow env_free linux_build true initial) initial.

(** The state after a remote URL was asked for. *)
Definition state_remote_url : State :=
  state_after (GetUrl env_free (win_w12 false) true server_state) server_state.

(** A generator that gives the taken key 524288 twice and then 262144. *)
Definition env_two_collisions : Env :=
  const_env ∅ (fun tr => if Nat.ltb (count_Rndm tr) 2 then 1 # 2 else 1 # 4)%Q
            (fun _ _ => true).

(** The state after the run [ops_bind_once] made on the manager that has
    created [first_window]. *)
Definition state_bind_once_more : State :=
  state_after (run_ops env_free linux_build ops_bind_once state_first_window)
              state_first_window.

(** The local URL with the key in the words of the specification: the base
    path, the window's endpoint, a slash, "?batch_mode" exactly in batch
    mode, and then the key, joined with "&" when what precedes has a "?"
    and with "?" when it has none. *)
Definition spec_local_url (name : string) (batch : bool) (key : string) : string :=
  let path := "/web7gui/" +:+ name +:+ "/" +:+ (if batch then "?batch_mode" else "") in
  path +:+ (if Str.contains path "?" then "&key=" else "?key=") +:+ key.

(** Lines 372-447 as a function of the URL that replaces "$url": the
    program and the command line, "$prog" still in place. *)
Definition Show_command (env : Env) (bld : Build) (win : TWebWindow)
    (where_ url : string) : string * string :=
  let swidth := Str.to_string (if fWidth win =? 0 then 800 else fWidth win) in
  let sheight := Str.to_string (if fHeight win =? 0 then 600 else fHeight win) in
  let '(prog, testprogs, exec) :=
    Show_template env bld (classify bld where_) win where_ in
  let prog := Show_prog env prog testprogs where_ in
  let exec := Str.ReplaceAll exec "$url" url in
  let exec := Str.ReplaceAll exec "$width" swidth in
  let exec := Str.ReplaceAll exec "$height" sheight in
  (prog, exec).

(** The event [e] starts a client of the window [win] on the local URL
    [url]: an embedded display is called with [url] itself; a spawned
    program and a shell command get the command line of the place asked
    for, in which [addr +:+ url] has replaced "$url". *)
Definition hands_url (env : Env) (bld : Build) (win : TWebWindow)
    (where_ addr url : string) (e : Event) : Prop :=
  let cmd := Show_command env bld win where_ (addr +:+ url) in
  match e with
  | EvCef u batch _ _ w h =>
      u = url /\ batch = fBatchMode win /\ w = fWidth win /\ h = fHeight win
  | EvQt5 u batch w h =>
      u = url /\ batch = fBatchMode win /\ w = fWidth win /\ h = fHeight win
  | EvSpawn argv status _ =>
      status = 0 /\ argv = fst cmd :: Str.Tokenize (Str.substr (snd cmd) 5) " "
  | EvExec c =>
      c = Str.ReplaceAll (snd cmd) "$prog"
            (if R__MACOSX bld then Str.ReplaceAll (fst cmd) " " "\ " else fst cmd)
  | _ => False
  end.

(** The key that [Show] settles on, lines 277-282. *)
Definition Show_key (env : Env) (win : TWebWindow) (st : State) : string :=
  fst (fst (Show_keyloop env win 1000 st)).

(** A build with the embedded CEF display. *)
Definition cef_build : Build :=
  {| R__HAS_CEFWEB := true; R__HAS_QT5WEB := false; R__MACOSX := false;
     R__LINUX := true; MSC_VER := false; CreateHttpServer_default := false |}.

(** A machine on which CEF is installed and every program is there; the
    generator gives 42/1048576 at every draw, so that the key is "42". *)
Definition env_key_42 : Env :=
  {| gEnv_int := ∅; gEnv_str := ∅; gEnv_double := ∅;
     Rndm := fun _ => (42 # 1048576)%Q;
     CreateEngine := fun _ _ => true;
     Getenv := fun v =>
       if String.eqb v "CEF_PATH" then Some "/opt/cef"
       else if String.eqb v "ROOTSYS" then Some "/opt/root"
       else if String.eqb v "DISPLAY" then Some ":0"
       else None;
     AccessPathName := fun _ => false;
     DynFindSymbol := fun _ _ => true;
     InheritsFrom := fun _ => false;
     posix_spawn := fun _ _ => (0, 4242);
     GetWebDisplay := "";
     IsWebDisplayBatch := false;
     handler_name := fun id => "win" +:+ Str.to_string id;
     RealTime := fun _ => 0%Q |}.

(** The batch window "w12" shown in CEF, and the window "w12" shown in
    firefox and in a place that CEF could serve but the build has not. *)
Definition shown_cef : Outcome (bool * TWebWindow * State) :=
  Show env_key_42 cef_build (win_w12 true) "cef" server_state.

Definition shown_firefox : Outcome (bool * TWebWindow * State) :=
  Show env_key_42 linux_build (win_w12 false) "firefox" server_state.

Definition shown_cef_without_CEF : Outcome (bool * TWebWindow * State) :=
  Show env_free linux_build (win_w12 false) "cef" server_state.

Definition shown_state (o : Outcome (bool * TWebWindow * State)) : State :=
  match o with Normal (_, _, st') => st' | _ => server_state end.

Definition shown_window (o : Outcome (bool * TWebWindow * State)) : TWebWindow :=
  match o with Normal (_, w, _) => w | _ => new_window end.

(** A generator that gives the [double] next below 1, 1 - 2^-53. *)
Definition env_almost_one : Env :=
  const_env ∅ (fun _ => 9007199254740991 # 9007199254740992)%Q (fun _ _ => true).

(* ===================================================================== *)
(** * 10. Facts about the string operations                                *)
(* ===================================================================== *)

Module StrFacts.
Import Str Vocab.

Lemma find_ne_0_prefix (s pat : string) :
  find_ne_0 s pat = negb (String.prefix pat s).
Proof.
  unfold find_ne_0, find.
  destruct s as [|b s'].
  - destruct pat; reflexivity.
  - cbn [String.index].
    destruct (String.prefix pat (String b s')); [reflexivity|].
    destruct (String.index 0 pat s'); reflexivity.
Qed.

Lemma append_String (c : ascii) (a b : string) :
  String c a +:+ b = String c (a +:+ b).
Proof. reflexivity. Qed.

Lemma append_empty (b : string) : "" +:+ b = b.
Proof. reflexivity. Qed.

Lemma prefix_append (p rest : string) : String.prefix p (p +:+ rest) = true.
Proof.
  induction p as [|c p IH].
  - destruct rest; reflexivity.
  - rewrite append_String. cbn [String.prefix].
    destruct (ascii_dec c c); [exact IH | congruence].
Qed.

Lemma contains_app_r (a b pat : string) :
  contains b pat = true -> contains (a +:+ b) pat = true.
Proof.
  unfold contains, find. induction a as [|c a IH]; intros H; [exact H|].
  rewrite append_String. cbn [String.index].
  destruct (String.prefix pat (String c (a +:+ b))); [reflexivity|].
  specialize (IH H). destruct (String.index 0 pat (a +:+ b)); [reflexivity|discriminate].
Qed.

Lemma read_digits_stop (acc : option Z) (rest : string) :
  head_not_digit rest -> read_digits acc rest = acc.
Proof. destruct rest as [|c r]; cbn; [reflexivity|]. intros ->. reflexivity. Qed.

Lemma read_digits_uint (d : Decimal.uint) (rest : string) :
  head_not_digit rest ->
  forall acc, d <> Decimal.Nil ->
  read_digits acc (NilEmpty.string_of_uint d +:+ rest) =
  Some (uint_val (default 0 acc) d).
Proof.
  intros Hrest. induction d as [|d IH|d IH|d IH|d IH|d IH|d IH|d IH|d IH|d IH|d IH];
    intros acc Hd; [congruence|..];
    cbn [NilEmpty.string_of_uint]; rewrite append_String; cbn [read_digits];
    (change (is_digit _) with true; cbv iota;
     destruct d;
     [ cbn [NilEmpty.string_of_uint uint_val]; rewrite append_empty;
       rewrite read_digits_stop by assumption; reflexivity
     | rewrite IH by discriminate; reflexivity .. ]).
Qed.

Lemma of_uint_acc_val (d : Decimal.uint) (p : positive) :
  Z.pos (Pos.of_uint_acc d p) = uint_val (Z.pos p) d.
Proof.
  revert p. induction d; intros p; cbn [Pos.of_uint_acc uint_val];
    [reflexivity | rewrite IHd; f_equal; lia ..].
Qed.

Lemma of_uint_val (d : Decimal.uint) : Z.of_uint d = uint_val 0 d.
Proof.
  unfold Z.of_uint.
  induction d; cbn [Pos.of_uint uint_val]; try reflexivity; try exact IHd;
    cbn [Z.of_N]; apply of_uint_acc_val.
Qed.

Lemma string_of_uint_head (d : Decimal.uint) (rest : string) :
  d <> Decimal.Nil ->
  exists c r, NilEmpty.string_of_uint d +:+ rest = String c r /\
              is_digit c = true.
Proof.
  destruct d; intros H; [congruence|..];
    cbn [NilEmpty.string_of_uint]; rewrite append_String; eauto.
Qed.

Lemma stoi_digits (s : string) (c : ascii) (r : string) :
  s = String c r -> is_digit c = true ->
  stoi s = match read_digits None s with
           | None => Raised invalid_argument
           | Some v => if (INT_MIN <=? v) && (v <=? INT_MAX) then Normal v
                       else Raised out_of_range
           end.
Proof.
  intros -> Hc. unfold stoi. cbn [skip_space].
  destruct c as [[|] [|] [|] [|] [|] [|] [|] [|]];
    try discriminate Hc; reflexivity.
Qed.

(** Reading back a printed integer, whatever non-digit text follows:
    [std::stoi] returns it when it is an [int] and throws otherwise. *)
Lemma stoi_to_string_any (n : Z) (rest : string) :
  head_not_digit rest ->
  stoi (to_string n +:+ rest) =
  if (INT_MIN <=? n) && (n <=? INT_MAX) then Normal n else Raised out_of_range.
Proof.
  intros Hrest. unfold to_string.
  pose proof (DecimalZ.of_to n) as Hof.
  destruct (Z.to_int n) as [d|d] eqn:Hd.
  - assert (Hnil : d <> Decimal.Nil).
    { destruct n; cbn in Hd; inversion Hd; try discriminate;
        apply DecimalPos.Unsigned.to_uint_nonnil. }
    cbn [NilZero.string_of_int]. unfold NilZero.string_of_uint.
    replace (match d with Decimal.Nil => "0" | _ => NilEmpty.string_of_uint d end)
      with (NilEmpty.string_of_uint d) by (destruct d; congruence).
    destruct (string_of_uint_head d rest Hnil) as (c & r & Hs & Hc).
    rewrite (stoi_digits _ c r Hs Hc).
    rewrite read_digits_uint by assumption. cbn [default].
    rewrite <- of_uint_val. cbn [Z.of_int] in Hof. rewrite Hof.
    reflexivity.
  - assert (Hnil : d <> Decimal.Nil).
    { destruct n; cbn in Hd; inversion Hd.
      apply DecimalPos.Unsigned.to_uint_nonnil. }
    cbn [NilZero.string_of_int]. unfold NilZero.string_of_uint.
    replace (match d with Decimal.Nil => "0" | _ => NilEmpty.string_of_uint d end)
      with (NilEmpty.string_of_uint d) by (destruct d; congruence).
    unfold stoi. rewrite append_String. cbn [skip_space].
    change (isspace "-") with false. cbv iota.
    rewrite read_digits_uint by assumption. cbn [default].
    rewrite <- of_uint_val. cbn [Z.of_int] in Hof.
    replace (Z.of_uint d) with (- n) by lia.
    rewrite Z.opp_involutive. reflexivity.
Qed.

Lemma stoi_to_string (n : Z) (rest : string) :
  INT_MIN <= n <= INT_MAX -> head_not_digit rest ->
  stoi (to_string n +:+ rest) = Normal n.
Proof.
  intros Hn Hrest. rewrite stoi_to_string_any by assumption.
  replace ((INT_MIN <=? n) && (n <=? INT_MAX)) with true; [reflexivity|].
  symmetry. apply andb_true_iff. split; apply Z.leb_le; lia.
Qed.

End StrFacts.

(** The string operations on the inputs the file meets. *)
Example find_pid_front : Str.find "pid:42" "pid:" = Some 0%nat.
Proof. reflexivity. Qed.

Example find_pid_later : Str.find "xpid:42" "pid:" = Some 1%nat.
Proof. reflexivity. Qed.

Example ReplaceAll_url :
  Str.ReplaceAll "$prog --app='$url' &" "$url" "http://h:1/w" =
  "$prog --app='http://h:1/w' &".
Proof. reflexivity. Qed.

Example Tokenize_args :
  Str.Tokenize " --headless   --disable-gpu u " " " = ["--headless"; "--disable-gpu"; "u"].
Proof. reflexivity. Qed.

Example to_string_neg : Str.to_string (-15) = "-15".
Proof. reflexivity. Qed.

Example stoi_trailing : Str.stoi " +12abc" = Normal 12.
Proof. reflexivity. Qed.

Example stoi_garbage : Str.stoi "abc" = Raised invalid_argument.
Proof. reflexivity. Qed.

Example stoi_big : Str.stoi "99999999999" = Raised out_of_range.
Proof. reflexivity. Qed.

(* ===================================================================== *)
(** * 11. HaltClient                                                      *)
(* ===================================================================== *)

Module HaltFacts.
Import Str Vocab StrFacts.

Lemma stoi_no_number (s : string) :
  no_leading_number s -> stoi s = Raised invalid_argument.
Proof.
  unfold no_leading_number, stoi.
  destruct (skip_space s) as [|c r]; [reflexivity|].
  destruct c as [[|] [|] [|] [|] [|] [|] [|] [|]]; cbn;
    intros H; try discriminate H;
    try (destruct r as [|c' r']; cbn in *; [reflexivity | rewrite H; reflexivity]);
    reflexivity.
Qed.

Lemma substr_pid (rest : string) : substr ("pid:" +:+ rest) 4 = rest.
Proof. reflexivity. Qed.

Lemma find_pid_app (rest : string) : find_ne_0 ("pid:" +:+ rest) "pid:" = false.
Proof. rewrite find_ne_0_prefix, prefix_append. reflexivity. Qed.

End HaltFacts.

(** C1, as the code has it.  A tag that does not begin with "pid:" is left
    alone.  A tag "pid:<n>" with [n] an [int] printed in decimal, followed
    by anything that does not start with a digit, is acted on as the build
    decides: compiled without [_MSC_VER] the call sends SIGKILL to [n]
    once when [n] is positive and does nothing otherwise; compiled with
    [_MSC_VER] it sends no signal and reports "kill process on Windows not
    yet implemented <n>", whatever the sign of [n].  A tag "pid:..." with
    no integer after the colon makes [std::stoi] throw
    [std::invalid_argument], and a printed integer that is no [int] makes
    it throw [std::out_of_range]; [HaltClient] catches neither, in either
    build. *)
Theorem HaltClient_tags (bld : Build) (st : State) :
  (forall tag, String.prefix "pid:" tag = false ->
     HaltClient bld tag st = Normal st) /\
  (forall n rest,
     Str.INT_MIN <= n <= Str.INT_MAX -> Vocab.head_not_digit rest ->
     HaltClient bld ("pid:" +:+ Str.to_string n +:+ rest) st =
     Normal (if MSC_VER bld
             then R__ERROR_HERE ("kill process on Windows not yet implemented " +:+
                                 Str.to_string n) st
             else if 0 <? n then log (EvKill n SIGKILL) st else st)) /\
  (forall rest, Vocab.no_leading_number rest ->
     HaltClient bld ("pid:" +:+ rest) st = Raised invalid_argument) /\
  (forall n rest,
     n < Str.INT_MIN \/ Str.INT_MAX < n -> Vocab.head_not_digit rest ->
     HaltClient bld ("pid:" +:+ Str.to_string n +:+ rest) st = Raised out_of_range).
Proof.
  split; [|split; [|split]].
  - intros tag Hp. unfold HaltClient.
    rewrite StrFacts.find_ne_0_prefix, Hp. reflexivity.
  - intros n rest Hn Hr. unfold HaltClient.
    rewrite HaltFacts.find_pid_app, HaltFacts.substr_pid.
    rewrite StrFacts.stoi_to_string by assumption.
    cbn [obind]. destruct (MSC_VER bld); cbn [negb]; [reflexivity|].
    rewrite Z.gtb_ltb. destruct (0 <? n); reflexivity.
  - intros rest Hr. unfold HaltClient.
    rewrite HaltFacts.find_pid_app, HaltFacts.substr_pid.
    rewrite HaltFacts.stoi_no_number by assumption. reflexivity.
  - intros n rest Hn Hr. unfold HaltClient.
    rewrite HaltFacts.find_pid_app, HaltFacts.substr_pid.
    rewrite StrFacts.stoi_to_string_any by assumption.
    replace ((Str.INT_MIN <=? n) && (n <=? Str.INT_MAX)) with false; [reflexivity|].
    symmetry. apply andb_false_iff.
    destruct Hn; [left; apply Z.leb_gt | right; apply Z.leb_gt]; lia.
Qed.

Lemma HaltClient_tags_witness :
  HaltClient linux_build "cef" initial = Normal initial /\
  HaltClient linux_build "pid:4242" initial =
    Normal (log (EvKill 4242 SIGKILL) initial) /\
  HaltClient linux_build "pid:-7 x" initial = Normal initial /\
  HaltClient msvc_build "pid:4242" initial =
    Normal (log (EvError "kill process on Windows not yet implemented 4242") initial) /\
  HaltClient msvc_build "pid:-7" initial =
    Normal (log (EvError "kill process on Windows not yet implemented -7") initial) /\
  HaltClient linux_build "pid:chrome" initial = Raised invalid_argument /\
  HaltClient msvc_build "pid:" initial = Raised invalid_argument /\
  HaltClient linux_build "pid:99999999999" initial = Raised out_of_range.
Proof.
  destruct (HaltClient_tags linux_build initial) as (H1 & H2 & H3 & H4).
  destruct (HaltClient_tags msvc_build initial) as (_ & M2 & M3 & _).
  split; [apply (H1 "cef"); reflexivity|].
  split; [apply (H2 4242 ""); [unfold Str.INT_MIN, Str.INT_MAX; lia | exact I]|].
  split; [apply (H2 (-7) " x"); [unfold Str.INT_MIN, Str.INT_MAX; lia | reflexivity]|].
  split; [apply (M2 4242 ""); [unfold Str.INT_MIN, Str.INT_MAX; lia | exact I]|].
  split; [apply (M2 (-7) ""); [unfold Str.INT_MIN, Str.INT_MAX; lia | exact I]|].
  split; [apply (H3 "chrome"); reflexivity|].
  split; [apply (M3 ""); reflexivity|].
  apply (H4 99999999999 ""); [right; unfold Str.INT_MAX; lia | exact I].
Defined.

(** C1 as stated fails: a tag that begins with "pid:" and carries no number
    raises, so [HaltClient] does not return normally on every string. *)
Lemma HaltClient_raises_on_garbage :
  HaltClient linux_build "pid:abc" initial = Raised invalid_argument /\
  HaltClient linux_build "pid:99999999999" initial = Raised out_of_range /\
  ~ (forall tag : string, is_Normal (HaltClient linux_build tag initial) = true).
Proof.
  split; [reflexivity|]. split; [reflexivity|].
  intros H. specialize (H "pid:abc"). discriminate H.
Qed.

(* ===================================================================== *)
(** * 12. CreateHttpServer                                                *)
(* ===================================================================== *)

Module ServerFacts.
Import Str StrFacts.

Lemma wrap_int_range (z : Z) : INT_MIN <= wrap_int z <= INT_MAX.
Proof.
  unfold wrap_int, INT_MIN, INT_MAX.
  pose proof (Z.mod_pos_bound (z - -2147483648) 4294967296 ltac:(lia)). lia.
Qed.

Lemma wrap_int_id (z : Z) : INT_MIN <= z <= INT_MAX -> wrap_int z = z.
Proof.
  unfold wrap_int, INT_MIN, INT_MAX. intros H.
  rewrite Z.mod_small by lia. lia.
Qed.

(** The range read from the configuration consists of two [int]s, so the
    width of a range in order is their difference. *)
Lemma range_width_in_order (env : Env) :
  0 < http_min (read_config env) ->
  http_min (read_config env) < http_max (read_config env) ->
  range_width (read_config env) =
  http_max (read_config env) - http_min (read_config env).
Proof.
  unfold range_width. cbn [read_config http_min http_max]. unfold GetValue_int.
  intros H1 H2. apply wrap_int_id.
  pose proof (wrap_int_range (default 8800 (gEnv_int env !! "WebGui.HttpPortMin"))).
  pose proof (wrap_int_range (default 9800 (gEnv_int env !! "WebGui.HttpPortMax"))).
  unfold INT_MIN, INT_MAX in *. lia.
Qed.

Lemma url_nonempty (c : HttpConfig) (p : Z) (a : string) :
  empty (snd (engine_and_url c p) +:+ a) = false.
Proof.
  unfold engine_and_url.
  destruct (use_secure c), (assign_loopback c),
    (0 <? Z.of_nat (String.length (http_bind c))); reflexivity.
Qed.

Lemma bind_attempts_log_other (e : Event) (st : State) :
  (forall s b, e <> EvCreateEngine s b) ->
  bind_attempts (trace (log e st)) = bind_attempts (trace st).
Proof. intros H. destruct e; try reflexivity. exfalso. eapply H. reflexivity. Qed.

(** What one run of the bind loop does to the manager. *)
Lemma loop_effect (env : Env) (c : HttpConfig) (fuel : nat) :
  forall ntry port st r st',
    CreateHttpServer_loop fuel env c ntry port st = Normal (r, st') ->
    fIdCnt st' = fIdCnt st /\
    (r = false -> fAddr st' = fAddr st) /\
    (r = true -> empty (fAddr st') = false) /\
    (is_Some (fServer st) -> is_Some (fServer st')) /\
    (bind_attempts (trace st') <= bind_attempts (trace st) + Z.to_nat (ntry + 1))%nat.
Proof.
  induction fuel as [|fuel IH]; intros ntry port st r st' H; [discriminate H|].
  cbn [CreateHttpServer_loop] in H.
  destruct (ntry >=? 0) eqn:Hn.
  2:{ injection H as <- <-. repeat split; try discriminate; auto with lia. }
  assert (0 <= ntry) by lia.
  destruct ((port =? 0) && ((http_min c <=? 0) || (http_max c <=? http_min c))).
  { injection H as <- <-. repeat split; try discriminate; auto; cbn; lia. }
  set (d := if port =? 0 then draw_port env c st else (port, st)) in H.
  assert (Hd : fIdCnt (snd d) = fIdCnt st /\ fAddr (snd d) = fAddr st /\
               fServer (snd d) = fServer st /\
               bind_attempts (trace (snd d)) = bind_attempts (trace st)).
  { subst d. destruct (port =? 0); cbn; auto. }
  destruct d as [port1 st1]. cbn [snd] in Hd. destruct Hd as (Hd1 & Hd2 & Hd3 & Hd4).
  pose proof (url_nonempty c port1 (":" +:+ to_string port1)) as Hurl.
  destruct (engine_and_url c port1) as [engine url]. cbn [snd] in Hurl.
  destruct (fServer st1) as [srv|] eqn:Hsrv; [|discriminate H].
  unfold do_CreateEngine in H.
  destruct (CreateEngine env (trace st1) engine) eqn:Hok.
  - injection H as <- <-. cbn. rewrite Hd1, Hd4.
    repeat split; try discriminate; auto; try lia.
  - apply IH in H. cbn in H. destruct H as (H1 & H2 & H3 & H4 & H5).
    rewrite Hd1, Hd2, Hd4 in *.
    split; [exact H1|]. split; [exact H2|]. split; [exact H3|].
    split; [intros _; apply H4; eauto | lia].
Qed.

(** The fuel given to the loop suffices: the loop always returns. *)
Lemma loop_returns (env : Env) (c : HttpConfig) (fuel : nat) :
  forall ntry port st,
    (Z.to_nat (ntry + 1) < fuel)%nat -> is_Some (fServer st) ->
    exists r st', CreateHttpServer_loop fuel env c ntry port st = Normal (r, st').
Proof.
  induction fuel as [|fuel IH]; intros ntry port st Hf Hs; [lia|].
  cbn [CreateHttpServer_loop].
  destruct (ntry >=? 0) eqn:Hn; [|eauto].
  destruct ((port =? 0) && ((http_min c <=? 0) || (http_max c <=? http_min c)));
    [eauto|].
  set (d := if port =? 0 then draw_port env c st else (port, st)).
  assert (Hd : fServer (snd d) = fServer st).
  { subst d. destruct (port =? 0); reflexivity. }
  destruct d as [port1 st1]. cbn [snd] in Hd.
  destruct (engine_and_url c port1) as [engine url].
  rewrite Hd. destruct Hs as [srv ->].
  unfold do_CreateEngine.
  destruct (CreateEngine env (trace st1) engine); [eauto|].
  apply IH; [lia | cbn; eauto].
Qed.

(** When every bind is refused and the range is in order, the loop binds
    once for each of the values ntry, ntry-1, ..., 0 of its counter. *)
Lemma loop_all_refused (env : Env) (c : HttpConfig) :
  (forall tr e, CreateEngine env tr e = false) ->
  0 < http_min c -> http_min c < http_max c ->
  forall fuel ntry st,
    -1 <= ntry -> (Z.to_nat (ntry + 1) < fuel)%nat -> is_Some (fServer st) ->
    exists st',
      CreateHttpServer_loop fuel env c ntry 0 st = Normal (false, st') /\
      bind_attempts (trace st') = (bind_attempts (trace st) + Z.to_nat (ntry + 1))%nat /\
      fAddr st' = fAddr st.
Proof.
  intros Hall Hmin Hmax.
  induction fuel as [|fuel IH]; intros ntry st Hn Hf Hs; [lia|].
  cbn [CreateHttpServer_loop].
  destruct (ntry >=? 0) eqn:E.
  - replace ((0 =? 0) && ((http_min c <=? 0) || (http_max c <=? http_min c)))
      with false by (symmetry; cbn [Z.eqb andb]; apply orb_false_iff; split;
                     apply Z.leb_gt; lia).
    cbn [Z.eqb]. unfold draw_port.
    destruct (engine_and_url c _) as [engine url].
    destruct Hs as [srv Hs]. cbn [fServer log]. rewrite Hs.
    unfold do_CreateEngine. rewrite Hall.
    edestruct (IH (ntry - 1)) as (st' & H1 & H2 & H3);
      [lia | lia | | exists st'; split; [exact H1|]].
    + cbn. eauto.
    + cbn in H2, H3. split; [|exact H3]. rewrite H2.
      replace (Z.to_nat (ntry + 1)) with (S (Z.to_nat (ntry - 1 + 1))) by lia. lia.
  - exists st. split; [reflexivity|]. split; [|reflexivity].
    replace (Z.to_nat (ntry + 1)) with O by lia. lia.
Qed.

(** One turn of the bind loop. *)
Lemma loop_unfold (env : Env) (c : HttpConfig) (fuel : nat) (ntry port : Z) (st : State) :
  CreateHttpServer_loop (S fuel) env c ntry port st =
  if ntry >=? 0 then
    if (port =? 0) && ((http_min c <=? 0) || (http_max c <=? http_min c))
    then Normal (false,
           R__ERROR_HERE "Wrong HTTP range configuration, check WebGui.HttpPortMin/Max variables" st)
    else
      let '(http_port, st) :=
        if port =? 0 then draw_port env c st else (port, st) in
      let '(engine, url) := engine_and_url c http_port in
      match fServer st with
      | None => Undef
      | Some srv =>
          let '(ok, st) := do_CreateEngine env engine srv st in
          if ok
          then Normal (true, set_fAddr (url +:+ ":" +:+ Str.to_string http_port) st)
          else CreateHttpServer_loop fuel env c (ntry - 1) 0 st
      end
  else Normal (false, st).
Proof. reflexivity. Qed.

(** The bind loop only adds bind attempts. *)
Lemma loop_attempts_mono (env : Env) (c : HttpConfig) (fuel : nat) :
  forall ntry port st r st',
    CreateHttpServer_loop fuel env c ntry port st = Normal (r, st') ->
    (bind_attempts (trace st) <= bind_attempts (trace st'))%nat.
Proof.
  induction fuel as [|fuel IH]; intros ntry port st r st' H; [discriminate H|].
  cbn [CreateHttpServer_loop] in H.
  destruct (ntry >=? 0); [|injection H as <- <-; lia].
  destruct ((port =? 0) && ((http_min c <=? 0) || (http_max c <=? http_min c))).
  { injection H as <- <-. cbn. lia. }
  set (d := if port =? 0 then draw_port env c st else (port, st)) in H.
  assert (Hd : bind_attempts (trace (snd d)) = bind_attempts (trace st)).
  { subst d. destruct (port =? 0); reflexivity. }
  destruct d as [port1 st1]. cbn [snd] in Hd.
  destruct (engine_and_url c port1) as [engine url].
  destruct (fServer st1) as [srv|]; [|discriminate H].
  unfold do_CreateEngine in H.
  destruct (CreateEngine env (trace st1) engine).
  - injection H as <- <-. cbn. lia.
  - apply IH in H. cbn in H. lia.
Qed.

Lemma ensure_fServer_facts (st : State) :
  fAddr (ensure_fServer st) = fAddr st /\ trace (ensure_fServer st) = trace st.
Proof. unfold ensure_fServer. destruct (fServer st); auto. Qed.

Lemma ensure_fServer_Some (st : State) : is_Some (fServer (ensure_fServer st)).
Proof. unfold ensure_fServer. destruct (fServer st) eqn:E; cbn; rewrite ?E; eauto. Qed.

Lemma ensure_fServer_id (st : State) :
  is_Some (fServer st) -> ensure_fServer st = st.
Proof. intros [s Hs]. unfold ensure_fServer. rewrite Hs. reflexivity. Qed.

(** [CreateHttpServer] always returns, and what it leaves behind. *)
Lemma CreateHttpServer_returns (env : Env) (with_http : bool) (st : State) :
  exists r st', CreateHttpServer env with_http st = Normal (r, st').
Proof.
  unfold CreateHttpServer.
  destruct (negb with_http || negb (empty (fAddr (ensure_fServer st)))); [eauto|].
  destruct (GetValue_int env "WebGui.HttpPort" 0 <? 0); [eauto|].
  apply loop_returns.
  - unfold CreateHttpServer_fuel.
    destruct (range_width (read_config env) <? 100) eqn:E; lia.
  - pose proof (ensure_fServer_Some st) as Hs.
    destruct (GetValue_int env "WebGui.HttpPort" 0 =? 0); exact Hs.
Qed.

Lemma CreateHttpServer_effect (env : Env) (with_http : bool) (st : State) r st' :
  CreateHttpServer env with_http st = Normal (r, st') ->
  fIdCnt st' = fIdCnt st /\
  is_Some (fServer st') /\
  (r = false -> fAddr st' = fAddr st) /\
  (r = true -> with_http = true -> empty (fAddr st') = false) /\
  (bind_attempts (trace st') <=
   bind_attempts (trace st) +
   Z.to_nat (Z.min 100 (range_width (read_config env)) + 1))%nat.
Proof.
  unfold CreateHttpServer.
  pose proof (ensure_fServer_Some st) as Hs.
  assert (Hw : fIdCnt (ensure_fServer st) = fIdCnt st /\
               fAddr (ensure_fServer st) = fAddr st /\
               trace (ensure_fServer st) = trace st).
  { unfold ensure_fServer. destruct (fServer st); auto. }
  destruct Hw as (Hw1 & Hw2 & Hw3).
  destruct (negb with_http || negb (empty (fAddr (ensure_fServer st)))) eqn:E.
  { intros [= <- <-]. rewrite Hw1, Hw3.
    split; [reflexivity|]. split; [exact Hs|]. split; [auto|].
    split; [|lia].
    intros _ ->. cbn in E. apply negb_true_iff in E. exact E. }
  destruct (GetValue_int env "WebGui.HttpPort" 0 <? 0).
  { intros [= <- <-]. cbn. rewrite Hw1, Hw3.
    split; [reflexivity|]. split; [exact Hs|]. split; [auto|].
    split; [discriminate|lia]. }
  intros H. apply loop_effect in H.
  destruct H as (H1 & H2 & H3 & H4 & H5).
  set (st0 := if GetValue_int env "WebGui.HttpPort" 0 =? 0
              then log (EvSetSeed 0) (ensure_fServer st) else ensure_fServer st) in *.
  assert (H0 : fIdCnt st0 = fIdCnt st /\ fAddr st0 = fAddr st /\
               fServer st0 = fServer (ensure_fServer st) /\
               bind_attempts (trace st0) = bind_attempts (trace st)).
  { subst st0. destruct (GetValue_int env "WebGui.HttpPort" 0 =? 0); cbn;
      rewrite ?Hw1, ?Hw2, ?Hw3; auto. }
  destruct H0 as (A1 & A2 & A3 & A4).
  rewrite A1, A2, A4 in *. rewrite A3 in H4.
  split; [exact H1|]. split; [auto|]. split; [exact H2|]. split; [auto|].
  etransitivity; [exact H5|].
  apply Nat.add_le_mono_l.
  destruct (range_width (read_config env) <? 100) eqn:E'; lia.
Qed.

End ServerFacts.

(** C8.  Once [CreateHttpServer(true)] has succeeded, a second call, under
    any configuration and whatever the collaborators would answer, returns
    success and leaves the manager exactly as it was: the cached address is
    the same (and not empty) and the trace has no new bind attempt. *)
Theorem CreateHttpServer_idempotent (env env2 : Env) (st st' : State) :
  CreateHttpServer env true st = Normal (true, st') ->
  CreateHttpServer env2 true st' = Normal (true, st') /\
  fAddr st' <> "" /\
  bind_attempts (trace (state_after (CreateHttpServer env2 true st') st')) =
  bind_attempts (trace st').
Proof.
  intros H. apply ServerFacts.CreateHttpServer_effect in H.
  destruct H as (_ & Hs & _ & Ha & _). specialize (Ha eq_refl eq_refl).
  assert (E : CreateHttpServer env2 true st' = Normal (true, st')).
  { unfold CreateHttpServer. rewrite (ServerFacts.ensure_fServer_id st' Hs).
    rewrite Ha. reflexivity. }
  rewrite E. split; [reflexivity|]. split; [|reflexivity].
  intros Hn. rewrite Hn in Ha. discriminate Ha.
Qed.

Lemma CreateHttpServer_idempotent_witness :
  CreateHttpServer env_free true initial = Normal (true, bound_state) /\
  CreateHttpServer env_all_busy true bound_state = Normal (true, bound_state) /\
  fAddr bound_state = "http://localhost:9300".
Proof.
  assert (H : CreateHttpServer env_free true initial = Normal (true, bound_state))
    by (vm_compute; reflexivity).
  split; [exact H|]. split; [|vm_compute; reflexivity].
  exact (proj1 (CreateHttpServer_idempotent env_free env_all_busy initial bound_state H)).
Defined.

(** C3 at its failing input.  Default configuration (no fixed port, range
    8800..9800, so min(100, max-min) = 100) and every bind refused: the
    call returns failure with no address cached, after 101 calls of
    [CreateEngine].  With the one-port range 8800..8801 it binds twice. *)
Theorem CreateHttpServer_one_attempt_too_many :
  Z.min 100 (http_max (read_config env_all_busy) - http_min (read_config env_all_busy)) = 100 /\
  (exists st', CreateHttpServer env_all_busy true initial = Normal (false, st') /\
               fAddr st' = "" /\
               bind_attempts (trace st') = 101%nat) /\
  Z.min 100 (http_max (read_config env_one_port_busy) -
             http_min (read_config env_one_port_busy)) = 1 /\
  (exists st', CreateHttpServer env_one_port_busy true initial = Normal (false, st') /\
               fAddr st' = "" /\
               bind_attempts (trace st') = 2%nat).
Proof.
  split; [vm_compute; reflexivity|].
  split; [eexists; split; [vm_compute; reflexivity|]; split; vm_compute; reflexivity|].
  split; [vm_compute; reflexivity|].
  eexists; split; [vm_compute; reflexivity|]; split; vm_compute; reflexivity.
Qed.

(** What does hold of C3 for every configuration: at most
    min(100, w) + 1 bind attempts, [w] the [int] difference max - min, and
    a failing call leaves the address as it was. *)
Lemma CreateHttpServer_attempts_bound (env : Env) (st : State) (r : bool) (st' : State) :
  fAddr st = "" ->
  CreateHttpServer env true st = Normal (r, st') ->
  (bind_attempts (trace st') <=
   bind_attempts (trace st) +
   Z.to_nat (Z.min 100 (range_width (read_config env)) + 1))%nat /\
  (r = false -> fAddr st' = "").
Proof.
  intros Ha H. apply ServerFacts.CreateHttpServer_effect in H.
  destruct H as (_ & _ & Hf & _ & Hb). split; [exact Hb|].
  intros Hr. rewrite (Hf Hr). exact Ha.
Qed.

(** X21.  The count is exact for every configuration without a fixed port and
    with a range in order: when every bind is refused, the call makes
    min(100, max-min) + 1 bind attempts. *)
Lemma CreateHttpServer_all_refused (env : Env) (st : State) :
  fAddr st = "" ->
  GetValue_int env "WebGui.HttpPort" 0 = 0 ->
  0 < http_min (read_config env) ->
  http_min (read_config env) < http_max (read_config env) ->
  (forall tr e, CreateEngine env tr e = false) ->
  exists st',
    CreateHttpServer env true st = Normal (false, st') /\
    bind_attempts (trace st') =
      (bind_attempts (trace st) +
       Z.to_nat (Z.min 100 (http_max (read_config env) - http_min (read_config env)) + 1))%nat /\
    fAddr st' = "".
Proof.
  intros Ha Hp Hmin Hmax Hall. unfold CreateHttpServer.
  assert (Hw : fAddr (ensure_fServer st) = "" /\
               trace (ensure_fServer st) = trace st).
  { unfold ensure_fServer. destruct (fServer st); auto. }
  destruct Hw as (Hw1 & Hw2). rewrite Hw1. cbn [negb orb Str.empty String.eqb].
  rewrite Hp. cbn [Z.ltb Z.compare Z.eqb].
  set (c := read_config env) in *.
  set (ntry := if range_width c <? 100 then range_width c else 100).
  assert (Hntry : ntry = Z.min 100 (http_max c - http_min c)).
  { subst ntry c. rewrite (ServerFacts.range_width_in_order env Hmin Hmax).
    destruct (http_max (read_config env) - http_min (read_config env) <? 100) eqn:E; lia. }
  destruct (ServerFacts.loop_all_refused env c Hall Hmin Hmax CreateHttpServer_fuel ntry
              (log (EvSetSeed 0) (ensure_fServer st))) as (st' & H1 & H2 & H3).
  - lia.
  - unfold CreateHttpServer_fuel. lia.
  - cbn. apply ServerFacts.ensure_fServer_Some.
  - exists st'. split; [exact H1|]. cbn in H2, H3.
    rewrite H2, H3, Hw1, Hw2, Hntry. auto.
Qed.

(** C6 as stated fails: with a fixed positive port the test of the range
    (lines 128-132) is skipped; here the lower end of the range is 0, a
    bind is attempted on the fixed port and the call succeeds. *)
Lemma CreateHttpServer_fixed_port_ignores_range :
  GetValue_int env_fixed_port_bad_range "WebGui.HttpPortMin" 8800 <= 0 /\
  exists st', CreateHttpServer env_fixed_port_bad_range true initial = Normal (true, st') /\
              fAddr st' = "http://localhost:8080" /\
              bind_attempts (trace st') = 1%nat.
Proof.
  split; [vm_compute; discriminate|].
  eexists; split; [vm_compute; reflexivity|]; split; vm_compute; reflexivity.
Qed.

(** C6, as the code has it.  When a network server is asked for and no
    address is cached, the call returns failure, makes no bind attempt and
    caches no address
    - whenever the fixed port is negative; it reports "Not allowed to
      create real HTTP server";
    - when no fixed port is configured (HttpPort is 0), whenever
      max <= min or min <= 0; it reports "Wrong HTTP range configuration",
      unless the [int] difference max - min is negative, in which case it
      reports nothing;
    - with a positive fixed port, whenever the [int] difference max - min
      is negative; it reports nothing.
    In every other case (a positive fixed port and a non-negative
    difference, whatever the range; no fixed port and 0 < min < max) the
    call returns after at least one bind attempt.  The [int] difference
    is max - min whenever that fits an [int]. *)
Theorem CreateHttpServer_config_error (env : Env) (st : State) :
  fAddr st = "" ->
  let port := GetValue_int env "WebGui.HttpPort" 0 in
  let c := read_config env in
  (port < 0 ->
   exists st', CreateHttpServer env true st = Normal (false, st') /\
     fAddr st' = "" /\ bind_attempts (trace st') = bind_attempts (trace st) /\
     trace st' =
       EvError "Not allowed to create real HTTP server, check WebGui.HttpPort variable"
         :: trace st) /\
  (port = 0 -> http_max c <= http_min c \/ http_min c <= 0 ->
   exists st', CreateHttpServer env true st = Normal (false, st') /\
     fAddr st' = "" /\ bind_attempts (trace st') = bind_attempts (trace st) /\
     trace st' =
       (if 0 <=? range_width c
        then [EvError "Wrong HTTP range configuration, check WebGui.HttpPortMin/Max variables"]
        else []) ++ EvSetSeed 0 :: trace st) /\
  (0 < port -> range_width c < 0 ->
   exists st', CreateHttpServer env true st = Normal (false, st') /\
     fAddr st' = "" /\ trace st' = trace st) /\
  (0 < port \/ (port = 0 /\ 0 < http_min c < http_max c) ->
   0 <= range_width c ->
   exists r st', CreateHttpServer env true st = Normal (r, st') /\
     (bind_attempts (trace st) < bind_attempts (trace st'))%nat) /\
  (Str.INT_MIN <= http_max c - http_min c <= Str.INT_MAX ->
   range_width c = http_max c - http_min c).
Proof.
  intros Ha port c.
  destruct (ServerFacts.ensure_fServer_facts st) as (Hw1 & Hw2).
  assert (Hcall : CreateHttpServer env true st =
    if port <? 0
    then Normal (false,
           R__ERROR_HERE "Not allowed to create real HTTP server, check WebGui.HttpPort variable"
             (ensure_fServer st))
    else CreateHttpServer_loop CreateHttpServer_fuel env c
           (if range_width c <? 100 then range_width c else 100) port
           (if port =? 0 then log (EvSetSeed 0) (ensure_fServer st)
            else ensure_fServer st)).
  { unfold CreateHttpServer. rewrite Hw1, Ha. reflexivity. }
  destruct (ServerFacts.CreateHttpServer_returns env true st) as (r & st' & Hret).
  rewrite Hcall in *. clear Hcall.
  set (ntry := if range_width c <? 100 then range_width c else 100) in *.
  assert (Hntry : (ntry >=? 0) = (0 <=? range_width c)).
  { subst ntry. destruct (range_width c <? 100) eqn:E; lia. }
  split; [|split; [|split; [|split]]].
  - intros Hneg. apply Z.ltb_lt in Hneg. rewrite Hneg.
    eexists. split; [reflexivity|]. cbn. rewrite Hw1, Hw2, Ha. auto.
  - intros H0 Hr. rewrite H0. cbn [Z.ltb Z.compare Z.eqb].
    unfold CreateHttpServer_fuel. rewrite ServerFacts.loop_unfold.
    rewrite Hntry. destruct (0 <=? range_width c).
    + replace ((0 =? 0) && ((http_min c <=? 0) || (http_max c <=? http_min c)))
        with true by (symmetry; apply andb_true_iff; split; [reflexivity|];
                      apply orb_true_iff; destruct Hr; [right|left]; apply Z.leb_le; lia).
      eexists. split; [reflexivity|]. cbn. rewrite Hw1, Hw2, Ha. auto.
    + eexists. split; [reflexivity|]. cbn. rewrite Hw1, Hw2, Ha. auto.
  - intros Hp Hw.
    replace (port <? 0) with false by (symmetry; apply Z.ltb_ge; lia).
    replace (port =? 0) with false by (symmetry; apply Z.eqb_neq; lia).
    unfold CreateHttpServer_fuel. rewrite ServerFacts.loop_unfold.
    rewrite Hntry.
    replace (0 <=? range_width c) with false by (symmetry; apply Z.leb_gt; lia).
    eexists. split; [reflexivity|]. rewrite Hw1, Hw2, Ha. auto.
  - intros Hcase Hw. exists r, st'. split; [exact Hret|]. revert Hret.
    replace (port <? 0) with false by (symmetry; apply Z.ltb_ge; lia).
    unfold CreateHttpServer_fuel. rewrite ServerFacts.loop_unfold.
    rewrite Hntry.
    replace (0 <=? range_width c) with true by (symmetry; apply Z.leb_le; lia).
    replace ((port =? 0) && ((http_min c <=? 0) || (http_max c <=? http_min c)))
      with false.
    2:{ symmetry. destruct Hcase as [Hp | (H0 & Hmin & Hmax)].
        - replace (port =? 0) with false by (symmetry; apply Z.eqb_neq; lia).
          reflexivity.
        - apply andb_false_iff. right. apply orb_false_iff.
          split; apply Z.leb_gt; lia. }
    set (s0 := if port =? 0 then log (EvSetSeed 0) (ensure_fServer st)
               else ensure_fServer st).
    assert (Hs0 : bind_attempts (trace s0) = bind_attempts (trace st) /\
                  is_Some (fServer s0)).
    { subst s0. pose proof (ServerFacts.ensure_fServer_Some st).
      destruct (port =? 0); cbn; rewrite Hw2; auto. }
    destruct Hs0 as [Hb0 [srv Hsrv]].
    set (d := if port =? 0 then draw_port env c s0 else (port, s0)).
    assert (Hd : bind_attempts (trace (snd d)) = bind_attempts (trace st) /\
                 fServer (snd d) = Some srv).
    { subst d. destruct (port =? 0); cbn; auto. }
    destruct d as [port1 st1]. cbn [snd] in Hd. destruct Hd as [Hd1 Hd2].
    destruct (engine_and_url c port1) as [engine url]. rewrite Hd2.
    unfold do_CreateEngine.
    destruct (CreateEngine env (trace st1) engine).
    + intros [= <- <-]. cbn. lia.
    + intros H. apply ServerFacts.loop_attempts_mono in H. cbn in H. lia.
  - intros Hfit. apply ServerFacts.wrap_int_id. exact Hfit.
Qed.

Lemma CreateHttpServer_config_error_witness :
  (exists st', CreateHttpServer env_negative_port true initial = Normal (false, st') /\
     fAddr st' = "" /\ bind_attempts (trace st') = bind_attempts (trace initial) /\
     trace st' =
       [EvError "Not allowed to create real HTTP server, check WebGui.HttpPort variable"]) /\
  (exists st', CreateHttpServer env_empty_range true initial = Normal (false, st') /\
     fAddr st' = "" /\ bind_attempts (trace st') = bind_attempts (trace initial) /\
     trace st' =
       [EvError "Wrong HTTP range configuration, check WebGui.HttpPortMin/Max variables";
        EvSetSeed 0]) /\
  (exists st', CreateHttpServer env_fixed_port_inverted true initial = Normal (false, st') /\
     fAddr st' = "" /\ trace st' = []) /\
  (exists r st', CreateHttpServer env_fixed_port_bad_range true initial = Normal (r, st') /\
     (0 < bind_attempts (trace st'))%nat).
Proof.
  destruct (CreateHttpServer_config_error env_negative_port initial eq_refl)
    as (H1 & _).
  destruct (CreateHttpServer_config_error env_empty_range initial eq_refl)
    as (_ & H2 & _).
  destruct (CreateHttpServer_config_error env_fixed_port_inverted initial eq_refl)
    as (_ & _ & H3 & _).
  destruct (CreateHttpServer_config_error env_fixed_port_bad_range initial eq_refl)
    as (_ & _ & _ & H4 & _).
  split; [apply H1; reflexivity|].
  split; [apply H2; [reflexivity | left; vm_compute; discriminate]|].
  split; [apply H3; reflexivity|].
  apply H4; [left; reflexivity | vm_compute; discriminate].
Defined.

(* ===================================================================== *)
(** * 13. Show                                                            *)
(* ===================================================================== *)

Module ShowFacts.
Import Str Vocab StrFacts.

Lemma to_int_digits (p : positive) :
  all_digits (NilEmpty.string_of_uint (Pos.to_uint p)) = true.
Proof.
  generalize (Pos.to_uint p). intros d.
  induction d; cbn [NilEmpty.string_of_uint all_digits]; auto.
Qed.

(** Printing a non-negative integer gives a decimal string. *)
Lemma to_string_decimal (z : Z) : 0 <= z -> decimal_string (to_string z).
Proof.
  intros Hz. unfold decimal_string, to_string.
  destruct z as [|p|p]; [split; [discriminate|reflexivity] | | lia].
  cbn [Z.to_int NilZero.string_of_int]. unfold NilZero.string_of_uint.
  pose proof (DecimalPos.Unsigned.to_uint_nonnil p) as Hn.
  pose proof (to_int_digits p) as Hd.
  destruct (Pos.to_uint p); try congruence; split; try discriminate; exact Hd.
Qed.

Lemma Q_to_int_nonneg (a : Z) (q : Q) : 0 <= a -> (0 <= q)%Q ->
  0 <= Q_to_int (inject_Z a * q)%Q.
Proof.
  intros Ha Hq. unfold Q_to_int. apply Z.quot_pos; [|lia].
  destruct q as [n d]. unfold Qle in Hq. cbn in *. nia.
Qed.

Lemma keyloop_effect (env : Env) (win : TWebWindow) (n : nat) :
  forall st key ntry st',
    Show_keyloop env win n st = (key, ntry, st') ->
    fIdCnt st' = fIdCnt st /\ fServer st' = fServer st /\ fAddr st' = fAddr st /\
    ((1 <= n)%nat -> 0 <= ntry) /\
    (0 < ntry -> HasKey win key = false) /\
    ((forall tr, (0 <= Rndm env tr)%Q) -> decimal_string key).
Proof.
  induction n as [|n IH]; intros st key ntry st' H; cbn [Show_keyloop] in H.
  - unfold gRandom_Integer in H. injection H as <- <- <-. cbn.
    do 3 (split; [reflexivity|]). split; [intros; lia|]. split; [intros; lia|].
    intros Hr. apply to_string_decimal, Q_to_int_nonneg; [lia|apply Hr].
  - unfold gRandom_Integer in H.
    match type of H with context [(0 <? Z.of_nat n) && ?b] =>
      destruct ((0 <? Z.of_nat n) && b) eqn:E end.
    + apply IH in H. cbn in H. destruct H as (H1 & H2 & H3 & H4 & H5 & H6).
      do 3 (split; [assumption|]). split; [|split; assumption].
      intros _. apply andb_true_iff in E. apply H4. lia.
    + injection H as <- <- <-. cbn.
      do 3 (split; [reflexivity|]). split; [intros; lia|]. split.
      * intros Hp. apply andb_false_iff in E. destruct E as [E|E]; [lia|exact E].
      * intros Hr. apply to_string_decimal, Q_to_int_nonneg; [lia|apply Hr].
Qed.

Lemma GetUrl_local_effect (env : Env) (win : TWebWindow) (st : State) a st' :
  GetUrl env win false st = Normal (a, st') ->
  fIdCnt st' = fIdCnt st /\ fServer st' = fServer st /\ fAddr st' = fAddr st.
Proof.
  unfold GetUrl. destruct (fServer st) eqn:E.
  - destruct (fWSHandler win); [|discriminate]. intros [= <- <-]. auto.
  - intros [= <- <-]. cbn. auto.
Qed.

Lemma batch_check_effect (env : Env) (k : Where) (win : TWebWindow) (st : State) :
  match Show_batch_check env k win st with
  | Return r win' st' => r = false /\ win' = win /\ fIdCnt st' = fIdCnt st
  | Continue st' => fIdCnt st' = fIdCnt st
  end.
Proof.
  unfold Show_batch_check.
  destruct (fBatchMode win); [|reflexivity].
  destruct (negb (is_cef k) && negb (is_chrome k) && negb (is_firefox k)); [cbn; auto|].
  destruct (is_cef k); [|reflexivity].
  destruct (Getenv env "DISPLAY") as [d|]; [|cbn; auto].
  destruct (empty d); cbn; auto.
Qed.

Lemma find_or_load_effect (env : Env) (sym lib : string) (st : State) :
  fIdCnt (snd (find_or_load env sym lib st)) = fIdCnt st.
Proof. unfold find_or_load. destruct (DynFindSymbol env (trace st) sym); reflexivity. Qed.

Lemma cef_effect (env : Env) (bld : Build) (k : Where) (win : TWebWindow)
    (key addr : string) (st : State) :
  match Show_cef env bld k win key addr st with
  | Return r win' st' => r = true /\ win' = AddKey key "cef" win /\ fIdCnt st' = fIdCnt st
  | Continue st' => fIdCnt st' = fIdCnt st
  end.
Proof.
  unfold Show_cef.
  destruct (R__HAS_CEFWEB bld); [|reflexivity].
  destruct (Getenv env "CEF_PATH") as [cef|]; [|reflexivity].
  destruct (Getenv env "ROOTSYS") as [root|]; [|reflexivity].
  destruct (negb (AccessPathName env cef) && (is_native k || is_cef k)); [|reflexivity].
  pose proof (find_or_load_effect env "webgui_start_browser_in_cef3"
                "libROOTCefDisplay" st) as Hf.
  destruct (find_or_load env _ _ st) as [[|] st1]; cbn in *; auto.
Qed.

Lemma qt5_effect (env : Env) (bld : Build) (k : Where) (win : TWebWindow)
    (key addr : string) (st : State) :
  match Show_qt5 env bld k win key addr st with
  | Return r win' st' => r = true /\ win' = AddKey key "qt5" win /\ fIdCnt st' = fIdCnt st
  | Continue st' => fIdCnt st' = fIdCnt st
  end.
Proof.
  unfold Show_qt5.
  destruct (R__HAS_QT5WEB bld && (is_native k || is_qt5 k)); [|reflexivity].
  pose proof (find_or_load_effect env "webgui_start_browser_in_qt5"
                "libROOTQt5WebDisplay" st) as Hf.
  destruct (find_or_load env _ _ st) as [[|] st1]; cbn in *; auto.
Qed.

Lemma fork_effect (env : Env) (bld : Build) (win : TWebWindow)
    (key prog exec : string) (st : State) r win' st' :
  Show_fork env bld win key prog exec st = (r, win', st') ->
  records key win st r win' st'.
Proof.
  unfold Show_fork, records.
  destruct (negb (MSC_VER bld)).
  - destruct (GetLast (Tokenize (substr exec 5) " ") <=? 0).
    + intros [= <- <- <-]. repeat split; auto. discriminate.
    + destruct (posix_spawn env (trace st) _) as [status pid].
      destruct (negb (status =? 0)); intros [= <- <- <-]; cbn;
        repeat split; auto; try discriminate. eauto.
  - intros [= <- <- <-]. cbn. repeat split; auto. discriminate.
Qed.

Lemma browser_effect (env : Env) (bld : Build) (k : Where) (win : TWebWindow)
    (where_ key addr : string) (st : State) r win' st' :
  Show_browser env bld k win where_ key addr st = Normal (r, win', st') ->
  records key win st r win' st'.
Proof.
  unfold Show_browser.
  destruct (CreateHttpServer env true st) as [[ok st1]| | |] eqn:Hc;
    cbn [obind]; try discriminate.
  apply ServerFacts.CreateHttpServer_effect in Hc. destruct Hc as (Hid & _).
  destruct ok; cbn [negb].
  2:{ intros [= <- <- <-]. unfold records. cbn. repeat split; auto. discriminate. }
  destruct (Show_template env bld k win where_) as [[prog testprogs] exec].
  match goal with |- context [negb (find_ne_0 ?e "fork:")] =>
    destruct (negb (find_ne_0 e "fork:")) end.
  - intros [= H]. apply fork_effect in H. unfold records in *.
    rewrite <- Hid. exact H.
  - intros [= <- <- <-]. unfold records. cbn. repeat split; auto; try discriminate.
    eauto.
Qed.

(** [Show] as a whole: a failing call returns the window it was given, a
    successful one has added one key, which the window did not have. *)
Lemma Show_effect (env : Env) (bld : Build) (win : TWebWindow) (where_ : string)
    (st : State) r win' st' :
  Show env bld win where_ st = Normal (r, win', st') ->
  fIdCnt st' = fIdCnt st /\
  (r = false -> win' = win) /\
  (r = true -> exists key tag,
      win' = AddKey key tag win /\ HasKey win key = false /\
      ((forall tr, (0 <= Rndm env tr)%Q) -> decimal_string key)).
Proof.
  unfold Show.
  destruct (fServer st) eqn:Hs.
  2:{ intros [= <- <- <-]. cbn. repeat split; auto. discriminate. }
  destruct (Show_keyloop env win 1000 st) as [[key ntry] st1] eqn:Hk.
  apply keyloop_effect in Hk. destruct Hk as (K1 & K2 & K3 & K4 & K5 & K6).
  destruct (ntry =? 0) eqn:Hn.
  { intros [= <- <- <-]. cbn. repeat split; auto. discriminate. }
  assert (Hfresh : HasKey win key = false) by (apply K5; lia).
  unfold Show_addr.
  destruct (GetUrl env win false st1) as [[a st2]| | |] eqn:Hg;
    cbn [obind]; try discriminate.
  apply GetUrl_local_effect in Hg. destruct Hg as (G1 & _).
  set (addr := (if contains a "?" then a +:+ "&key=" else a +:+ "?key=") +:+ key).
  set (w := if empty where_ then GetWebDisplay env else where_).
  set (k := classify bld w).
  assert (Hfin : forall st3 r win' st',
            fIdCnt st3 = fIdCnt st -> records key win st3 r win' st' ->
            fIdCnt st' = fIdCnt st /\
            (r = false -> win' = win) /\
            (r = true -> exists key tag,
                win' = AddKey key tag win /\ HasKey win key = false /\
                ((forall tr, (0 <= Rndm env tr)%Q) -> decimal_string key))).
  { intros st3 r0 w0 s0 E (R1 & R2 & R3). split; [congruence|]. split; [exact R2|].
    intros Hr. destruct (R3 Hr) as [tag ->]. eauto. }
  pose proof (batch_check_effect env k win st2) as Hb.
  destruct (Show_batch_check env k win st2) as [rb wb sb|sb].
  { destruct Hb as (-> & -> & Hb). intros [= <- <- <-].
    split; [congruence|]. split; [auto|discriminate]. }
  pose proof (cef_effect env bld k win key addr sb) as Hcef.
  destruct (Show_cef env bld k win key addr sb) as [rc wc sc|sc].
  { destruct Hcef as (-> & -> & Hcef). intros [= <- <- <-].
    split; [congruence|]. split; [discriminate|]. eauto 6. }
  pose proof (qt5_effect env bld k win key addr sc) as Hqt.
  destruct (Show_qt5 env bld k win key addr sc) as [rq wq sq|sq].
  { destruct Hqt as (-> & -> & Hqt). intros [= <- <- <-].
    split; [congruence|]. split; [discriminate|]. eauto 6. }
  intros H. apply browser_effect in H.
  apply (Hfin sq); [congruence | exact H].
Qed.

End ShowFacts.

Module ShowMore.
Import Str Vocab StrFacts.

Lemma draws_shift (env : Env) (n : nat) (st : State) :
  draws env (S n) st = draws env n (snd (gRandom_Integer env 1048576 st)).
Proof.
  induction n as [|n IH]; [reflexivity|].
  cbn [draws] in *. rewrite IH. reflexivity.
Qed.

Lemma nth_key_shift (env : Env) (n : nat) (st : State) :
  nth_key env (S n) st = nth_key env n (snd (gRandom_Integer env 1048576 st)).
Proof. unfold nth_key. rewrite draws_shift. reflexivity. Qed.

(** The key loop started with [ntry = n+1] ends with [ntry = 0] exactly
    when its first [n] keys are all taken; the key drawn last is not
    looked at. *)
Lemma keyloop_zero_iff (env : Env) (win : TWebWindow) (n : nat) :
  forall st,
    snd (fst (Show_keyloop env win (S n) st)) = 0 <->
    (forall i, (i < n)%nat -> HasKey win (nth_key env i st) = true).
Proof.
  induction n as [|n IH]; intros st.
  - cbn. split; [intros _ i Hi; lia | reflexivity].
  - change (Show_keyloop env win (S (S n)) st) with
      (let '(r, st1) := gRandom_Integer env 1048576 st in
       let key := to_string r in
       if (0 <? Z.of_nat (S n)) && HasKey win key
       then Show_keyloop env win (S n) st1
       else (key, Z.of_nat (S n), st1)).
    destruct (gRandom_Integer env 1048576 st) as [r st1] eqn:Hg.
    assert (Hk0 : nth_key env 0 st = to_string r).
    { unfold nth_key. cbn [draws]. rewrite Hg. reflexivity. }
    assert (Hs : snd (gRandom_Integer env 1048576 st) = st1) by (rewrite Hg; reflexivity).
    replace (0 <? Z.of_nat (S n)) with true by (symmetry; apply Z.ltb_lt; lia).
    cbn [andb]. destruct (HasKey win (to_string r)) eqn:Hh.
    + rewrite IH. split.
      * intros H [|i] Hi; [congruence|]. rewrite nth_key_shift, Hs. apply H. lia.
      * intros H i Hi. specialize (H (S i)). rewrite nth_key_shift, Hs in H.
        apply H. lia.
    + cbn [fst snd]. split; [lia|].
      intros H. specialize (H O). rewrite Hk0, Hh in H. 
      assert (false = true) by (apply H; lia). discriminate.
Qed.

Lemma append_assoc (a b c : string) : (a +:+ b) +:+ c = a +:+ (b +:+ c).
Proof.
  induction a as [|x a IH]; [reflexivity|].
  rewrite !append_String, IH. reflexivity.
Qed.

Lemma append_nonempty_r (a b : string) : b <> "" -> a +:+ b <> "".
Proof. destruct a; [intros H; exact H | discriminate]. Qed.

(** Searching a one-character pattern in a concatenation. *)
Lemma contains_char_app (ch : ascii) (a b : string) :
  contains (a +:+ b) (String ch "") =
  contains a (String ch "") || contains b (String ch "").
Proof.
  unfold contains, find. induction a as [|c a IH].
  - destruct b; reflexivity.
  - rewrite append_String. cbn [String.index].
    assert (Hp : forall s, String.prefix (String ch "") (String c s) =
                           if ascii_dec ch c then true else false).
    { intros s. cbn [String.prefix]. destruct (ascii_dec ch c); [|reflexivity].
      destruct s; reflexivity. }
    rewrite !Hp. destruct (ascii_dec ch c); [reflexivity|].
    destruct (String.index 0 (String ch "") (a +:+ b)),
             (String.index 0 (String ch "") a); cbn in *; auto; discriminate.
Qed.

End ShowMore.

(** [Show] returns whenever the window has its handler. *)
Lemma Show_returns (env : Env) (bld : Build) (win : TWebWindow) (where_ : string)
    (st : State) (name : string) :
  fWSHandler win = Some name ->
  exists r win' st', Show env bld win where_ st = Normal (r, win', st').
Proof.
  intros Hh. unfold Show.
  destruct (fServer st) eqn:Hs; [|eauto].
  destruct (Show_keyloop env win 1000 st) as [[key ntry] st1] eqn:Hk.
  apply ShowFacts.keyloop_effect in Hk. destruct Hk as (_ & K2 & _).
  destruct (ntry =? 0); [eauto|].
  unfold Show_addr, GetUrl. rewrite K2, Hs, Hh. cbn [obind].
  destruct (Show_batch_check _ _ _ _); [eauto|].
  destruct (Show_cef _ _ _ _ _ _ _); [eauto|].
  destruct (Show_qt5 _ _ _ _ _ _ _); [eauto|].
  unfold Show_browser.
  match goal with |- context [CreateHttpServer env true ?s] =>
    destruct (ServerFacts.CreateHttpServer_returns env true s) as (ok & sx & ->) end.
  cbn [obind]. destruct ok; cbn [negb]; [|eauto].
  destruct (Show_template _ _ _ _ _) as [[prog tp] exec].
  match goal with |- context [negb (Str.find_ne_0 ?e "fork:")] =>
    destruct (negb (Str.find_ne_0 e "fork:")) end; [|eauto].
  match goal with |- context [Show_fork ?a ?b ?c ?d ?e ?f ?g] =>
    destruct (Show_fork a b c d e f g) as [[r w] s] end. eauto.
Qed.

(** C4.  Whatever [Show] returns, a failing call hands back the key table
    it was given, a changed key table means the call succeeded, and a
    successful call has added exactly one entry under a key that was
    free. *)
Theorem Show_failure_keeps_keys (env : Env) (bld : Build) (win : TWebWindow)
    (where_ : string) (st : State) (r : bool) (win' : TWebWindow) (st' : State) :
  Show env bld win where_ st = Normal (r, win', st') ->
  (r = false -> fKeys win' = fKeys win) /\
  (fKeys win' <> fKeys win -> r = true) /\
  (r = true -> exists key tag,
      fKeys win' = <[key := tag]> (fKeys win) /\ fKeys win !! key = None).
Proof.
  intros H. apply ShowFacts.Show_effect in H. destruct H as (_ & Hf & Ht).
  split; [intros Hr; rewrite (Hf Hr); reflexivity|].
  split.
  - intros Hne. destruct r; [reflexivity|]. exfalso. apply Hne.
    rewrite (Hf eq_refl). reflexivity.
  - intros Hr. destruct (Ht Hr) as (key & tag & -> & Hk & _).
    exists key, tag. split; [reflexivity|].
    unfold HasKey in Hk. apply bool_decide_eq_false in Hk.
    destruct (fKeys win !! key) eqn:E; [|reflexivity].
    exfalso. apply Hk. eauto.
Qed.

Lemma Show_failure_keeps_keys_witness :
  exists r win' st',
    Show env_free linux_build (win_w12 true) "browser" server_state =
      Normal (r, win', st') /\
    r = false /\ fKeys win' = fKeys (win_w12 true).
Proof.
  eexists _, _, _. split; [vm_compute; reflexivity|]. split; [reflexivity|].
  refine (proj1 (Show_failure_keeps_keys env_free linux_build (win_w12 true)
                   "browser" server_state false _ _ _) eq_refl).
  vm_compute. reflexivity.
Defined.

(** C2 at its failing input.  The window holds the key "524288"; the
    generator gives 999 times that key and then the free key "262144".
    The loop draws all 1000 keys, ends with [ntry = 0] holding the free
    key, and [Show] fails with the key-generation error, the window
    unchanged. *)
Theorem Show_rejects_fresh_last_key :
  (forall i, (i < 999)%nat ->
     HasKey win_one_key (nth_key env_999_collisions i server_state) = true) /\
  nth_key env_999_collisions 999 server_state = "262144" /\
  HasKey win_one_key "262144" = false /\
  fst (Show_keyloop env_999_collisions win_one_key 1000 server_state) = ("262144", 0) /\
  exists st',
    Show env_999_collisions linux_build win_one_key "" server_state =
      Normal (false, win_one_key, st') /\
    head (trace st') = Some (EvError "Fail to create unique key for the window") /\
    count_Rndm (trace st') = 1000%nat.
Proof.
  assert (Hloop : fst (Show_keyloop env_999_collisions win_one_key 1000 server_state)
                  = ("262144", 0)) by (vm_compute; reflexivity).
  split.
  { apply (ShowMore.keyloop_zero_iff env_999_collisions win_one_key 999 server_state).
    rewrite Hloop. reflexivity. }
  split; [vm_compute; reflexivity|].
  split; [vm_compute; reflexivity|].
  split; [exact Hloop|].
  eexists. split; [vm_compute; reflexivity|].
  split; vm_compute; reflexivity.
Qed.

(** X22.  What does hold of C2 for every call: a successful [Show] records
    a key the window did not have, a decimal string when the generator
    gives non-negative numbers. *)
Lemma Show_key_fresh (env : Env) (bld : Build) (win : TWebWindow) (where_ : string)
    (st : State) (win' : TWebWindow) (st' : State) :
  (forall tr, (0 <= Rndm env tr)%Q) ->
  Show env bld win where_ st = Normal (true, win', st') ->
  exists key tag,
    fKeys win' = <[key := tag]> (fKeys win) /\
    HasKey win key = false /\ Vocab.decimal_string key.
Proof.
  intros Hr H. apply ShowFacts.Show_effect in H. destruct H as (_ & _ & Ht).
  destruct (Ht eq_refl) as (key & tag & -> & Hk & Hd).
  exists key, tag. split; [reflexivity|]. split; [exact Hk|]. exact (Hd Hr).
Qed.

(** X23.  The key-generation failure is decided by the first 999 keys
    alone: when they are all taken, [Show] fails with the key-generation
    error and leaves the window as it was, whatever the 1000th key is. *)
Lemma Show_key_failure (env : Env) (bld : Build) (win : TWebWindow)
    (where_ : string) (st : State) (srv : THttpServer) :
  fServer st = Some srv ->
  (forall i, (i < 999)%nat -> HasKey win (nth_key env i st) = true) ->
  exists st', Show env bld win where_ st = Normal (false, win, st') /\
              head (trace st') = Some (EvError "Fail to create unique key for the window").
Proof.
  intros Hs Hall. unfold Show. rewrite Hs.
  apply (ShowMore.keyloop_zero_iff env win 999 st) in Hall.
  destruct (Show_keyloop env win 1000 st) as [[key ntry] st1].
  cbn [fst snd] in Hall. rewrite Hall. cbn [Z.eqb].
  eexists. split; reflexivity.
Qed.

Module UrlFacts.
Import Str StrFacts.

(** Lines 288-293 give the URL of the specification. *)
Lemma Show_addr_spec (env : Env) (win : TWebWindow) (key : string) (st : State)
    (srv : THttpServer) (name : string) :
  fServer st = Some srv -> fWSHandler win = Some name ->
  Show_addr env win key st = Normal (spec_local_url name (fBatchMode win) key, st).
Proof.
  intros Hs Hh. unfold Show_addr, GetUrl, spec_local_url. rewrite Hs, Hh. cbn [obind].
  set (path := "/web7gui/" +:+ name +:+ "/" +:+
               (if fBatchMode win then "?batch_mode" else "")).
  assert (Hp : (if fBatchMode win then ("/web7gui/" +:+ name) +:+ "/?batch_mode"
                else ("/web7gui/" +:+ name) +:+ "/") = path).
  { subst path. destruct (fBatchMode win); rewrite ShowMore.append_assoc; reflexivity. }
  rewrite Hp. destruct (contains path "?");
    rewrite ShowMore.append_assoc; reflexivity.
Qed.

Lemma spec_local_url_batch (name key : string) :
  spec_local_url name true key = "/web7gui/" +:+ name +:+ "/?batch_mode&key=" +:+ key.
Proof.
  unfold spec_local_url.
  assert (Hc : contains ("/web7gui/" +:+ name +:+ "/" +:+ "?batch_mode") "?" = true).
  { rewrite !ShowMore.contains_char_app. cbn. rewrite !orb_true_r. reflexivity. }
  rewrite Hc. rewrite !ShowMore.append_assoc. reflexivity.
Qed.

Lemma spec_local_url_interactive (name key : string) :
  contains name "?" = false ->
  spec_local_url name false key = "/web7gui/" +:+ name +:+ "/?key=" +:+ key.
Proof.
  intros Hn. unfold spec_local_url.
  assert (Hc : contains ("/web7gui/" +:+ name +:+ "/" +:+ "") "?" = false).
  { rewrite !ShowMore.contains_char_app, Hn. reflexivity. }
  rewrite Hc. rewrite !ShowMore.append_assoc. reflexivity.
Qed.

Lemma batch_check_Return (env : Env) (k : Where) (win : TWebWindow) (st : State) :
  match Show_batch_check env k win st with
  | Return r _ _ => r = false
  | Continue st' => st' = st
  end.
Proof.
  unfold Show_batch_check.
  destruct (fBatchMode win); [|reflexivity].
  destruct (negb (is_cef k) && negb (is_chrome k) && negb (is_firefox k)); [reflexivity|].
  destruct (is_cef k); [|reflexivity].
  destruct (Getenv env "DISPLAY") as [d|]; [|reflexivity].
  destruct (empty d); reflexivity.
Qed.

Lemma cef_hands (env : Env) (bld : Build) (k : Where) (win : TWebWindow)
    (w a key url : string) (st : State) :
  match Show_cef env bld k win key url st with
  | Return r win' st' =>
      exists e, win' = AddKey key "cef" win /\ head (trace st') = Some e /\
                hands_url env bld win w a url e
  | Continue _ => True
  end.
Proof.
  unfold Show_cef.
  destruct (R__HAS_CEFWEB bld); [|exact I].
  destruct (Getenv env "CEF_PATH") as [cef|]; [|exact I].
  destruct (Getenv env "ROOTSYS") as [root|]; [|exact I].
  destruct (negb (AccessPathName env cef) && (is_native k || is_cef k)); [|exact I].
  destruct (find_or_load env _ _ st) as [[|] st1]; [|exact I].
  eexists. split; [reflexivity|]. split; [reflexivity|].
  cbn. auto.
Qed.

Lemma qt5_hands (env : Env) (bld : Build) (k : Where) (win : TWebWindow)
    (w a key url : string) (st : State) :
  match Show_qt5 env bld k win key url st with
  | Return r win' st' =>
      exists e, win' = AddKey key "qt5" win /\ head (trace st') = Some e /\
                hands_url env bld win w a url e
  | Continue _ => True
  end.
Proof.
  unfold Show_qt5.
  destruct (R__HAS_QT5WEB bld && (is_native k || is_qt5 k)); [|exact I].
  destruct (find_or_load env _ _ st) as [[|] st1]; [|exact I].
  eexists. split; [reflexivity|]. split; [reflexivity|].
  cbn. auto.
Qed.

Lemma browser_hands (env : Env) (bld : Build) (win : TWebWindow)
    (where_ key url : string) (st : State) win' st' :
  Show_browser env bld (classify bld where_) win where_ key url st =
    Normal (true, win', st') ->
  exists tag e, win' = AddKey key tag win /\ head (trace st') = Some e /\
                hands_url env bld win where_ (fAddr st') url e.
Proof.
  unfold Show_browser.
  destruct (CreateHttpServer env true st) as [[ok st1]| | |];
    cbn [obind]; try discriminate.
  destruct ok; cbn [negb]; [|discriminate].
  assert (Hcmd : Show_command env bld win where_ (fAddr st1 +:+ url) =
                 Show_command env bld win where_ (fAddr st1 +:+ url)) by reflexivity.
  unfold Show_command at 2 in Hcmd.
  destruct (Show_template env bld (classify bld where_) win where_)
    as [[prog testprogs] exec].
  match goal with |- context [negb (find_ne_0 ?e "fork:")] =>
    destruct (negb (find_ne_0 e "fork:")) end.
  - unfold Show_fork.
    destruct (MSC_VER bld); cbn [negb]; [discriminate|].
    match goal with |- context [GetLast ?l <=? 0] =>
      destruct (GetLast l <=? 0) end; [discriminate|].
    match goal with |- context [posix_spawn env ?t ?v] =>
      destruct (posix_spawn env t v) as [status pid] end.
    destruct (status =? 0) eqn:Hst; cbn [negb]; [|discriminate].
    intros [= <- <-]. apply Z.eqb_eq in Hst.
    eexists _, _. split; [reflexivity|]. split; [reflexivity|].
    unfold hands_url. cbn [fAddr log]. rewrite Hcmd. cbn [fst snd].
    split; [exact Hst | reflexivity].
  - intros [= <- <-].
    eexists _, _. split; [reflexivity|]. split; [reflexivity|].
    unfold hands_url. cbn [fAddr log]. rewrite Hcmd. cbn [fst snd]. reflexivity.
Qed.

End UrlFacts.

(** C7.  For a window whose handler is [name], the local URL that [Show]
    builds (lines 288-293) is the URL of the specification with the base
    path "/web7gui": the path "/web7gui/<name>/", then "?batch_mode"
    exactly in batch mode, then the key after "&key=" when what precedes
    has a "?" and after "?key=" when it has none.  Every successful [Show]
    starts its client on that URL, with the key that the call records:
    the window gains the one entry [key -> tag], and the last event is the
    call of an embedded display on that very URL, or the spawned program
    or shell command whose command line has the bound address followed by
    that URL in the place of "$url".  In batch mode the URL is
    "/web7gui/<name>/?batch_mode&key=<key>"; without batch mode, for a name
    without "?", it is "/web7gui/<name>/?key=<key>". *)
Theorem Show_hands_local_url (env : Env) (bld : Build) (win : TWebWindow)
    (name : string) :
  fWSHandler win = Some name ->
  (forall key st srv, fServer st = Some srv ->
     Show_addr env win key st =
       Normal (spec_local_url name (fBatchMode win) key, st)) /\
  (forall _where st win' st',
     Show env bld win _where st = Normal (true, win', st') ->
     exists tag e,
       win' = AddKey (Show_key env win st) tag win /\
       head (trace st') = Some e /\
       hands_url env bld win (effective_where env _where) (fAddr st')
         (spec_local_url name (fBatchMode win) (Show_key env win st)) e) /\
  (forall key,
     spec_local_url name true key =
       "/web7gui/" +:+ name +:+ "/?batch_mode&key=" +:+ key) /\
  (forall key, Str.contains name "?" = false ->
     spec_local_url name false key = "/web7gui/" +:+ name +:+ "/?key=" +:+ key).
Proof.
  intros Hh.
  split; [intros key st srv Hs; exact (UrlFacts.Show_addr_spec env win key st srv name Hs Hh)|].
  split; [|split; [apply UrlFacts.spec_local_url_batch
                  | intros key Hn; apply UrlFacts.spec_local_url_interactive; exact Hn]].
  intros _where st win' st'. unfold Show, Show_key.
  fold (effective_where env _where). set (w := effective_where env _where).
  destruct (fServer st) as [srv|] eqn:Hs; [|discriminate].
  destruct (Show_keyloop env win 1000 st) as [[key ntry] st1] eqn:Hk.
  cbn [fst]. apply ShowFacts.keyloop_effect in Hk. destruct Hk as (_ & K2 & _).
  destruct (ntry =? 0); [discriminate|].
  rewrite (UrlFacts.Show_addr_spec env win key st1 srv name) by congruence.
  cbn [obind]. set (url := spec_local_url name (fBatchMode win) key).
  pose proof (UrlFacts.batch_check_Return env (classify bld w) win st1) as Hb.
  destruct (Show_batch_check env (classify bld w) win st1) as [rb wb sb|sb].
  { subst rb. discriminate. }
  subst sb.
  pose proof (UrlFacts.cef_hands env bld (classify bld w) win w) as Hcef.
  destruct (Show_cef env bld (classify bld w) win key url st1) as [rc wc sc|sc] eqn:Ec.
  { intros [= -> <- <-]. specialize (Hcef (fAddr sc) key url st1). rewrite Ec in Hcef.
    destruct Hcef as (e & -> & He & Hu). eauto. }
  pose proof (UrlFacts.qt5_hands env bld (classify bld w) win w) as Hqt.
  destruct (Show_qt5 env bld (classify bld w) win key url sc) as [rq wq sq|sq] eqn:Eq.
  { intros [= -> <- <-]. specialize (Hqt (fAddr sq) key url sc). rewrite Eq in Hqt.
    destruct Hqt as (e & -> & He & Hu). eauto. }
  apply UrlFacts.browser_hands.
Qed.

Lemma Show_hands_local_url_witness :
  (exists tag e,
     shown_window shown_cef = AddKey "42" tag (win_w12 true) /\
     head (trace (shown_state shown_cef)) = Some e /\
     hands_url env_key_42 cef_build (win_w12 true) "cef" ""
       "/web7gui/w12/?batch_mode&key=42" e) /\
  head (trace (shown_state shown_cef)) =
    Some (EvCef "/web7gui/w12/?batch_mode&key=42" true "/opt/root" "/opt/cef" 0 0) /\
  (exists tag e,
     shown_window shown_firefox = AddKey "42" tag (win_w12 false) /\
     head (trace (shown_state shown_firefox)) = Some e /\
     hands_url env_key_42 linux_build (win_w12 false) "firefox" "http://localhost:8800"
       "/web7gui/w12/?key=42" e) /\
  head (trace (shown_state shown_firefox)) =
    Some (EvExec "/usr/bin/firefox 'http://localhost:8800/web7gui/w12/?key=42' &") /\
  Show_addr env_free (win_w12 true) "42" server_state =
    Normal ("/web7gui/w12/?batch_mode&key=42", server_state) /\
  Show_addr env_free (win_w12 false) "42" server_state =
    Normal ("/web7gui/w12/?key=42", server_state).
Proof.
  destruct (Show_hands_local_url env_key_42 cef_build (win_w12 true) "w12" eq_refl)
    as (_ & C & _ & _).
  destruct (Show_hands_local_url env_key_42 linux_build (win_w12 false) "w12" eq_refl)
    as (_ & F & _ & _).
  destruct (Show_hands_local_url env_free linux_build (win_w12 true) "w12" eq_refl)
    as (A1 & _ & _ & _).
  destruct (Show_hands_local_url env_free linux_build (win_w12 false) "w12" eq_refl)
    as (A2 & _ & _ & _).
  split; [exact (C "cef" server_state (shown_window shown_cef) (shown_state shown_cef)
                   ltac:(vm_compute; reflexivity))|].
  split; [vm_compute; reflexivity|].
  split; [exact (F "firefox" server_state (shown_window shown_firefox)
                   (shown_state shown_firefox) ltac:(vm_compute; reflexivity))|].
  split; [vm_compute; reflexivity|].
  split; [exact (A1 "42" server_state _ eq_refl) | exact (A2 "42" server_state _ eq_refl)].
Defined.

(** C10.  For a window with its handler, [GetUrl] returns, and the string
    it returns is empty exactly when there is no server object, or a
    remote URL is asked for and [CreateHttpServer(true)] fails; otherwise
    it is the path, after the bound address for a remote URL. *)
Theorem GetUrl_empty_iff (env : Env) (win : TWebWindow) (remote : bool) (st : State)
    (name : string) :
  fWSHandler win = Some name ->
  exists url st',
    GetUrl env win remote st = Normal (url, st') /\
    (url = "" <->
     fServer st = None \/
     (remote = true /\ exists s, CreateHttpServer env true st = Normal (false, s))).
Proof.
  intros Hh. unfold GetUrl. rewrite Hh.
  destruct (fServer st) as [srv|] eqn:Hs.
  2:{ eexists _, _. split; [reflexivity|]. split; auto. }
  set (addr := if fBatchMode win then ("/web7gui/" +:+ name) +:+ "/?batch_mode"
               else ("/web7gui/" +:+ name) +:+ "/").
  assert (Ha : addr <> "").
  { subst addr. destruct (fBatchMode win); discriminate. }
  destruct remote.
  - destruct (ServerFacts.CreateHttpServer_returns env true st) as (ok & st1 & Hc).
    rewrite Hc. cbn [obind]. destruct ok; cbn [negb].
    + eexists _, _. split; [reflexivity|]. split.
      * intros E. exfalso. exact (ShowMore.append_nonempty_r _ _ Ha E).
      * intros [E | (_ & s & E)]; discriminate.
    + eexists _, _. split; [reflexivity|]. split; [|reflexivity].
      intros _. right. eauto.
  - eexists _, _. split; [reflexivity|]. split.
    + intros E. contradiction.
    + intros [E | (E & _)]; discriminate.
Qed.

Lemma GetUrl_empty_iff_witness :
  (exists st', GetUrl env_free (win_w12 false) false initial = Normal ("", st')) /\
  (exists st', GetUrl env_all_busy (win_w12 false) true server_state = Normal ("", st')) /\
  (exists st', GetUrl env_free (win_w12 false) true server_state =
                 Normal ("http://localhost:9300/web7gui/w12/", st')).
Proof.
  destruct (GetUrl_empty_iff env_free (win_w12 false) false initial "w12" eq_refl)
    as (u1 & s1 & E1 & I1).
  split.
  { exists s1. rewrite E1. f_equal. f_equal. apply I1. left. reflexivity. }
  split; eexists; vm_compute; reflexivity.
Defined.

(* ===================================================================== *)
(** * 14. Window ids                                                      *)
(* ===================================================================== *)

Module IdFacts.

Lemma CreateWindow_effect (env : Env) (bld : Build) (b : bool) (st : State) w st' :
  CreateWindow env bld b st = Normal (w, st') ->
  match w with
  | Some win => fId win = fIdCnt st + 1 /\ fIdCnt st' = fIdCnt st + 1
  | None => fIdCnt st' = fIdCnt st
  end.
Proof.
  unfold CreateWindow.
  destruct (CreateHttpServer env (CreateHttpServer_default bld) st)
    as [[ok st1]| | |] eqn:Hc; cbn [obind]; try discriminate.
  apply ServerFacts.CreateHttpServer_effect in Hc. destruct Hc as (Hid & Hs & _).
  destruct ok; cbn [negb].
  - destruct Hs as [srv Hs]. cbn. rewrite Hs. intros [= <- <-]. cbn. lia.
  - intros [= <- <-]. cbn. exact Hid.
Qed.

Lemma CreateWindow_returns (env : Env) (bld : Build) (b : bool) (st : State) :
  exists w st', CreateWindow env bld b st = Normal (w, st').
Proof.
  unfold CreateWindow.
  destruct (ServerFacts.CreateHttpServer_returns env (CreateHttpServer_default bld) st)
    as (ok & st1 & Hc).
  pose proof Hc as He. apply ServerFacts.CreateHttpServer_effect in He.
  destruct He as (_ & [srv Hs] & _).
  rewrite Hc. cbn [obind]. destruct ok; cbn [negb]; [|eauto].
  cbn. rewrite Hs. eauto.
Qed.

Lemma step_op_effect (env : Env) (bld : Build) (op : Op) (st : State) new st' :
  step_op env bld op st = Normal (new, st') ->
  (new = [] /\ fIdCnt st' = fIdCnt st) \/
  (new = [fIdCnt st + 1] /\ fIdCnt st' = fIdCnt st + 1).
Proof.
  destruct op as [b|win|b|win remote|win where_]; cbn [step_op].
  - destruct (CreateWindow env bld b st) as [[w st1]| | |] eqn:Hc;
      cbn [obind]; try discriminate.
    apply CreateWindow_effect in Hc. intros [= <- <-].
    destruct w as [win|]; [right|left]; destruct Hc; split; congruence.
  - unfold Unregister. destruct (fWSHandler win).
    + destruct (fServer st); cbn [obind]; [|discriminate].
      intros [= <- <-]. left. auto.
    + cbn [obind]. intros [= <- <-]. left. auto.
  - destruct (CreateHttpServer env b st) as [[ok st1]| | |] eqn:Hc;
      cbn [obind]; try discriminate.
    apply ServerFacts.CreateHttpServer_effect in Hc. intros [= <- <-]. left. tauto.
  - unfold GetUrl. destruct (fServer st).
    + destruct (fWSHandler win); cbn [obind]; [|discriminate].
      destruct remote.
      * destruct (CreateHttpServer env true st) as [[ok st1]| | |] eqn:Hc;
          cbn [obind]; try discriminate.
        apply ServerFacts.CreateHttpServer_effect in Hc. destruct Hc as (Hid & _).
        destruct ok; cbn [negb obind]; intros [= <- <-]; left; auto.
      * cbn [obind]. intros [= <- <-]. left. auto.
    + cbn [obind]. intros [= <- <-]. left. auto.
  - destruct (Show env bld win where_ st) as [[[r w] st1]| | |] eqn:Hc;
      cbn [obind]; try discriminate.
    apply ShowFacts.Show_effect in Hc. intros [= <- <-]. left. tauto.
Qed.

Lemma increasing_from_weaken (lo lo' : Z) (ids : list Z) :
  lo' <= lo -> increasing_from lo ids -> increasing_from lo' ids.
Proof. destruct ids; cbn; [auto|]. intros ? [? ?]. split; [lia|assumption]. Qed.

Lemma increasing_from_bound (lo hi : Z) (ids : list Z) :
  increasing_from lo ids -> Forall (fun i => i <= hi) ids ->
  Forall (fun i => lo < i <= hi) ids.
Proof.
  revert lo. induction ids as [|i ids IH]; intros lo; cbn; [constructor|].
  intros [Hlo Hinc] Hall. inversion Hall; subst. constructor; [lia|].
  specialize (IH i Hinc H2). eapply Forall_impl; [exact IH|]. cbn. intros; lia.
Qed.

Lemma increasing_from_NoDup (lo : Z) (ids : list Z) :
  increasing_from lo ids -> NoDup ids.
Proof.
  revert lo. induction ids as [|i ids IH]; intros lo; cbn; [constructor|].
  intros [Hlo Hinc]. constructor; [|eauto].
  intros Hin.
  assert (Hall : Forall (fun j => i < j <= i) ids).
  { apply increasing_from_bound; [exact Hinc|].
    clear -Hinc Hin. exfalso.
    revert i Hinc Hin. induction ids as [|j ids IH]; intros i Hinc Hin.
    - inversion Hin.
    - cbn in Hinc. destruct Hinc as [Hij Hinc]. inversion Hin; subst; [lia|].
      apply (IH i); [|assumption]. eapply increasing_from_weaken; [|exact Hinc]. lia. }
  rewrite Forall_forall in Hall. specialize (Hall i Hin). lia.
Qed.

Lemma run_ops_ids (env : Env) (bld : Build) (ops : list Op) :
  forall st ids st',
    run_ops env bld ops st = Normal (ids, st') ->
    increasing_from (fIdCnt st) ids /\
    Forall (fun i => i <= fIdCnt st') ids /\
    fIdCnt st <= fIdCnt st'.
Proof.
  induction ops as [|op ops IH]; intros st ids st'; cbn [run_ops].
  - intros [= <- <-]. cbn. split; [exact I|]. split; [constructor|lia].
  - destruct (step_op env bld op st) as [[new st1]| | |] eqn:Hs;
      cbn [obind]; try discriminate.
    destruct (run_ops env bld ops st1) as [[ids1 st2]| | |] eqn:Hr;
      cbn [obind]; try discriminate.
    intros [= <- <-]. apply IH in Hr. destruct Hr as (Hinc & Hall & Hle).
    apply step_op_effect in Hs. destruct Hs as [(-> & Hc) | (-> & Hc)].
    + cbn. rewrite Hc in *. auto.
    + cbn. rewrite Hc in *. split; [split; [lia|exact Hinc]|].
      split; [constructor; [lia|exact Hall] | lia].
Qed.

End IdFacts.

(** C9.  In any run of manager calls (window creation, unregistering of
    any windows, server creation, URL requests, [Show]), the ids of the
    windows created are strictly increasing, hence pairwise different, all
    above the counter at the start; and a window created after the run,
    whatever was unregistered in it, gets an id above all of them. *)
Theorem window_ids_increase (env : Env) (bld : Build) (ops : list Op)
    (st : State) (ids : list Z) (st' : State) :
  run_ops env bld ops st = Normal (ids, st') ->
  increasing_from (fIdCnt st) ids /\
  NoDup ids /\
  forall b win st'',
    CreateWindow env bld b st' = Normal (Some win, st'') ->
    Forall (fun i => i < fId win) ids.
Proof.
  intros H. apply IdFacts.run_ops_ids in H. destruct H as (Hinc & Hall & _).
  split; [exact Hinc|]. split; [exact (IdFacts.increasing_from_NoDup _ _ Hinc)|].
  intros b win st'' Hc. apply IdFacts.CreateWindow_effect in Hc.
  destruct Hc as [Hid _]. eapply Forall_impl; [exact Hall|].
  cbn. intros i Hi. lia.
Qed.

Lemma window_ids_increase_witness :
  exists st',
    run_ops env_free linux_build four_windows initial = Normal ([1; 2; 3; 4], st') /\
    increasing_from 0 [1; 2; 3; 4] /\
    fId (created env_free linux_build false st') = 5.
Proof.
  eexists. split; [vm_compute; reflexivity|].
  split; [|vm_compute; reflexivity].
  refine (proj1 (window_ids_increase env_free linux_build four_windows initial
                   [1; 2; 3; 4] _ _)).
  vm_compute. reflexivity.
Defined.

(* ===================================================================== *)
(** * 15. WaitFor                                                         *)
(* ===================================================================== *)

Module WaitFacts.

Lemma Qltb_lt (a b : Q) : Qltb a b = true <-> (a < b)%Q.
Proof.
  unfold Qltb. rewrite negb_true_iff. split.
  - intros H. apply Qnot_le_lt. intros Hle.
    apply Qle_bool_iff in Hle. congruence.
  - intros H. destruct (Qle_bool b a) eqn:E; [|reflexivity].
    apply Qle_bool_iff in E. exfalso. exact (Qlt_not_le _ _ H E).
Qed.

Lemma wait_rounds_shift (env : Env) (n : nat) (x : Q * State) :
  wait_rounds env (S n) x = wait_rounds env n (wait_round env x).
Proof.
  induction n as [|n IH]; [reflexivity|].
  cbn [wait_rounds] in *. rewrite IH. reflexivity.
Qed.

(** One pass through the loop body when the check says 0 and the time
    limit has not expired. *)
Lemma loop_step (env : Env) (check : WebWindowWaitFunc_t) (tl : Q) (fuel : nat)
    (x : Q * State) :
  check (trace (snd x)) (fst x) = 0 ->
  Qltb 0 tl && Qltb tl (fst (wait_round env x)) = false ->
  WaitFor_loop (S fuel) env check tl (fst x) (snd x) =
  WaitFor_loop fuel env check tl (fst (wait_round env x)) (snd (wait_round env x)).
Proof.
  intros Hc He. cbn [WaitFor_loop]. rewrite Hc. cbn [Z.eqb].
  unfold wait_round in *. cbn [fst snd] in *. rewrite He. reflexivity.
Qed.

(** [k] quiet rounds use up [k] units of fuel and nothing else. *)
Lemma loop_rounds (env : Env) (check : WebWindowWaitFunc_t) (tl : Q) (k : nat) :
  forall fuel x,
    (forall j, (j < k)%nat ->
       check (trace (snd (wait_rounds env j x))) (fst (wait_rounds env j x)) = 0 /\
       Qltb 0 tl && Qltb tl (fst (wait_rounds env (S j) x)) = false) ->
    WaitFor_loop (k + fuel) env check tl (fst x) (snd x) =
    WaitFor_loop fuel env check tl (fst (wait_rounds env k x)) (snd (wait_rounds env k x)).
Proof.
  induction k as [|k IH]; intros fuel x Hq; [reflexivity|].
  change (S k + fuel)%nat with (S (k + fuel)).
  destruct (Hq O ltac:(lia)) as [Hc He].
  rewrite loop_step by assumption.
  rewrite IH.
  - rewrite <- wait_rounds_shift. reflexivity.
  - intros j Hj. rewrite <- !wait_rounds_shift. apply Hq. lia.
Qed.

End WaitFacts.

(** C5.  A negative time limit is replaced by the configured default: the
    call then behaves as if the default had been given.  If the check
    function says 0 at its calls 0..k-1, the limit in force does not
    expire after any of them, and call [k] says [v <> 0], then [WaitFor]
    returns [v], having gone through [k] rounds of ProcessEvents and
    Sleep.  If the check function says 0 at its calls 0..k and the limit
    in force, being positive, is first exceeded by the time read after
    call [k], then [WaitFor] returns 0.  Both hold as soon as the model is
    given more than [k] units of fuel. *)
Theorem WaitFor_result (env : Env) (check : WebWindowWaitFunc_t) (timelimit : Q)
    (st : State) :
  let tl := effective_limit env timelimit in
  ((timelimit < 0)%Q ->
     tl = GetValue_double env "WebGui.WaitForTmout" 100 /\
     forall fuel, WaitFor fuel env check timelimit st =
                  WaitFor fuel env check (GetValue_double env "WebGui.WaitForTmout" 100) st) /\
  (~ (timelimit < 0)%Q -> tl = timelimit) /\
  (forall k v fuel,
     (forall j, (j < k)%nat ->
        check_at env check j st = 0 /\ expired_after env tl j st = false) ->
     check_at env check k st = v -> v <> 0 -> (k < fuel)%nat ->
     WaitFor fuel env check timelimit st =
       Normal (v, snd (wait_rounds env k (0%Q, st)))) /\
  (forall k fuel,
     (forall j, (j <= k)%nat -> check_at env check j st = 0) ->
     (forall j, (j < k)%nat -> expired_after env tl j st = false) ->
     (0 < tl)%Q -> (tl < fst (wait_rounds env (S k) (0%Q, st)))%Q ->
     (k < fuel)%nat ->
     WaitFor fuel env check timelimit st =
       Normal (0, snd (wait_rounds env (S k) (0%Q, st)))).
Proof.
  intros tl. subst tl.
  split.
  { intros H. apply WaitFacts.Qltb_lt in H.
    assert (E : effective_limit env timelimit =
                GetValue_double env "WebGui.WaitForTmout" 100)
      by (unfold effective_limit; rewrite H; reflexivity).
    split; [exact E|]. intros fuel. unfold WaitFor. rewrite E.
    f_equal. unfold effective_limit.
    destruct (Qltb (GetValue_double env "WebGui.WaitForTmout" 100) 0); reflexivity. }
  split.
  { intros H. unfold effective_limit.
    destruct (Qltb timelimit 0) eqn:E; [|reflexivity].
    apply WaitFacts.Qltb_lt in E. contradiction. }
  split.
  - intros k v fuel Hq Hv Hnz Hf. unfold WaitFor.
    replace fuel with (k + S (fuel - S k))%nat by lia.
    rewrite (WaitFacts.loop_rounds env check _ k (S (fuel - S k)) (0%Q, st)) by exact Hq.
    cbn [WaitFor_loop]. unfold check_at in Hv. cbn zeta in Hv. rewrite Hv.
    destruct (v =? 0) eqn:E; [apply Z.eqb_eq in E; contradiction|reflexivity].
  - intros k fuel Hz Hq Hpos Hexp Hf. unfold WaitFor.
    replace fuel with (k + S (fuel - S k))%nat by lia.
    rewrite (WaitFacts.loop_rounds env check _ k (S (fuel - S k)) (0%Q, st)).
    2:{ intros j Hj. split; [apply Hz; lia | apply Hq; lia]. }
    cbn [WaitFor_loop].
    pose proof (Hz k ltac:(lia)) as Hk. unfold check_at in Hk. cbn zeta in Hk.
    rewrite Hk. cbn [Z.eqb].
    apply WaitFacts.Qltb_lt in Hpos. apply WaitFacts.Qltb_lt in Hexp.
    cbn [wait_rounds] in Hexp. unfold wait_round in Hexp. cbn [fst snd] in Hexp.
    rewrite Hpos, Hexp. reflexivity.
Qed.

Lemma WaitFor_result_witness :
  WaitFor 3 env_free seven_at_third (-1) initial =
    Normal (7, snd (wait_rounds env_free 2 (0%Q, initial))) /\
  WaitFor 6 env_free never_ready (5 # 100) initial =
    Normal (0, snd (wait_rounds env_free 3 (0%Q, initial))) /\
  effective_limit env_free (-1) = 100%Q.
Proof.
  destruct (WaitFor_result env_free seven_at_third (-1) initial) as (H1 & _ & H3 & _).
  destruct (WaitFor_result env_free never_ready (5 # 100) initial) as (_ & _ & _ & H4).
  split.
  { apply (H3 2%nat 7 3%nat); [|reflexivity|discriminate|lia].
    intros j Hj. destruct j as [|[|j]]; [split; reflexivity..|lia]. }
  split.
  { apply (H4 2%nat 6%nat); [| |reflexivity|reflexivity|lia].
    - intros j _. reflexivity.
    - intros j Hj. destruct j as [|[|j]]; [reflexivity..|lia]. }
  apply (H1 eq_refl).
Defined.

(* ===================================================================== *)
(** * 16. The calls end to end                                            *)
(* ===================================================================== *)

(** An interactive window shown in firefox: the server is bound, the
    command is handed to the shell, the key is recorded under the name of
    the program. *)
Example Show_firefox :
  exists st',
    Show env_free linux_build (win_w12 false) "firefox" server_state =
      Normal (true, AddKey "524288" "firefox" (win_w12 false), st') /\
    head (trace st') =
      Some (EvExec "firefox 'http://localhost:9300/web7gui/w12/?key=524288' &").
Proof. eexists. split; vm_compute; reflexivity. Qed.

(** A batch window shown in chrome is spawned directly; the tag on record
    is the process id, and [HaltClient] on that tag kills the process. *)
Example Show_chrome_batch_then_halt :
  exists st' st'',
    Show env_free linux_build (win_w12 true) "chrome" server_state =
      Normal (true, AddKey "524288" "pid:4242" (win_w12 true), st') /\
    HaltClient linux_build "pid:4242" st' = Normal st'' /\
    head (trace st'') = Some (EvKill 4242 SIGKILL).
Proof. eexists _, _. split; [|split]; vm_compute; reflexivity. Qed.

(** A batch window cannot be shown in the default browser. *)
Example Show_batch_browser :
  exists st',
    Show env_free linux_build (win_w12 true) "browser" server_state =
      Normal (false, win_w12 true, st').
Proof. eexists. vm_compute. reflexivity. Qed.

(* ===================================================================== *)
(** * 17. More on CreateHttpServer                                        *)
(* ===================================================================== *)

Module ServerMore.
Import Str StrFacts.

Lemma quiet_refl (st : State) : quiet st st.
Proof. unfold quiet. auto. Qed.

Lemma quiet_trans (a b c : State) : quiet a b -> quiet b c -> quiet a c.
Proof.
  unfold quiet. intros (A1 & A2 & A3 & A4) (B1 & B2 & B3 & B4).
  split; [auto|]. repeat split; congruence.
Qed.

Lemma quiet_log (e : Event) (st : State) :
  (forall s b, e <> EvCreateEngine s b) -> quiet st (log e st).
Proof.
  intros H. unfold quiet. cbn.
  destruct e; auto. exfalso. eapply H. reflexivity.
Qed.

Lemma ensure_fServer_trace (st : State) :
  fAddr (ensure_fServer st) = fAddr st /\ trace (ensure_fServer st) = trace st /\
  fIdCnt (ensure_fServer st) = fIdCnt st.
Proof. unfold ensure_fServer. destruct (fServer st); auto. Qed.

(** The bind loop and the successful binds. *)
Lemma loop_binds (env : Env) (c : HttpConfig) (fuel : nat) :
  forall ntry port st r st',
    CreateHttpServer_loop fuel env c ntry port st = Normal (r, st') ->
    successful_binds (trace st') =
      (successful_binds (trace st) + if r then 1 else 0)%nat.
Proof.
  induction fuel as [|fuel IH]; intros ntry port st r st' H; [discriminate H|].
  cbn [CreateHttpServer_loop] in H.
  destruct (ntry >=? 0); [|injection H as <- <-; lia].
  destruct ((port =? 0) && ((http_min c <=? 0) || (http_max c <=? http_min c))).
  { injection H as <- <-. cbn. lia. }
  set (d := if port =? 0 then draw_port env c st else (port, st)) in H.
  assert (Hd : successful_binds (trace (snd d)) = successful_binds (trace st)).
  { subst d. destruct (port =? 0); reflexivity. }
  destruct d as [port1 st1]. cbn [snd] in Hd.
  destruct (engine_and_url c port1) as [engine url].
  destruct (fServer st1) as [srv|]; [|discriminate H].
  unfold do_CreateEngine in H.
  destruct (CreateEngine env (trace st1) engine) eqn:Hok.
  - injection H as <- <-. cbn. lia.
  - apply IH in H. cbn in H. lia.
Qed.

Lemma bound_inv_same (st st' : State) :
  fAddr st' = fAddr st ->
  successful_binds (trace st') = successful_binds (trace st) ->
  bound_inv st -> bound_inv st'.
Proof. unfold bound_inv. intros -> ->. auto. Qed.

Lemma bound_inv_quiet (st st' : State) : quiet st st' -> bound_inv st -> bound_inv st'.
Proof. intros (_ & A & _ & B). apply bound_inv_same; assumption. Qed.

Lemma CreateHttpServer_bound_inv (env : Env) (b : bool) (st : State) r st' :
  CreateHttpServer env b st = Normal (r, st') -> bound_inv st -> bound_inv st'.
Proof.
  intros H Hinv. pose proof H as He.
  apply ServerFacts.CreateHttpServer_effect in He.
  destruct He as (_ & _ & Hf & Ht & _).
  unfold CreateHttpServer in H.
  destruct (ensure_fServer_trace st) as (E1 & E2 & _).
  rewrite E1 in H.
  destruct (negb b || negb (empty (fAddr st))) eqn:Hq.
  { injection H as <- <-. apply (bound_inv_same st); auto. congruence. }
  apply orb_false_iff in Hq. destruct Hq as [Hb Ha].
  apply negb_false_iff in Hb, Ha. subst b.
  destruct (GetValue_int env "WebGui.HttpPort" 0 <? 0).
  { injection H as <- <-. apply (bound_inv_same st); cbn; auto. congruence. }
  apply loop_binds in H.
  assert (Hs : successful_binds (trace st') =
               (successful_binds (trace st) + if r then 1 else 0)%nat).
  { rewrite H. destruct (GetValue_int env "WebGui.HttpPort" 0 =? 0); cbn;
      rewrite E2; reflexivity. }
  unfold bound_inv in *. rewrite Ha in Hinv. rewrite Hs, Hinv.
  destruct r.
  - rewrite (Ht eq_refl eq_refl). reflexivity.
  - rewrite (Hf eq_refl), Ha. reflexivity.
Qed.

End ServerMore.

(** X1.  With a fixed positive port and a range that is not inverted and
    whose width max - min fits an [int], the first bind attempt is made on
    the fixed port, before any random number is drawn; if it succeeds the
    call succeeds and caches the address "<scheme>://<host>:<port>" of
    that very engine. *)
Theorem CreateHttpServer_fixed_port_first (env : Env) (st : State) (p : Z) :
  fAddr st = "" ->
  GetValue_int env "WebGui.HttpPort" 0 = p -> 0 < p ->
  http_min (read_config env) <= http_max (read_config env) ->
  http_max (read_config env) - http_min (read_config env) <= Str.INT_MAX ->
  CreateEngine env (trace st) (fst (engine_and_url (read_config env) p)) = true ->
  exists st',
    CreateHttpServer env true st = Normal (true, st') /\
    fAddr st' = snd (engine_and_url (read_config env) p) +:+ ":" +:+ Str.to_string p /\
    trace st' =
      EvCreateEngine (fst (engine_and_url (read_config env) p)) true :: trace st.
Proof.
  intros Ha Hp Hpos Hr Hfit Hok. unfold CreateHttpServer.
  destruct (ServerMore.ensure_fServer_trace st) as (E1 & E2 & _).
  rewrite E1, Ha. cbn [negb orb Str.empty String.eqb].
  rewrite Hp.
  replace (p <? 0) with false by (symmetry; apply Z.ltb_ge; lia).
  replace (p =? 0) with false by (symmetry; apply Z.eqb_neq; lia).
  set (c := read_config env) in *.
  assert (Hw : range_width c = http_max c - http_min c).
  { apply ServerFacts.wrap_int_id. unfold Str.INT_MIN, Str.INT_MAX in *. lia. }
  rewrite Hw.
  set (ntry := if http_max c - http_min c <? 100 then http_max c - http_min c else 100).
  assert (Hn : (ntry >=? 0) = true).
  { subst ntry. destruct (http_max c - http_min c <? 100) eqn:E; lia. }
  unfold CreateHttpServer_fuel. rewrite ServerFacts.loop_unfold.
  rewrite Hn.
  replace (p =? 0) with false by (symmetry; apply Z.eqb_neq; lia).
  cbn [andb].
  destruct (engine_and_url c p) as [engine url]. cbn [fst snd] in *.
  destruct (ServerFacts.ensure_fServer_Some st) as [srv Hs]. rewrite Hs.
  unfold do_CreateEngine. rewrite E2, Hok.
  eexists. split; [reflexivity|]. cbn. rewrite E2. auto.
Qed.

Lemma CreateHttpServer_fixed_port_first_witness :
  exists st',
    CreateHttpServer env_fixed_port true initial = Normal (true, st') /\
    fAddr st' = "http://localhost:8080" /\
    trace st' = [EvCreateEngine "http:8080?websocket_timeout=10000" true].
Proof.
  destruct (CreateHttpServer_fixed_port_first env_fixed_port initial 8080)
    as (st' & H1 & H2 & H3);
    [reflexivity | reflexivity | lia | vm_compute; discriminate
     | vm_compute; discriminate | reflexivity |].
  exists st'. split; [exact H1|]. split; [rewrite H2|rewrite H3]; reflexivity.
Defined.

(** X2.  With a fixed positive port and a range that is empty or has a
    lower end <= 0 (but is not inverted, and whose width max - min fits an
    [int]), exactly one bind is attempted, on the fixed port, and the call
    returns what that bind returned: a refused fixed port is not followed
    by random ports. *)
Theorem CreateHttpServer_fixed_port_bad_range_once (env : Env) (st : State) (p : Z) :
  fAddr st = "" ->
  GetValue_int env "WebGui.HttpPort" 0 = p -> 0 < p ->
  http_min (read_config env) <= http_max (read_config env) ->
  http_max (read_config env) - http_min (read_config env) <= Str.INT_MAX ->
  http_min (read_config env) <= 0 \/
  http_max (read_config env) <= http_min (read_config env) ->
  exists st',
    CreateHttpServer env true st =
      Normal (CreateEngine env (trace st) (fst (engine_and_url (read_config env) p)), st') /\
    bind_attempts (trace st') = S (bind_attempts (trace st)).
Proof.
  intros Ha Hp Hpos Hr Hfit Hbad. unfold CreateHttpServer.
  destruct (ServerMore.ensure_fServer_trace st) as (E1 & E2 & _).
  rewrite E1, Ha. cbn [negb orb Str.empty String.eqb].
  rewrite Hp.
  replace (p <? 0) with false by (symmetry; apply Z.ltb_ge; lia).
  replace (p =? 0) with false by (symmetry; apply Z.eqb_neq; lia).
  set (c := read_config env) in *.
  assert (Hw : range_width c = http_max c - http_min c).
  { apply ServerFacts.wrap_int_id. unfold Str.INT_MIN, Str.INT_MAX in *. lia. }
  rewrite Hw.
  set (ntry := if http_max c - http_min c <? 100 then http_max c - http_min c else 100).
  assert (Hn : (ntry >=? 0) = true).
  { subst ntry. destruct (http_max c - http_min c <? 100) eqn:E; lia. }
  unfold CreateHttpServer_fuel. rewrite ServerFacts.loop_unfold.
  rewrite Hn.
  replace (p =? 0) with false by (symmetry; apply Z.eqb_neq; lia).
  cbn [andb].
  destruct (engine_and_url c p) as [engine url]. cbn [fst snd] in *.
  destruct (ServerFacts.ensure_fServer_Some st) as [srv Hs]. rewrite Hs.
  unfold do_CreateEngine. rewrite E2.
  destruct (CreateEngine env (trace st) engine).
  - eexists. split; [reflexivity|]. cbn. rewrite E2. reflexivity.
  - rewrite ServerFacts.loop_unfold.
    replace ((0 =? 0) && ((http_min c <=? 0) || (http_max c <=? http_min c)))
      with true by (symmetry; apply andb_true_iff; split; [reflexivity|];
                    apply orb_true_iff; destruct Hbad; [left|right]; apply Z.leb_le; lia).
    destruct (ntry - 1 >=? 0); eexists; (split; [reflexivity|]); cbn;
      rewrite E2; reflexivity.
Qed.

Lemma CreateHttpServer_fixed_port_bad_range_once_witness :
  exists st',
    CreateHttpServer env_fixed_port_refused true initial = Normal (false, st') /\
    bind_attempts (trace st') = 1%nat.
Proof.
  destruct (CreateHttpServer_fixed_port_bad_range_once env_fixed_port_refused initial 8080)
    as (st' & H1 & H2);
    [reflexivity | reflexivity | lia | vm_compute; discriminate
     | vm_compute; discriminate | left; vm_compute; discriminate |].
  exists st'. split; [exact H1 | exact H2].
Defined.

(** X3.  When the range is inverted (max < min, with a difference that
    fits an [int]) and the fixed port is not negative, the call fails
    without a bind attempt and without an error message, also when a fixed
    port is configured: the trace gains nothing but the reseeding of the
    generator done when no port is fixed. *)
Theorem CreateHttpServer_inverted_range_silent (env : Env) (st : State) :
  fAddr st = "" ->
  0 <= GetValue_int env "WebGui.HttpPort" 0 ->
  http_max (read_config env) < http_min (read_config env) ->
  Str.INT_MIN <= http_max (read_config env) - http_min (read_config env) ->
  exists st',
    CreateHttpServer env true st = Normal (false, st') /\
    fAddr st' = "" /\
    trace st' = (if GetValue_int env "WebGui.HttpPort" 0 =? 0
                 then [EvSetSeed 0] else []) ++ trace st.
Proof.
  intros Ha Hp Hr Hfit. unfold CreateHttpServer.
  destruct (ServerMore.ensure_fServer_trace st) as (E1 & E2 & _).
  rewrite E1, Ha. cbn [negb orb Str.empty String.eqb].
  replace (GetValue_int env "WebGui.HttpPort" 0 <? 0) with false
    by (symmetry; apply Z.ltb_ge; lia).
  set (c := read_config env) in *.
  assert (Hw : range_width c = http_max c - http_min c).
  { apply ServerFacts.wrap_int_id. unfold Str.INT_MIN, Str.INT_MAX in *. lia. }
  rewrite Hw.
  set (ntry := if http_max c - http_min c <? 100 then http_max c - http_min c else 100).
  assert (Hn : (ntry >=? 0) = false).
  { subst ntry. destruct (http_max c - http_min c <? 100) eqn:E; lia. }
  unfold CreateHttpServer_fuel. rewrite ServerFacts.loop_unfold. rewrite Hn.
  eexists. split; [reflexivity|].
  destruct (GetValue_int env "WebGui.HttpPort" 0 =? 0); cbn; rewrite E1, E2; auto.
Qed.

Lemma CreateHttpServer_inverted_range_silent_witness :
  exists st',
    CreateHttpServer env_fixed_port_inverted true initial = Normal (false, st') /\
    fAddr st' = "" /\ trace st' = [].
Proof.
  destruct (CreateHttpServer_inverted_range_silent env_fixed_port_inverted initial)
    as (st' & H1 & H2 & H3);
    [reflexivity | vm_compute; discriminate | vm_compute; reflexivity
     | vm_compute; discriminate |].
  exists st'. split; [exact H1|]. split; [exact H2|]. rewrite H3. reflexivity.
Defined.

(** A call that does not ask for the network always succeeds, makes sure
    the server object exists and does nothing else: no bind attempt, no
    random number, the address and the id counter as before. *)
Lemma CreateHttpServer_without_network (env : Env) (st : State) :
  exists st',
    CreateHttpServer env false st = Normal (true, st') /\
    is_Some (fServer st') /\
    (is_Some (fServer st) -> st' = st) /\
    fAddr st' = fAddr st /\ fIdCnt st' = fIdCnt st /\ trace st' = trace st.
Proof.
  exists (ensure_fServer st). split; [reflexivity|].
  split; [apply ServerFacts.ensure_fServer_Some|].
  split; [apply ServerFacts.ensure_fServer_id|].
  destruct (ServerMore.ensure_fServer_trace st) as (E1 & E2 & E3). auto.
Qed.

(* ===================================================================== *)
(** * 18. What the calls do to the server and its address                 *)
(* ===================================================================== *)

Module ReachFacts.
Import Str StrFacts ServerMore.

Ltac quiet_log := apply quiet_log; intros ? ?; discriminate.

Lemma reach_refl (env : Env) (st : State) : reach env st st.
Proof. apply reach_quiet, quiet_refl. Qed.

Lemma keyloop_quiet (env : Env) (win : TWebWindow) (n : nat) :
  forall st, quiet st (snd (Show_keyloop env win n st)).
Proof.
  induction n as [|n IH]; intros st; cbn [Show_keyloop]; unfold gRandom_Integer.
  - cbn [snd]. quiet_log.
  - match goal with |- context [(0 <? Z.of_nat n) && ?b] =>
      destruct ((0 <? Z.of_nat n) && b) end.
    + eapply quiet_trans; [|apply IH]. quiet_log.
    + cbn [snd]. quiet_log.
Qed.

Lemma GetUrl_local_quiet (env : Env) (win : TWebWindow) (st : State) a st' :
  GetUrl env win false st = Normal (a, st') -> quiet st st'.
Proof.
  unfold GetUrl. destruct (fServer st).
  - destruct (fWSHandler win); [|discriminate]. intros [= <- <-]. apply quiet_refl.
  - intros [= <- <-]. quiet_log.
Qed.

Lemma batch_check_quiet (env : Env) (k : Where) (win : TWebWindow) (st : State) :
  match Show_batch_check env k win st with
  | Return _ _ st' => quiet st st'
  | Continue st' => st' = st
  end.
Proof.
  unfold Show_batch_check.
  destruct (fBatchMode win); [|reflexivity].
  destruct (negb (is_cef k) && negb (is_chrome k) && negb (is_firefox k)); [quiet_log|].
  destruct (is_cef k); [|reflexivity].
  destruct (Getenv env "DISPLAY") as [d|]; [|quiet_log].
  destruct (empty d); [quiet_log|reflexivity].
Qed.

Lemma find_or_load_quiet (env : Env) (sym lib : string) (st : State) :
  quiet st (snd (find_or_load env sym lib st)).
Proof.
  unfold find_or_load. destruct (DynFindSymbol env (trace st) sym); cbn [snd];
    [apply quiet_refl | quiet_log].
Qed.

Lemma cef_quiet (env : Env) (bld : Build) (k : Where) (win : TWebWindow)
    (key addr : string) (st : State) :
  match Show_cef env bld k win key addr st with
  | Return _ _ st' => quiet st st'
  | Continue st' => quiet st st'
  end.
Proof.
  unfold Show_cef.
  destruct (R__HAS_CEFWEB bld); [|apply quiet_refl].
  destruct (Getenv env "CEF_PATH") as [cef|]; [|apply quiet_refl].
  destruct (Getenv env "ROOTSYS") as [root|]; [|apply quiet_refl].
  destruct (negb (AccessPathName env cef) && (is_native k || is_cef k));
    [|apply quiet_refl].
  pose proof (find_or_load_quiet env "webgui_start_browser_in_cef3"
                "libROOTCefDisplay" st) as Hf.
  destruct (find_or_load env _ _ st) as [[|] st1]; cbn [snd] in Hf; [|exact Hf].
  eapply quiet_trans; [exact Hf|]. quiet_log.
Qed.

Lemma qt5_quiet (env : Env) (bld : Build) (k : Where) (win : TWebWindow)
    (key addr : string) (st : State) :
  match Show_qt5 env bld k win key addr st with
  | Return _ _ st' => quiet st st'
  | Continue st' => quiet st st'
  end.
Proof.
  unfold Show_qt5.
  destruct (R__HAS_QT5WEB bld && (is_native k || is_qt5 k)); [|apply quiet_refl].
  pose proof (find_or_load_quiet env "webgui_start_browser_in_qt5"
                "libROOTQt5WebDisplay" st) as Hf.
  destruct (find_or_load env _ _ st) as [[|] st1]; cbn [snd] in Hf; [|exact Hf].
  eapply quiet_trans; [exact Hf|]. quiet_log.
Qed.

Lemma fork_quiet (env : Env) (bld : Build) (win : TWebWindow)
    (key prog exec : string) (st : State) :
  quiet st (snd (Show_fork env bld win key prog exec st)).
Proof.
  unfold Show_fork.
  destruct (negb (MSC_VER bld)); [|cbn [snd]; quiet_log].
  destruct (GetLast (Tokenize (substr exec 5) " ") <=? 0); [apply quiet_refl|].
  destruct (posix_spawn env (trace st) _) as [status pid].
  destruct (negb (status =? 0)); cbn [snd].
  - eapply quiet_trans; [|quiet_log]. quiet_log.
  - quiet_log.
Qed.

Lemma browser_reach (env : Env) (bld : Build) (k : Where) (win : TWebWindow)
    (where_ key addr : string) (st : State) r win' st' :
  Show_browser env bld k win where_ key addr st = Normal (r, win', st') ->
  reach env st st'.
Proof.
  unfold Show_browser.
  destruct (CreateHttpServer env true st) as [[ok st1]| | |] eqn:Hc;
    cbn [obind]; try discriminate.
  apply (reach_server env) in Hc.
  destruct ok; cbn [negb].
  2:{ intros [= <- <- <-]. eapply reach_trans; [exact Hc|].
      apply reach_quiet. quiet_log. }
  destruct (Show_template env bld k win where_) as [[prog testprogs] exec].
  match goal with |- context [negb (find_ne_0 ?e "fork:")] =>
    destruct (negb (find_ne_0 e "fork:")) end.
  - match goal with |- context [Show_fork ?a ?b ?c ?d ?e ?f ?g] =>
      pose proof (fork_quiet a b c d e f g) as Hq;
      destruct (Show_fork a b c d e f g) as [[r0 w0] s0] end.
    cbn [snd] in Hq. intros [= <- <- <-].
    eapply reach_trans; [exact Hc | apply reach_quiet, Hq].
  - intros [= <- <- <-]. eapply reach_trans; [exact Hc|].
    apply reach_quiet. quiet_log.
Qed.

Lemma Show_reach (env : Env) (bld : Build) (win : TWebWindow) (where_ : string)
    (st : State) r win' st' :
  Show env bld win where_ st = Normal (r, win', st') -> reach env st st'.
Proof.
  unfold Show.
  destruct (fServer st) eqn:Hs.
  2:{ intros [= <- <- <-]. apply reach_quiet. quiet_log. }
  pose proof (keyloop_quiet env win 1000 st) as Hk.
  destruct (Show_keyloop env win 1000 st) as [[key ntry] st1]. cbn [snd] in Hk.
  destruct (ntry =? 0).
  { intros [= <- <- <-]. apply reach_quiet.
    eapply quiet_trans; [exact Hk|]. quiet_log. }
  unfold Show_addr.
  destruct (GetUrl env win false st1) as [[a st2]| | |] eqn:Hg;
    cbn [obind]; try discriminate.
  apply GetUrl_local_quiet in Hg.
  assert (H2 : quiet st st2) by (eapply quiet_trans; eassumption).
  match goal with |- context [Show_batch_check ?e ?k ?w ?s] =>
    pose proof (batch_check_quiet e k w s) as Hb;
    destruct (Show_batch_check e k w s) as [rb wb sb|sb] end.
  { intros [= <- <- <-]. apply reach_quiet. eapply quiet_trans; eassumption. }
  subst sb.
  match goal with |- context [Show_cef ?e ?b ?k ?w ?ky ?a ?s] =>
    pose proof (cef_quiet e b k w ky a s) as Hcef;
    destruct (Show_cef e b k w ky a s) as [rc wc sc|sc] end.
  { intros [= <- <- <-]. apply reach_quiet. eapply quiet_trans; eassumption. }
  assert (H3 : quiet st sc) by (eapply quiet_trans; eassumption).
  match goal with |- context [Show_qt5 ?e ?b ?k ?w ?ky ?a ?s] =>
    pose proof (qt5_quiet e b k w ky a s) as Hqt;
    destruct (Show_qt5 e b k w ky a s) as [rq wq sq|sq] end.
  { intros [= <- <- <-]. apply reach_quiet. eapply quiet_trans; eassumption. }
  intros H. apply browser_reach in H.
  eapply reach_trans; [|exact H]. apply reach_quiet.
  eapply quiet_trans; eassumption.
Qed.

Lemma CreateWindow_reach (env : Env) (bld : Build) (b : bool) (st : State) w st' :
  CreateWindow env bld b st = Normal (w, st') -> reach env st st'.
Proof.
  unfold CreateWindow.
  destruct (CreateHttpServer env (CreateHttpServer_default bld) st)
    as [[ok st1]| | |] eqn:Hc; cbn [obind]; try discriminate.
  apply (reach_server env) in Hc.
  destruct ok; cbn [negb].
  - cbn. destruct (fServer st1) as [srv|] eqn:Hs; [|discriminate].
    intros [= <- <-]. eapply reach_trans; [exact Hc|]. apply reach_quiet.
    unfold quiet. cbn. eauto.
  - intros [= <- <-]. eapply reach_trans; [exact Hc|]. apply reach_quiet. quiet_log.
Qed.

Lemma step_op_reach (env : Env) (bld : Build) (op : Op) (st : State) new st' :
  step_op env bld op st = Normal (new, st') -> reach env st st'.
Proof.
  destruct op as [b|win|b|win remote|win where_]; cbn [step_op].
  - destruct (CreateWindow env bld b st) as [[w st1]| | |] eqn:Hc;
      cbn [obind]; try discriminate.
    intros [= <- <-]. eapply CreateWindow_reach; eassumption.
  - unfold Unregister. destruct (fWSHandler win).
    + destruct (fServer st); cbn [obind]; [|discriminate].
      intros [= <- <-]. apply reach_quiet. unfold quiet. cbn. eauto.
    + cbn [obind]. intros [= <- <-]. apply reach_refl.
  - destruct (CreateHttpServer env b st) as [[ok st1]| | |] eqn:Hc;
      cbn [obind]; try discriminate.
    intros [= <- <-]. eapply reach_server; eassumption.
  - unfold GetUrl. destruct (fServer st).
    + destruct (fWSHandler win); cbn [obind]; [|discriminate].
      destruct remote.
      * destruct (CreateHttpServer env true st) as [[ok st1]| | |] eqn:Hc;
          cbn [obind]; try discriminate.
        apply (reach_server env) in Hc.
        destruct ok; cbn [negb obind]; intros [= <- <-]; [exact Hc|].
        eapply reach_trans; [exact Hc|]. apply reach_quiet. quiet_log.
      * cbn [obind]. intros [= <- <-]. apply reach_refl.
    + cbn [obind]. intros [= <- <-]. apply reach_quiet. quiet_log.
  - destruct (Show env bld win where_ st) as [[[r w] st1]| | |] eqn:Hc;
      cbn [obind]; try discriminate.
    intros [= <- <-]. eapply Show_reach; eassumption.
Qed.

Lemma run_ops_reach (env : Env) (bld : Build) (ops : list Op) :
  forall st ids st', run_ops env bld ops st = Normal (ids, st') -> reach env st st'.
Proof.
  induction ops as [|op ops IH]; intros st ids st'; cbn [run_ops].
  - intros [= <- <-]. apply reach_refl.
  - destruct (step_op env bld op st) as [[new st1]| | |] eqn:Hs;
      cbn [obind]; try discriminate.
    destruct (run_ops env bld ops st1) as [[ids1 st2]| | |] eqn:Hr;
      cbn [obind]; try discriminate.
    intros [= <- <-]. eapply reach_trans; [eapply step_op_reach|eapply IH]; eassumption.
Qed.

(** The three things that survive every step. *)
Lemma reach_server_kept (env : Env) (st st' : State) :
  reach env st st' -> is_Some (fServer st) -> is_Some (fServer st').
Proof.
  induction 1 as [st st' (Hq & _)|b st r st' Hc|]; auto.
  intros _. apply ServerFacts.CreateHttpServer_effect in Hc. tauto.
Qed.

Lemma reach_bound_inv (env : Env) (st st' : State) :
  reach env st st' -> bound_inv st -> bound_inv st'.
Proof.
  induction 1 as [st st' Hq|b st r st' Hc|]; auto.
  - apply bound_inv_quiet, Hq.
  - eapply CreateHttpServer_bound_inv, Hc.
Qed.

Lemma reach_sticky (env : Env) (st st' : State) :
  reach env st st' -> empty (fAddr st) = false ->
  fAddr st' = fAddr st /\ bind_attempts (trace st') = bind_attempts (trace st).
Proof.
  induction 1 as [st st' (_ & Ha & Hb & _)|b st r st' Hc|st1 st2 st3 H1 IH1 H2 IH2];
    intros He.
  - auto.
  - unfold CreateHttpServer in Hc.
    destruct (ensure_fServer_trace st) as (E1 & E2 & _).
    rewrite E1, He, orb_true_r in Hc. injection Hc as <- <-.
    rewrite E1, E2. auto.
  - destruct (IH1 He) as [A1 A2]. rewrite <- A1 in He.
    destruct (IH2 He) as [B1 B2]. split; congruence.
Qed.

End ReachFacts.

(** X4.  Across any run of manager calls that starts from a state where
    the address is cached exactly when one bind has succeeded (the initial
    manager is such a state), this stays so: the manager never holds an
    address without a successful bind and never binds a second engine. *)
Theorem never_binds_twice (env : Env) (bld : Build) (ops : list Op)
    (st : State) (ids : list Z) (st' : State) :
  run_ops env bld ops st = Normal (ids, st') ->
  bound_inv st ->
  bound_inv st' /\ (successful_binds (trace st') <= 1)%nat /\
  (fAddr st' = "" <-> successful_binds (trace st') = O).
Proof.
  intros H Hinv. apply ReachFacts.run_ops_reach in H.
  pose proof (ReachFacts.reach_bound_inv env st st' H Hinv) as Hb.
  split; [exact Hb|]. unfold bound_inv in Hb.
  destruct (Str.empty (fAddr st')) eqn:E.
  - apply String.eqb_eq in E. split; [lia|]. split; auto.
  - apply String.eqb_neq in E. split; [lia|]. split; [contradiction|lia].
Qed.

Lemma never_binds_twice_witness :
  run_ops env_free linux_build ops_bind_once initial = Normal ([1], state_bind_once) /\
  successful_binds (trace state_bind_once) = 1%nat /\
  fAddr state_bind_once = "http://localhost:9300".
Proof.
  assert (H : run_ops env_free linux_build ops_bind_once initial =
              Normal ([1], state_bind_once)) by (vm_compute; reflexivity).
  split; [exact H|]. split; [|vm_compute; reflexivity].
  destruct (never_binds_twice env_free linux_build ops_bind_once initial [1]
              state_bind_once H eq_refl) as (_ & Hle & Hiff).
  destruct (successful_binds (trace state_bind_once)) as [|[|n]] eqn:E;
    [|reflexivity|lia].
  exfalso. assert (Ha : fAddr state_bind_once = "") by (apply Hiff; reflexivity).
  vm_compute in Ha. discriminate Ha.
Defined.

(** X5.  Once an address is cached, no run of manager calls changes it or
    makes another bind attempt, and the server object, once made, is never
    dropped. *)
Theorem bound_address_is_sticky (env : Env) (bld : Build) (ops : list Op)
    (st : State) (ids : list Z) (st' : State) :
  run_ops env bld ops st = Normal (ids, st') ->
  (is_Some (fServer st) -> is_Some (fServer st')) /\
  (fAddr st <> "" ->
   fAddr st' = fAddr st /\ bind_attempts (trace st') = bind_attempts (trace st)).
Proof.
  intros H. apply ReachFacts.run_ops_reach in H. split.
  - apply (ReachFacts.reach_server_kept env st st' H).
  - intros Hne. apply (ReachFacts.reach_sticky env st st' H).
    apply String.eqb_neq. exact Hne.
Qed.

Lemma bound_address_is_sticky_witness :
  run_ops env_all_busy linux_build ops_after_bind bound_state =
    Normal ([], state_after_bind) /\
  fAddr state_after_bind = fAddr bound_state /\
  bind_attempts (trace state_after_bind) = bind_attempts (trace bound_state).
Proof.
  assert (H : run_ops env_all_busy linux_build ops_after_bind bound_state =
              Normal ([], state_after_bind)) by (vm_compute; reflexivity).
  split; [exact H|].
  apply (proj2 (bound_address_is_sticky env_all_busy linux_build ops_after_bind
                  bound_state [] state_after_bind H)).
  vm_compute. discriminate.
Defined.

(* ===================================================================== *)
(** * 19. More on Show                                                    *)
(* ===================================================================== *)

Module LaunchFacts.
Import Str StrFacts.

Lemma launches_log (e : Event) (st : State) :
  is_launch e = false -> launches (trace (log e st)) = launches (trace st).
Proof. intros H. cbn. rewrite H. reflexivity. Qed.

Lemma keyloop_launches (env : Env) (win : TWebWindow) (n : nat) :
  forall st, launches (trace (snd (Show_keyloop env win n st))) = launches (trace st).
Proof.
  induction n as [|n IH]; intros st; cbn [Show_keyloop]; unfold gRandom_Integer.
  - reflexivity.
  - match goal with |- context [(0 <? Z.of_nat n) && ?b] =>
      destruct ((0 <? Z.of_nat n) && b) end; [rewrite IH|]; reflexivity.
Qed.

Lemma loop_launches (env : Env) (c : HttpConfig) (fuel : nat) :
  forall ntry port st r st',
    CreateHttpServer_loop fuel env c ntry port st = Normal (r, st') ->
    launches (trace st') = launches (trace st).
Proof.
  induction fuel as [|fuel IH]; intros ntry port st r st' H; [discriminate H|].
  cbn [CreateHttpServer_loop] in H.
  destruct (ntry >=? 0); [|injection H as <- <-; reflexivity].
  destruct ((port =? 0) && ((http_min c <=? 0) || (http_max c <=? http_min c))).
  { injection H as <- <-. reflexivity. }
  set (d := if port =? 0 then draw_port env c st else (port, st)) in H.
  assert (Hd : launches (trace (snd d)) = launches (trace st)).
  { subst d. destruct (port =? 0); reflexivity. }
  destruct d as [port1 st1]. cbn [snd] in Hd.
  destruct (engine_and_url c port1) as [engine url].
  destruct (fServer st1) as [srv|]; [|discriminate H].
  unfold do_CreateEngine in H.
  destruct (CreateEngine env (trace st1) engine).
  - injection H as <- <-. exact Hd.
  - apply IH in H. rewrite H. exact Hd.
Qed.

Lemma CreateHttpServer_launches (env : Env) (b : bool) (st : State) r st' :
  CreateHttpServer env b st = Normal (r, st') ->
  launches (trace st') = launches (trace st).
Proof.
  unfold CreateHttpServer.
  destruct (ServerMore.ensure_fServer_trace st) as (_ & E2 & _).
  destruct (negb b || negb (empty (fAddr (ensure_fServer st)))).
  { intros [= <- <-]. rewrite E2. reflexivity. }
  destruct (GetValue_int env "WebGui.HttpPort" 0 <? 0).
  { intros [= <- <-]. cbn. rewrite E2. reflexivity. }
  intros H. apply loop_launches in H. rewrite H.
  destruct (GetValue_int env "WebGui.HttpPort" 0 =? 0); cbn; rewrite E2; reflexivity.
Qed.

Lemma find_or_load_launches (env : Env) (sym lib : string) (st : State) :
  launches (trace (snd (find_or_load env sym lib st))) = launches (trace st).
Proof. unfold find_or_load. destruct (DynFindSymbol env (trace st) sym); reflexivity. Qed.

Lemma batch_check_launches (env : Env) (k : Where) (win : TWebWindow) (st : State) :
  match Show_batch_check env k win st with
  | Return r _ st' => r = false /\ launches (trace st') = launches (trace st)
  | Continue st' =>
      st' = st /\
      (fBatchMode win = true ->
       is_cef k = true \/ is_chrome k = true \/ is_firefox k = true)
  end.
Proof.
  unfold Show_batch_check.
  destruct (fBatchMode win); [|split; [reflexivity|discriminate]].
  destruct (is_cef k) eqn:E1; cbn [negb andb].
  - destruct (Getenv env "DISPLAY") as [d|]; [|auto].
    destruct (empty d); auto.
  - destruct (is_chrome k), (is_firefox k); cbn [negb andb]; auto.
Qed.

Lemma cef_launches (env : Env) (bld : Build) (k : Where) (win : TWebWindow)
    (w key addr : string) (st : State) :
  match Show_cef env bld k win key addr st with
  | Return r win' st' => r = true /\ outcome bld k w key win st r win' st'
  | Continue st' => launches (trace st') = launches (trace st)
  end.
Proof.
  unfold Show_cef.
  destruct (R__HAS_CEFWEB bld) eqn:Hb; [|reflexivity].
  destruct (Getenv env "CEF_PATH") as [cef|]; [|reflexivity].
  destruct (Getenv env "ROOTSYS") as [root|]; [|reflexivity].
  destruct (negb (AccessPathName env cef) && (is_native k || is_cef k)); [|reflexivity].
  pose proof (find_or_load_launches env "webgui_start_browser_in_cef3"
                "libROOTCefDisplay" st) as Hf.
  destruct (find_or_load env _ _ st) as [[|] st1]; cbn [snd] in Hf; [|exact Hf].
  split; [reflexivity|]. split; [cbn; lia|].
  intros _. eexists. split; [reflexivity|].
  eapply launch_cef; [reflexivity | exact Hb | reflexivity].
Qed.

Lemma qt5_launches (env : Env) (bld : Build) (k : Where) (win : TWebWindow)
    (w key addr : string) (st : State) :
  match Show_qt5 env bld k win key addr st with
  | Return r win' st' => r = true /\ outcome bld k w key win st r win' st'
  | Continue st' => launches (trace st') = launches (trace st)
  end.
Proof.
  unfold Show_qt5.
  destruct (R__HAS_QT5WEB bld) eqn:Hb; cbn [andb]; [|reflexivity].
  destruct (is_native k || is_qt5 k); [|reflexivity].
  pose proof (find_or_load_launches env "webgui_start_browser_in_qt5"
                "libROOTQt5WebDisplay" st) as Hf.
  destruct (find_or_load env _ _ st) as [[|] st1]; cbn [snd] in Hf; [|exact Hf].
  split; [reflexivity|]. split; [cbn; lia|].
  intros _. eexists. split; [reflexivity|].
  eapply launch_qt5; [reflexivity | exact Hb | reflexivity].
Qed.

Lemma fork_launches (env : Env) (bld : Build) (k : Where) (win : TWebWindow)
    (w key prog exec : string) (st : State) r win' st' :
  empty (fAddr st) = false ->
  Show_fork env bld win key prog exec st = (r, win', st') ->
  outcome bld k w key win st r win' st'.
Proof.
  intros Ha. unfold Show_fork, outcome.
  destruct (MSC_VER bld) eqn:Hm; cbn [negb].
  { intros [= <- <- <-]. split; [cbn; lia|discriminate]. }
  destruct (GetLast (Tokenize (substr exec 5) " ") <=? 0).
  { intros [= <- <- <-]. split; [lia|discriminate]. }
  destruct (posix_spawn env (trace st) _) as [status pid].
  destruct (status =? 0) eqn:Hs; cbn [negb]; intros [= <- <- <-].
  - apply Z.eqb_eq in Hs. subst status. split; [cbn; lia|].
    intros _. eexists. split; [reflexivity|].
    eapply launch_spawn; [reflexivity | exact Hm | reflexivity | exact Ha].
  - split; [cbn; rewrite Hs; lia | discriminate].
Qed.

Lemma browser_launches (env : Env) (bld : Build) (k : Where) (win : TWebWindow)
    (where_ key addr : string) (st : State) r win' st' :
  Show_browser env bld k win where_ key addr st = Normal (r, win', st') ->
  outcome bld k where_ key win st r win' st'.
Proof.
  unfold Show_browser.
  destruct (CreateHttpServer env true st) as [[ok st1]| | |] eqn:Hc;
    cbn [obind]; try discriminate.
  pose proof (CreateHttpServer_launches env true st ok st1 Hc) as Hl.
  apply ServerFacts.CreateHttpServer_effect in Hc.
  destruct Hc as (_ & _ & _ & Ha & _).
  destruct ok; cbn [negb].
  2:{ intros [= <- <- <-]. split; [cbn; lia|discriminate]. }
  specialize (Ha eq_refl eq_refl).
  destruct (Show_template env bld k win where_) as [[prog testprogs] exec].
  match goal with |- context [negb (find_ne_0 ?e "fork:")] =>
    destruct (negb (find_ne_0 e "fork:")) end.
  - intros [= H]. apply (fork_launches env bld k win where_) in H; [|exact Ha].
    unfold outcome in *. rewrite <- Hl. exact H.
  - intros [= <- <- <-]. split; [cbn; lia|].
    intros _. eexists. split; [reflexivity|].
    eapply launch_exec; [reflexivity | reflexivity | exact Ha].
Qed.

(** [Show] as a whole. *)
Lemma Show_outcome (env : Env) (bld : Build) (win : TWebWindow) (_where : string)
    (st : State) r win' st' :
  Show env bld win _where st = Normal (r, win', st') ->
  launches (trace st') = (launches (trace st) + if r then 1 else 0)%nat /\
  (r = true ->
   (fBatchMode win = true ->
    is_cef (classify bld (effective_where env _where)) = true \/
    is_chrome (classify bld (effective_where env _where)) = true \/
    is_firefox (classify bld (effective_where env _where)) = true) /\
   exists key tag,
     win' = AddKey key tag win /\
     Launch bld (classify bld (effective_where env _where))
            (effective_where env _where) tag st').
Proof.
  unfold Show. fold (effective_where env _where).
  set (w := effective_where env _where). set (k := classify bld w).
  destruct (fServer st) eqn:Hs.
  2:{ intros [= <- <- <-]. split; [cbn; lia|discriminate]. }
  pose proof (keyloop_launches env win 1000 st) as Hk.
  destruct (Show_keyloop env win 1000 st) as [[key ntry] st1]. cbn [snd] in Hk.
  destruct (ntry =? 0).
  { intros [= <- <- <-]. split; [cbn; lia|discriminate]. }
  unfold Show_addr.
  destruct (GetUrl env win false st1) as [[a st2]| | |] eqn:Hg;
    cbn [obind]; try discriminate.
  assert (H2 : launches (trace st2) = launches (trace st)).
  { unfold GetUrl in Hg. destruct (fServer st1).
    - destruct (fWSHandler win); [|discriminate]. injection Hg as <- <-. exact Hk.
    - injection Hg as <- <-. exact Hk. }
  pose proof (batch_check_launches env k win st2) as Hb.
  destruct (Show_batch_check env k win st2) as [rb wb sb|sb].
  { destruct Hb as (-> & Hb). intros [= <- <- <-]. split; [lia|discriminate]. }
  destruct Hb as (-> & Hbatch).
  set (addr := (if contains a "?" then a +:+ "&key=" else a +:+ "?key=") +:+ key).
  assert (Hfin : forall st3 r win' st',
            launches (trace st3) = launches (trace st) ->
            outcome bld k w key win st3 r win' st' ->
            launches (trace st') = (launches (trace st) + if r then 1 else 0)%nat /\
            (r = true ->
             (fBatchMode win = true ->
              is_cef k = true \/ is_chrome k = true \/ is_firefox k = true) /\
             exists key tag, win' = AddKey key tag win /\ Launch bld k w tag st')).
  { intros st3 r0 w0 s0 E (O1 & O2). split; [lia|].
    intros Hr. split; [exact Hbatch|]. destruct (O2 Hr) as (tag & -> & HL). eauto. }
  pose proof (cef_launches env bld k win w key addr st2) as Hcef.
  destruct (Show_cef env bld k win key addr st2) as [rc wc sc|sc].
  { destruct Hcef as (-> & Hcef). intros [= <- <- <-].
    exact (Hfin st2 true wc sc H2 Hcef). }
  pose proof (qt5_launches env bld k win w key addr sc) as Hqt.
  destruct (Show_qt5 env bld k win key addr sc) as [rq wq sq|sq].
  { destruct Hqt as (-> & Hqt). intros [= <- <- <-].
    refine (Hfin sc true wq sq _ Hqt). congruence. }
  intros H. apply browser_launches in H.
  refine (Hfin sq r win' st' _ H). congruence.
Qed.

End LaunchFacts.

(** X6.  A successful [Show] starts exactly one display client (one call
    of an embedded display, one successful posix_spawn or one shell
    command); a failing [Show] starts none. *)
Theorem Show_launches_once (env : Env) (bld : Build) (win : TWebWindow)
    (_where : string) (st : State) (r : bool) (win' : TWebWindow) (st' : State) :
  Show env bld win _where st = Normal (r, win', st') ->
  launches (trace st') = (launches (trace st) + if r then 1 else 0)%nat.
Proof. intros H. exact (proj1 (LaunchFacts.Show_outcome _ _ _ _ _ _ _ _ H)). Qed.

Lemma Show_launches_once_witness :
  exists st',
    Show env_spawn_fails linux_build (win_w12 true) "chrome" server_state =
      Normal (false, win_w12 true, st') /\
    launches (trace st') = 0%nat /\
    head (trace st') = Some (EvError "Fail to launch chrome").
Proof.
  eexists. split; [vm_compute; reflexivity|].
  split; [|vm_compute; reflexivity].
  refine (Show_launches_once env_spawn_fails linux_build (win_w12 true) "chrome"
            server_state false (win_w12 true) _ _).
  vm_compute. reflexivity.
Defined.

(** X7.  A window in batch mode is shown only headless: if [Show] succeeds
    on it, the place asked for (the configured default when none is given)
    is "cef", "chrome", "chromium" or "firefox", or it is empty or
    "native" in a build with CEF. *)
Theorem Show_batch_needs_headless (env : Env) (bld : Build) (win : TWebWindow)
    (_where : string) (st : State) (win' : TWebWindow) (st' : State) :
  Show env bld win _where st = Normal (true, win', st') ->
  fBatchMode win = true ->
  let w := effective_where env _where in
  w = "cef" \/ w = "chrome" \/ w = "chromium" \/ w = "firefox" \/
  (R__HAS_CEFWEB bld = true /\ (w = "" \/ w = "native")).
Proof.
  intros H Hb w. apply LaunchFacts.Show_outcome in H.
  destruct H as (_ & H). destruct (H eq_refl) as (Hk & _).
  specialize (Hk Hb). fold w in Hk. unfold classify in Hk. cbn in Hk.
  destruct Hk as [Hk | [Hk | Hk]].
  - destruct (R__HAS_CEFWEB bld) eqn:Hc; cbn [andb] in Hk.
    + destruct (Str.empty w || String.eqb w "native") eqn:Hn.
      * right; right; right; right. split; [reflexivity|].
        apply orb_true_iff in Hn. destruct Hn as [Hn|Hn];
          apply String.eqb_eq in Hn; auto.
      * left. apply String.eqb_eq. exact Hk.
    + left. apply String.eqb_eq. exact Hk.
  - apply orb_true_iff in Hk. destruct Hk as [Hk|Hk]; apply String.eqb_eq in Hk; auto.
  - apply String.eqb_eq in Hk. auto 6.
Qed.

Lemma Show_batch_needs_headless_witness :
  Show env_free linux_build (win_w12 true) "chrome" server_state =
    Normal (true, win_shown_chrome, state_shown_chrome) /\
  effective_where env_free "chrome" = "chrome".
Proof.
  assert (H : Show env_free linux_build (win_w12 true) "chrome" server_state =
              Normal (true, win_shown_chrome, state_shown_chrome))
    by (vm_compute; reflexivity).
  split; [exact H|].
  destruct (Show_batch_needs_headless env_free linux_build (win_w12 true) "chrome"
              server_state _ _ H eq_refl) as [E|[E|[E|[E|[E _]]]]];
    first [exact E | discriminate E].
Defined.

(** X8.  After a successful [Show] the key table is the one before with
    one entry [key -> tag] put in, and the tag and the last entry of the
    trace are one of four pairs: "cef" with a call of the CEF display (in
    a build that has it), "qt5" with a call of the Qt5 display (in a build
    that has it), "pid:<pid>" with a posix_spawn that returned status 0
    and the process id [pid] (not under [_MSC_VER]), or the place asked for
    (the configured default when none is given) with a shell command; in
    the last two cases the server is bound to an address.  The kind of
    launch fixes the tag, not the other way round: a shell command records
    the place asked for whatever it reads, so that a window shown in "cef"
    by a build without CEF holds the tag "cef" for an xdg-open command. *)
Theorem Show_recorded_tag (env : Env) (bld : Build) (win : TWebWindow)
    (_where : string) (st : State) (win' : TWebWindow) (st' : State) :
  Show env bld win _where st = Normal (true, win', st') ->
  exists key tag,
    fKeys win' = <[key := tag]> (fKeys win) /\
    Launch bld (classify bld (effective_where env _where))
           (effective_where env _where) tag st'.
Proof.
  intros H. apply LaunchFacts.Show_outcome in H.
  destruct H as (_ & H). destruct (H eq_refl) as (_ & key & tag & -> & HL).
  exists key, tag. split; [reflexivity | exact HL].
Qed.

Lemma Show_recorded_tag_witness :
  (exists key tag,
     fKeys win_shown_chrome = <[key := tag]> (fKeys (win_w12 true)) /\
     Launch linux_build (classify linux_build (effective_where env_free "chrome"))
            (effective_where env_free "chrome") tag state_shown_chrome) /\
  (exists key tag,
     fKeys (shown_window shown_cef_without_CEF) = <[key := tag]> (fKeys (win_w12 false)) /\
     Launch linux_build (classify linux_build (effective_where env_free "cef"))
            (effective_where env_free "cef") tag (shown_state shown_cef_without_CEF)) /\
  shown_window shown_cef_without_CEF = AddKey "524288" "cef" (win_w12 false) /\
  head (trace (shown_state shown_cef_without_CEF)) =
    Some (EvExec "xdg-open 'http://localhost:9300/web7gui/w12/?key=524288' &").
Proof.
  split; [|split; [|split]].
  - apply (Show_recorded_tag env_free linux_build (win_w12 true) "chrome" server_state).
    vm_compute. reflexivity.
  - apply (Show_recorded_tag env_free linux_build (win_w12 false) "cef" server_state).
    vm_compute. reflexivity.
  - vm_compute. reflexivity.
  - vm_compute. reflexivity.
Defined.

(** X9.  In a build without embedded displays a successful [Show] has the
    server bound: the address is cached and one bind has succeeded, so
    [Show] cannot succeed when no port can be bound. *)
Theorem Show_needs_bound_server (env : Env) (bld : Build) (win : TWebWindow)
    (_where : string) (st : State) (win' : TWebWindow) (st' : State) :
  R__HAS_CEFWEB bld = false -> R__HAS_QT5WEB bld = false ->
  bound_inv st ->
  Show env bld win _where st = Normal (true, win', st') ->
  fAddr st' <> "" /\ successful_binds (trace st') = 1%nat.
Proof.
  intros Hc Hq Hinv H.
  pose proof (ReachFacts.reach_bound_inv env st st' (ReachFacts.Show_reach _ _ _ _ _ _ _ _ H) Hinv)
    as Hb.
  apply LaunchFacts.Show_outcome in H.
  destruct H as (_ & H). destruct (H eq_refl) as (_ & key & tag & _ & HL).
  assert (Ha : Str.empty (fAddr st') = false).
  { destruct HL as [? ? ? ? ? ? _ Hx _ | ? ? ? ? _ Hx _ | ? ? _ _ _ Ha | ? _ _ Ha];
      [congruence | congruence | exact Ha | exact Ha]. }
  unfold bound_inv in Hb. rewrite Ha in Hb. split; [|exact Hb].
  apply String.eqb_neq. exact Ha.
Qed.

Lemma Show_needs_bound_server_witness :
  fAddr state_shown_chrome = "http://localhost:9300" /\
  successful_binds (trace state_shown_chrome) = 1%nat.
Proof.
  destruct (Show_needs_bound_server env_free linux_build (win_w12 true) "chrome"
              server_state win_shown_chrome state_shown_chrome
              eq_refl eq_refl eq_refl) as [H1 H2]; [vm_compute; reflexivity|].
  split; [vm_compute; reflexivity | exact H2].
Defined.

(** X10.  The tag recorded for a spawned client leads [HaltClient] back to
    that client: when [Show] succeeds with a posix_spawn that returned the
    process id [pid], the window holds the tag "pid:<pid>", and
    [HaltClient] on that tag, in any later state, returns normally having
    sent SIGKILL to [pid] and to nothing else (nothing at all when [pid]
    is not positive). *)
Theorem Show_then_HaltClient (env : Env) (bld : Build) (win : TWebWindow)
    (_where : string) (st : State) (win' : TWebWindow) (st' : State)
    (argv : list string) (pid : Z) :
  Show env bld win _where st = Normal (true, win', st') ->
  head (trace st') = Some (EvSpawn argv 0 pid) ->
  Str.INT_MIN <= pid <= Str.INT_MAX ->
  exists key,
    fKeys win' !! key = Some ("pid:" +:+ Str.to_string pid) /\
    forall s, HaltClient bld ("pid:" +:+ Str.to_string pid) s =
              Normal (if 0 <? pid then log (EvKill pid SIGKILL) s else s).
Proof.
  intros H Hh Hr. apply LaunchFacts.Show_outcome in H.
  destruct H as (_ & H). destruct (H eq_refl) as (_ & key & tag & -> & HL).
  destruct HL as [? ? ? ? ? ? _ _ Hx | ? ? ? ? _ _ Hx | argv' pid' Ht Hm Hx _ | ? _ Hx _];
    rewrite Hh in Hx; try discriminate Hx.
  injection Hx as <- <-. subst tag.
  exists key. split; [cbn; apply lookup_insert_eq|].
  intros s. unfold HaltClient.
  rewrite HaltFacts.find_pid_app, HaltFacts.substr_pid.
  pose proof (StrFacts.stoi_to_string pid "" Hr I) as Hs.
  assert (E : forall x : string, x +:+ "" = x).
  { induction x as [|c x IH]; [reflexivity|].
    rewrite StrFacts.append_String, IH. reflexivity. }
  rewrite E in Hs. rewrite Hs. cbn [obind]. rewrite Hm. cbn [negb].
  rewrite Z.gtb_ltb. destruct (0 <? pid); reflexivity.
Qed.

Lemma Show_then_HaltClient_witness :
  exists key,
    fKeys win_shown_chrome !! key = Some "pid:4242" /\
    HaltClient linux_build "pid:4242" state_shown_chrome =
      Normal (log (EvKill 4242 SIGKILL) state_shown_chrome).
Proof.
  destruct (Show_then_HaltClient env_free linux_build (win_w12 true) "chrome"
              server_state win_shown_chrome state_shown_chrome
              ["chrome"; "--headless"; "--disable-gpu"; "--disable-webgl";
               "--remote-debugging-socket-fd=0";
               "http://localhost:9300/web7gui/w12/?batch_mode&key=524288"] 4242)
    as (key & H1 & H2);
    [vm_compute; reflexivity | vm_compute; reflexivity
     | unfold Str.INT_MIN, Str.INT_MAX; lia |].
  exists key. split; [exact H1 | exact (H2 state_shown_chrome)].
Defined.

(* ===================================================================== *)
(** * 20. More on windows, URLs, HaltClient, WaitFor and the key loop     *)
(* ===================================================================== *)

(** X11.  When [CreateHttpServer()] does not ask for the network by
    default, [CreateWindow] cannot fail: it returns a window with the next
    id, no keys, the handler named after the id and the batch flag asked
    for or forced by the global switch; it registers that handler and
    neither binds a port nor touches the cached address. *)
Theorem CreateWindow_without_network (env : Env) (bld : Build) (b : bool) (st : State) :
  CreateHttpServer_default bld = false ->
  exists win st',
    CreateWindow env bld b st = Normal (Some win, st') /\
    fId win = fIdCnt st + 1 /\ fIdCnt st' = fIdCnt st + 1 /\
    fBatchMode win = b || IsWebDisplayBatch env /\
    fKeys win = ∅ /\
    fWSHandler win = Some (handler_name env (fIdCnt st + 1)) /\
    fAddr st' = fAddr st /\
    trace st' = EvRegister "/web7gui" (handler_name env (fIdCnt st + 1)) :: trace st.
Proof.
  intros Hd. unfold CreateWindow. rewrite Hd.
  change (CreateHttpServer env false st) with (Normal (true, ensure_fServer st)).
  cbn [obind negb].
  destruct (ServerMore.ensure_fServer_trace st) as (E1 & E2 & E3).
  destruct (ServerFacts.ensure_fServer_Some st) as [srv Hs].
  cbn [fServer set_fIdCnt]. rewrite Hs.
  eexists _, _. split; [reflexivity|]. cbn. rewrite E1, E2, E3. auto 10.
Qed.

Lemma CreateWindow_without_network_witness :
  exists win st',
    CreateWindow env_free linux_build true initial = Normal (Some win, st') /\
    fId win = 1 /\ fBatchMode win = true /\ fKeys win = ∅ /\
    fWSHandler win = Some "win1" /\ fAddr st' = "" /\
    trace st' = [EvRegister "/web7gui" "win1"].
Proof.
  destruct (CreateWindow_without_network env_free linux_build true initial eq_refl)
    as (win & st' & H & H1 & _ & H3 & H4 & H5 & H6 & H7).
  exists win, st'. split; [exact H|]. split; [exact H1|]. split; [exact H3|].
  split; [exact H4|]. split; [exact H5|]. split; [exact H6 | exact H7].
Defined.

(** X12.  [CreateWindow] returns no window only when the default asks for
    the network, no address is cached and the bind fails; it then uses up
    no id and reports the error. *)
Theorem CreateWindow_failure (env : Env) (bld : Build) (b : bool) (st st' : State) :
  CreateWindow env bld b st = Normal (None, st') ->
  CreateHttpServer_default bld = true /\
  fAddr st = "" /\ fAddr st' = "" /\
  fIdCnt st' = fIdCnt st /\
  head (trace st') = Some (EvError "Cannot create http server when creating window").
Proof.
  unfold CreateWindow.
  destruct (CreateHttpServer env (CreateHttpServer_default bld) st)
    as [[ok st1]| | |] eqn:Hc; cbn [obind]; try discriminate.
  pose proof Hc as He. apply ServerFacts.CreateHttpServer_effect in He.
  destruct He as (Hid & [srv Hs] & Hf & _).
  destruct ok; cbn [negb].
  { cbn. rewrite Hs. discriminate. }
  intros [= <-]. specialize (Hf eq_refl).
  unfold CreateHttpServer in Hc.
  destruct (ServerMore.ensure_fServer_trace st) as (E1 & _).
  rewrite E1 in Hc.
  destruct (CreateHttpServer_default bld); cbn [negb orb] in Hc; [|discriminate].
  destruct (Str.empty (fAddr st)) eqn:Ha; cbn [negb] in Hc; [|discriminate].
  apply String.eqb_eq in Ha. cbn. rewrite Hf, Ha. auto.
Qed.

Lemma CreateWindow_failure_witness :
  exists st',
    CreateWindow env_all_busy linux_build_http false initial = Normal (None, st') /\
    fIdCnt st' = 0.
Proof.
  eexists. split; [vm_compute; reflexivity|].
  refine (proj1 (proj2 (proj2 (proj2
            (CreateWindow_failure env_all_busy linux_build_http false initial _ _))))).
  vm_compute. reflexivity.
Defined.

(** X13.  A remote URL is the cached address followed by the local URL:
    when [GetUrl(win, true)] gives a non-empty string, the address is
    cached, [GetUrl(win, false)] in the state reached changes nothing, and
    the remote URL is the address followed by what it returns. *)
Theorem GetUrl_remote_is_address_then_local (env : Env) (win : TWebWindow)
    (st : State) (url : string) (st' : State) :
  GetUrl env win true st = Normal (url, st') -> url <> "" ->
  fAddr st' <> "" /\
  exists loc,
    GetUrl env win false st' = Normal (loc, st') /\
    url = fAddr st' +:+ loc.
Proof.
  unfold GetUrl. destruct (fServer st) as [srv|]; [|intros [= <- <-]; congruence].
  destruct (fWSHandler win) as [name|]; [|discriminate].
  destruct (CreateHttpServer env true st) as [[ok st1]| | |] eqn:Hc;
    cbn [obind]; try discriminate.
  apply ServerFacts.CreateHttpServer_effect in Hc.
  destruct Hc as (_ & [srv1 Hs] & _ & Ha & _).
  destruct ok; cbn [negb]; intros [= <- <-]; [|congruence].
  intros _. specialize (Ha eq_refl eq_refl). split.
  - apply String.eqb_neq. exact Ha.
  - rewrite Hs. eexists. split; reflexivity.
Qed.

Lemma GetUrl_remote_is_address_then_local_witness :
  GetUrl env_free (win_w12 false) true server_state =
    Normal ("http://localhost:9300/web7gui/w12/", state_remote_url) /\
  GetUrl env_free (win_w12 false) false state_remote_url =
    Normal ("/web7gui/w12/", state_remote_url).
Proof.
  assert (H : GetUrl env_free (win_w12 false) true server_state =
              Normal ("http://localhost:9300/web7gui/w12/", state_remote_url))
    by (vm_compute; reflexivity).
  split; [exact H|].
  destruct (GetUrl_remote_is_address_then_local env_free (win_w12 false) server_state
              _ _ H ltac:(discriminate)) as (_ & loc & H1 & H2).
  rewrite H1. f_equal. f_equal.
  assert (E : fAddr state_remote_url = "http://localhost:9300") by (vm_compute; reflexivity).
  rewrite E in H2. injection H2 as H2. symmetry. exact H2.
Defined.

(** X14.  The remote URL of a window does not change: once
    [GetUrl(win, true)] has given a non-empty URL, asking again, under any
    configuration, gives the same URL and changes nothing. *)
Theorem GetUrl_remote_stable (env env2 : Env) (win : TWebWindow)
    (st : State) (url : string) (st' : State) :
  GetUrl env win true st = Normal (url, st') -> url <> "" ->
  GetUrl env2 win true st' = Normal (url, st').
Proof.
  unfold GetUrl. destruct (fServer st) as [srv|]; [|intros [= <- <-]; congruence].
  destruct (fWSHandler win) as [name|]; [|discriminate].
  destruct (CreateHttpServer env true st) as [[ok st1]| | |] eqn:Hc;
    cbn [obind]; try discriminate.
  apply ServerFacts.CreateHttpServer_effect in Hc.
  destruct Hc as (_ & Hs & _ & Ha & _).
  destruct ok; cbn [negb]; intros [= <- <-]; [|congruence].
  intros _. specialize (Ha eq_refl eq_refl).
  assert (E : CreateHttpServer env2 true st1 = Normal (true, st1)).
  { unfold CreateHttpServer. rewrite (ServerFacts.ensure_fServer_id st1 Hs), Ha.
    reflexivity. }
  destruct Hs as [srv1 Hs]. rewrite Hs, E. reflexivity.
Qed.

Lemma GetUrl_remote_stable_witness :
  GetUrl env_all_busy (win_w12 false) true state_remote_url =
    Normal ("http://localhost:9300/web7gui/w12/", state_remote_url).
Proof.
  apply (GetUrl_remote_stable env_free env_all_busy (win_w12 false) server_state);
    [vm_compute; reflexivity | discriminate].
Defined.

(** X15.  [HaltClient], when it returns, has left the manager's members
    alone and has either sent nothing or sent one SIGKILL to a positive
    process id, and that only for a tag that begins with "pid:" in a build
    that is not for Windows: it never signals process 0 or a negative id. *)
Theorem HaltClient_kills_only_positive (bld : Build) (tag : string) (st st' : State) :
  HaltClient bld tag st = Normal st' ->
  fServer st' = fServer st /\ fAddr st' = fAddr st /\ fIdCnt st' = fIdCnt st /\
  (kills (trace st') = kills (trace st) \/
   exists pid, 0 < pid <= Str.INT_MAX /\ MSC_VER bld = false /\
               String.prefix "pid:" tag = true /\
               trace st' = EvKill pid SIGKILL :: trace st).
Proof.
  unfold HaltClient. rewrite StrFacts.find_ne_0_prefix.
  destruct (String.prefix "pid:" tag) eqn:Hp; cbn [negb].
  2:{ intros [= <-]. auto. }
  unfold Str.stoi.
  destruct (match Str.skip_space (Str.substr tag 4) with
            | String "-" r => (true, r)
            | String "+" r => (false, r)
            | _ => (false, Str.skip_space (Str.substr tag 4))
            end) as [neg s2].
  destruct (Str.read_digits None s2) as [v|]; [|discriminate].
  set (n := if neg then - v else v).
  destruct ((Str.INT_MIN <=? n) && (n <=? Str.INT_MAX)) eqn:Hr; [|discriminate].
  cbn [obind]. destruct (MSC_VER bld) eqn:Hm; cbn [negb].
  { intros [= <-]. cbn. auto. }
  destruct (n >? 0) eqn:Hn; intros [= <-]; cbn; [|auto].
  repeat split. right. exists n. apply andb_true_iff in Hr.
  repeat split; auto; lia.
Qed.

Lemma HaltClient_kills_only_positive_witness :
  HaltClient linux_build "pid:0" initial = Normal initial /\
  HaltClient linux_build "pid:-1" initial = Normal initial /\
  HaltClient msvc_build "pid:4242" initial =
    Normal (R__ERROR_HERE "kill process on Windows not yet implemented 4242" initial) /\
  kills (trace (R__ERROR_HERE "kill process on Windows not yet implemented 4242" initial)) = [].
Proof.
  assert (H : HaltClient msvc_build "pid:4242" initial =
    Normal (R__ERROR_HERE "kill process on Windows not yet implemented 4242" initial))
    by reflexivity.
  split; [reflexivity|]. split; [reflexivity|]. split; [exact H|].
  destruct (HaltClient_kills_only_positive msvc_build "pid:4242" initial _ H)
    as (_ & _ & _ & [Hk | (pid & _ & Hm & _)]); [exact Hk | discriminate Hm].
Defined.

Module WaitMore.
Import WaitFacts.

Lemma loop_forever (env : Env) (check : WebWindowWaitFunc_t) (tl : Q) (fuel : nat) :
  Qltb 0 tl = false ->
  forall x,
    (forall n, check (trace (snd (wait_rounds env n x))) (fst (wait_rounds env n x)) = 0) ->
    WaitFor_loop fuel env check tl (fst x) (snd x) = NoFuel.
Proof.
  intros Htl. induction fuel as [|fuel IH]; intros x Hz; [reflexivity|].
  rewrite loop_step; [| exact (Hz O) | rewrite Htl; reflexivity].
  apply IH. intros n. rewrite <- !wait_rounds_shift. apply Hz.
Qed.

Lemma loop_inversion (env : Env) (check : WebWindowWaitFunc_t) (tl : Q) (fuel : nat) :
  forall x r st',
    WaitFor_loop fuel env check tl (fst x) (snd x) = Normal (r, st') ->
    exists k, (k < fuel)%nat /\
      (forall j, (j < k)%nat ->
         check (trace (snd (wait_rounds env j x))) (fst (wait_rounds env j x)) = 0 /\
         Qltb 0 tl && Qltb tl (fst (wait_rounds env (S j) x)) = false) /\
      check (trace (snd (wait_rounds env k x))) (fst (wait_rounds env k x)) = r /\
      ((r <> 0 /\ st' = snd (wait_rounds env k x)) \/
       (r = 0 /\ Qltb 0 tl && Qltb tl (fst (wait_rounds env (S k) x)) = true /\
        st' = snd (wait_rounds env (S k) x))).
Proof.
  induction fuel as [|fuel IH]; intros x r st' H; [discriminate H|].
  cbn [WaitFor_loop] in H.
  destruct (check (trace (snd x)) (fst x) =? 0) eqn:Hc.
  - apply Z.eqb_eq in Hc.
    change (log (EvSleep 10) (log EvProcessEvents (snd x))) with (snd (wait_round env x)) in H.
    change (RealTime env (trace (snd (wait_round env x)))) with (fst (wait_round env x)) in H.
    destruct (Qltb 0 tl && Qltb tl (fst (wait_round env x))) eqn:He.
    + injection H as <- <-. exists O. split; [lia|]. split; [intros j Hj; lia|].
      split; [exact Hc|]. right. auto.
    + apply IH in H. destruct H as (k & Hk & Hq & Hr & Hend).
      exists (S k). split; [lia|]. split.
      * intros [|j] Hj; [auto|].
        rewrite (wait_rounds_shift env (S j) x), (wait_rounds_shift env j x).
        apply Hq. lia.
      * rewrite (wait_rounds_shift env (S k) x), (wait_rounds_shift env k x). auto.
  - injection H as <- <-. apply Z.eqb_neq in Hc.
    exists O. split; [lia|]. split; [intros j Hj; lia|]. split; [reflexivity|].
    left. auto.
Qed.

Lemma loop_terminates (env : Env) (check : WebWindowWaitFunc_t) (tl : Q) (n : nat) :
  forall x,
    Qltb 0 tl && Qltb tl (fst (wait_rounds env (S n) x)) = true ->
    exists r st', WaitFor_loop (S n) env check tl (fst x) (snd x) = Normal (r, st').
Proof.
  induction n as [|n IH]; intros x He; cbn [WaitFor_loop].
  - destruct (check (trace (snd x)) (fst x) =? 0); [|eauto].
    change (log (EvSleep 10) (log EvProcessEvents (snd x))) with (snd (wait_round env x)).
    change (RealTime env (trace (snd (wait_round env x)))) with (fst (wait_round env x)).
    cbn [wait_rounds] in He. rewrite He. eauto.
  - destruct (check (trace (snd x)) (fst x) =? 0); [|eauto].
    change (log (EvSleep 10) (log EvProcessEvents (snd x))) with (snd (wait_round env x)).
    change (RealTime env (trace (snd (wait_round env x)))) with (fst (wait_round env x)).
    destruct (Qltb 0 tl && Qltb tl (fst (wait_round env x))); [eauto|].
    apply (IH (wait_round env x)). rewrite <- wait_rounds_shift. exact He.
Qed.

Lemma wait_rounds_members (env : Env) (n : nat) (x : Q * State) :
  fServer (snd (wait_rounds env n x)) = fServer (snd x) /\
  fAddr (snd (wait_rounds env n x)) = fAddr (snd x) /\
  fIdCnt (snd (wait_rounds env n x)) = fIdCnt (snd x).
Proof. induction n as [|n IH]; cbn; auto. Qed.

End WaitMore.

(** X16.  A time limit of 0 (also a negative one when the configured
    default is not positive) means waiting for ever: while the check
    function keeps saying 0 the call does not return, whatever fuel the
    model is given. *)
Theorem WaitFor_zero_limit_waits_forever (env : Env) (check : WebWindowWaitFunc_t)
    (timelimit : Q) (st : State) :
  (effective_limit env timelimit <= 0)%Q ->
  (forall n, check_at env check n st = 0) ->
  forall fuel, WaitFor fuel env check timelimit st = NoFuel.
Proof.
  intros Hl Hz fuel. unfold WaitFor.
  apply (WaitMore.loop_forever env check _ fuel) with (x := (0%Q, st)); [|exact Hz].
  destruct (Qltb 0 (effective_limit env timelimit)) eqn:E; [|reflexivity].
  apply WaitFacts.Qltb_lt in E. exfalso. exact (Qlt_not_le _ _ E Hl).
Qed.

Lemma WaitFor_zero_limit_waits_forever_witness :
  WaitFor 50 env_free never_ready 0 initial = NoFuel.
Proof.
  apply (WaitFor_zero_limit_waits_forever env_free never_ready 0 initial).
  - vm_compute. discriminate.
  - intros n. reflexivity.
Defined.

(** X17.  Whenever [WaitFor] returns, it has made some number k of rounds
    of ProcessEvents and Sleep in which the check function said 0 and the
    limit had not expired, and then either call k of the check function
    gave the non-zero value returned, or it gave 0, the limit in force is
    positive and was exceeded by the time read next, and 0 is returned.
    The manager's members are as before. *)
Theorem WaitFor_returns_inversion (fuel : nat) (env : Env) (check : WebWindowWaitFunc_t)
    (timelimit : Q) (st : State) (r : Z) (st' : State) :
  WaitFor fuel env check timelimit st = Normal (r, st') ->
  let tl := effective_limit env timelimit in
  fServer st' = fServer st /\ fAddr st' = fAddr st /\ fIdCnt st' = fIdCnt st /\
  exists k, (k < fuel)%nat /\
    (forall j, (j < k)%nat ->
       check_at env check j st = 0 /\ expired_after env tl j st = false) /\
    check_at env check k st = r /\
    ((r <> 0 /\ st' = snd (wait_rounds env k (0%Q, st))) \/
     (r = 0 /\ (0 < tl)%Q /\ (tl < fst (wait_rounds env (S k) (0%Q, st)))%Q /\
      st' = snd (wait_rounds env (S k) (0%Q, st)))).
Proof.
  intros H tl. unfold WaitFor in H. fold tl in H.
  apply (WaitMore.loop_inversion env check tl fuel (0%Q, st)) in H.
  destruct H as (k & Hk & Hq & Hr & Hend).
  assert (Hm : fServer st' = fServer st /\ fAddr st' = fAddr st /\ fIdCnt st' = fIdCnt st).
  { destruct Hend as [(_ & ->) | (_ & _ & ->)];
      apply (WaitMore.wait_rounds_members env _ (0%Q, st)). }
  destruct Hm as (M1 & M2 & M3). do 3 (split; [assumption|]).
  exists k. split; [exact Hk|]. split; [exact Hq|]. split; [exact Hr|].
  destruct Hend as [Hn | (H0 & He & Hs)]; [left; exact Hn|].
  right. apply andb_true_iff in He. destruct He as [E1 E2].
  apply WaitFacts.Qltb_lt in E1, E2. auto.
Qed.

Lemma WaitFor_returns_inversion_witness :
  exists k,
    check_at env_free seven_at_third k initial = 7 /\
    snd (wait_rounds env_free 2 (0%Q, initial)) = snd (wait_rounds env_free k (0%Q, initial)).
Proof.
  destruct (WaitFor_returns_inversion 3 env_free seven_at_third (-1) initial 7
              (snd (wait_rounds env_free 2 (0%Q, initial))))
    as (_ & _ & _ & k & _ & _ & Hr & [(_ & Hs) | (H0 & _)]);
    [vm_compute; reflexivity | | discriminate H0].
  exists k. split; [exact Hr | exact Hs].
Defined.

(** X18.  With a positive limit in force [WaitFor] does not block once
    the clock has passed the limit: if the time read after round n+1
    exceeds the limit, the call returns within n+1 calls of the check
    function, whatever that function says. *)
Theorem WaitFor_positive_limit_returns (env : Env) (check : WebWindowWaitFunc_t)
    (timelimit : Q) (st : State) (n : nat) :
  let tl := effective_limit env timelimit in
  (0 < tl)%Q -> (tl < fst (wait_rounds env (S n) (0%Q, st)))%Q ->
  exists r st', WaitFor (S n) env check timelimit st = Normal (r, st').
Proof.
  intros tl Hp He. unfold WaitFor. fold tl.
  apply (WaitMore.loop_terminates env check tl n (0%Q, st)).
  apply andb_true_iff. split; apply WaitFacts.Qltb_lt; assumption.
Qed.

Lemma WaitFor_positive_limit_returns_witness :
  exists r st', WaitFor 3 env_free never_ready (5 # 100) initial = Normal (r, st').
Proof.
  apply (WaitFor_positive_limit_returns env_free never_ready (5 # 100) initial 2);
    reflexivity.
Defined.

(** X19.  The key loop keeps the first key that is free: if the keys drawn
    before the i-th are all taken, the i-th is free and i < 999, the loop
    of [Show] ends after i+1 draws with that key and [ntry = 999 - i],
    which is not 0. *)
Theorem Show_keyloop_first_free (env : Env) (win : TWebWindow) (n i : nat) (st : State) :
  (i < n)%nat ->
  (forall j, (j < i)%nat -> HasKey win (nth_key env j st) = true) ->
  HasKey win (nth_key env i st) = false ->
  Show_keyloop env win (S n) st =
    (nth_key env i st, Z.of_nat (n - i), draws env (S i) st).
Proof.
  revert i st. induction n as [|n IH]; intros i st Hi Hall Hfree; [lia|].
  change (Show_keyloop env win (S (S n)) st) with
    (let '(r, st1) := gRandom_Integer env 1048576 st in
     let key := Str.to_string r in
     if (0 <? Z.of_nat (S n)) && HasKey win key
     then Show_keyloop env win (S n) st1
     else (key, Z.of_nat (S n), st1)).
  destruct (gRandom_Integer env 1048576 st) as [r st1] eqn:Hg.
  assert (Hk0 : nth_key env 0 st = Str.to_string r).
  { unfold nth_key. cbn [draws]. rewrite Hg. reflexivity. }
  assert (Hs : snd (gRandom_Integer env 1048576 st) = st1) by (rewrite Hg; reflexivity).
  replace (0 <? Z.of_nat (S n)) with true by (symmetry; apply Z.ltb_lt; lia).
  cbn [andb]. destruct i as [|i].
  - rewrite Hk0 in Hfree. rewrite Hfree, Hk0. cbn [draws]. rewrite Hs.
    f_equal.
  - assert (Ht : HasKey win (Str.to_string r) = true).
    { rewrite <- Hk0. apply Hall. lia. }
    rewrite Ht. rewrite ShowMore.nth_key_shift, ShowMore.draws_shift, Hs.
    apply IH; [lia | | rewrite <- Hs, <- ShowMore.nth_key_shift; exact Hfree].
    intros j Hj. rewrite <- Hs, <- ShowMore.nth_key_shift. apply Hall. lia.
Qed.

Lemma Show_keyloop_first_free_witness :
  Show_keyloop env_two_collisions win_one_key 1000 server_state =
    ("262144", 997, draws env_two_collisions 3 server_state).
Proof.
  refine (Show_keyloop_first_free env_two_collisions win_one_key 999 2 server_state _ _ _).
  - lia.
  - intros [|[|j]] Hj; [reflexivity | reflexivity | lia].
  - reflexivity.
Defined.

(** X20.  A window that [CreateWindow] has returned can be unregistered
    after any run of manager calls: the server object is still there, so
    [Unregister] returns, having passed the window's handler to the server
    once and left the address and the id counter alone. *)
Theorem Unregister_created_window (env : Env) (bld : Build) (b : bool)
    (st : State) (win : TWebWindow) (st1 : State)
    (ops : list Op) (ids : list Z) (st2 : State) :
  CreateWindow env bld b st = Normal (Some win, st1) ->
  run_ops env bld ops st1 = Normal (ids, st2) ->
  exists st3,
    Unregister win st2 = Normal st3 /\
    trace st3 = EvUnregister (handler_name env (fIdCnt st + 1)) :: trace st2 /\
    fAddr st3 = fAddr st2 /\ fIdCnt st3 = fIdCnt st2.
Proof.
  intros Hc Hr.
  assert (Hs1 : is_Some (fServer st1) /\
                fWSHandler win = Some (handler_name env (fIdCnt st + 1))).
  { unfold CreateWindow in Hc.
    destruct (CreateHttpServer env (CreateHttpServer_default bld) st)
      as [[ok s]| | |] eqn:E; cbn [obind] in Hc; try discriminate.
    apply ServerFacts.CreateHttpServer_effect in E. destruct E as (Hid & [srv Hs] & _).
    destruct ok; cbn [negb] in Hc; [|discriminate].
    cbn in Hc. rewrite Hs in Hc. injection Hc as <- <-. cbn. rewrite Hid. eauto. }
  destruct Hs1 as [Hs1 Hh].
  apply ReachFacts.run_ops_reach in Hr.
  destruct (ReachFacts.reach_server_kept env st1 st2 Hr Hs1) as [srv Hs].
  unfold Unregister. rewrite Hh, Hs. eexists. split; [reflexivity|]. cbn. auto.
Qed.

Lemma Unregister_created_window_witness :
  exists st3,
    Unregister first_window state_bind_once_more = Normal st3 /\
    head (trace st3) = Some (EvUnregister "win1").
Proof.
  destruct (Unregister_created_window env_free linux_build true initial first_window
              state_first_window ops_bind_once [2] state_bind_once_more)
    as (st3 & H1 & H2 & _);
    [vm_compute; reflexivity | vm_compute; reflexivity |].
  exists st3. split; [exact H1|]. rewrite H2. reflexivity.
Defined.

(** Witnesses of three facts proved with the claims: the exact number of
    bind attempts when every bind is refused, the key of a successful
    [Show], and the failure of [Show] when the first 999 keys are taken. *)
Lemma CreateHttpServer_all_refused_witness :
  exists st',
    CreateHttpServer env_all_busy true initial = Normal (false, st') /\
    bind_attempts (trace st') = 101%nat.
Proof.
  destruct (CreateHttpServer_all_refused env_all_busy initial)
    as (st' & H1 & H2 & _);
    [reflexivity | reflexivity | reflexivity | reflexivity | reflexivity |].
  exists st'. split; [exact H1|]. rewrite H2. reflexivity.
Defined.

Lemma Show_key_fresh_witness :
  exists key tag,
    fKeys win_shown_chrome = <[key := tag]> (fKeys (win_w12 true)) /\
    HasKey (win_w12 true) key = false /\ Vocab.decimal_string key.
Proof.
  apply (Show_key_fresh env_free linux_build (win_w12 true) "chrome" server_state
           win_shown_chrome state_shown_chrome).
  - intros tr. vm_compute. discriminate.
  - vm_compute. reflexivity.
Defined.

Lemma Show_key_failure_witness :
  exists st',
    Show env_free linux_build win_one_key "firefox" server_state =
      Normal (false, win_one_key, st') /\
    head (trace st') = Some (EvError "Fail to create unique key for the window").
Proof.
  apply (Show_key_failure env_free linux_build win_one_key "firefox" server_state
           {| srv_name := "basic_sniffer"; srv_engines := []; srv_handlers := [] |}).
  - reflexivity.
  - intros i _. reflexivity.
Defined.

(** X24.  The port drawn at line 134 is not always below [http_max]: with
    the default range 8800..9800 and the random number 1 - 2^-53 the
    product 1000 * r rounds to 1000 - 2^-43 and the sum with 8800 rounds
    up to 9800, so that [CreateHttpServer] binds the port 9800. *)
Lemma draw_port_rounds_up_to_max :
  http_max (read_config env_almost_one) = 9800 /\
  fst (draw_port env_almost_one (read_config env_almost_one) initial) = 9800 /\
  exists st',
    CreateHttpServer env_almost_one true initial = Normal (true, st') /\
    fAddr st' = "http://localhost:9800".
Proof.
  split; [reflexivity|]. split; [vm_compute; reflexivity|].
  eexists. split; vm_compute; reflexivity.
Qed.
